(** * Sample-sheet validator: a shallow embedding of the TypeScript sources

    The embedded functions come from
    - [$lib/utils]                    (module [Utils]),
    - [routes/nextseq500/+page.svelte] (module [NextSeq500]),
    - [routes/nextseq2k/+page.svelte]  (module [NextSeq2k]),
    - a second NextSeq 2000 page, whose file name is not recorded
                                       (module [NextSeq2kAlt]),
    - [routes/ont/+page.svelte]        (module [Ont]).

    JavaScript strings are sequences of UTF-16 code units.  This development
    covers the code units U+0000..U+00FF: a string is a [string] of the
    Standard Library and every [ascii] stands for the code unit with the same
    number.  None of the regular expressions of the sources carries the [u] or
    [i] flag, so they work code unit by code unit. *)

From stdpp Require Import base option list strings gmap.
From Stdlib Require Import Ascii String DecimalString.

Local Open Scope char_scope.
Local Open Scope string_scope.
Local Open Scope list_scope.

(** ** JavaScript primitives used by the sources *)

Module JS.

(** A value that is either [undefined] or a string: what indexing an array
    of strings yields. *)
Inductive value : Type :=
| undefined
| str (s : string).

(** Thrown exceptions: [new Error(msg)] of the sources, and the [TypeError]
    the engine raises when a method is called on [undefined]. *)
Inductive exn : Type :=
| Error (msg : string)
| TypeError.

Inductive result (A : Type) : Type :=
| Ok (a : A)
| Throw (e : exn).
Arguments Ok {A} a.
Arguments Throw {A} e.

Definition code (c : ascii) : nat := nat_of_ascii c.

Definition between (lo hi : nat) (c : ascii) : bool :=
  (lo <=? code c)%nat && (code c <=? hi)%nat.

(** [[a-z]], [[A-Z]], [[0-9]] *)
Definition isLower (c : ascii) : bool := between 97 122 c.
Definition isUpper (c : ascii) : bool := between 65 90 c.
Definition isDigit (c : ascii) : bool := between 48 57 c.

(** [\w] without the [u] and [i] flags is [[A-Za-z0-9_]]. *)
Definition isWord (c : ascii) : bool :=
  isLower c || isUpper c || isDigit c || Ascii.eqb c "_".

(** White space and line terminators removed by [trim], [trimStart] and
    matched by [\s], among U+0000..U+00FF: TAB, LF, VT, FF, CR, SP, NBSP. *)
Definition isSpace (c : ascii) : bool :=
  between 9 13 c || Ascii.eqb c " " || (code c =? 160)%nat.

(** [s.replace(/[class]/g, r)]: every character of the class becomes [r]
    ([r] holds no [$]). *)
Fixpoint replaceEach (cls : ascii -> bool) (r : string) (s : string) : string :=
  match s with
  | EmptyString => EmptyString
  | String a s' =>
      if cls a then r +:+ replaceEach cls r s'
      else String a (replaceEach cls r s')
  end.

Definition startsIn (cls : ascii -> bool) (s : string) : bool :=
  match s with
  | EmptyString => false
  | String b _ => cls b
  end.

(** [s.replace(/[class]+/g, r)]: every maximal run of characters of the
    class becomes one [r].  A character of the class that is followed by
    another one is dropped; the last one of the run is replaced. *)
Fixpoint replaceRuns (cls : ascii -> bool) (r : string) (s : string) : string :=
  match s with
  | EmptyString => EmptyString
  | String a s' =>
      if cls a then
        if startsIn cls s' then replaceRuns cls r s'
        else r +:+ replaceRuns cls r s'
      else String a (replaceRuns cls r s')
  end.

(** Every character of [s] satisfies [P]. *)
Fixpoint allChars (P : ascii -> Prop) (s : string) : Prop :=
  match s with
  | EmptyString => True
  | String a s' => P a /\ allChars P s'
  end.

(** [/^[class]+$/.test(s)] *)
Definition testAllPlus (cls : ascii -> bool) (s : string) : bool :=
  match list_ascii_of_string s with
  | [] => false
  | cs => forallb cls cs
  end.

(** *** Strings *)

Definition LF : ascii := "010".
Definition CR : ascii := "013".

(** The text made of the given lines, joined by LF. *)
Definition unlines (ls : list string) : string :=
  String.concat (String LF EmptyString) ls.

Definition consToFirst (a : ascii) (parts : list string) : list string :=
  match parts with
  | [] => [String a EmptyString]
  | w :: ws => String a w :: ws
  end.

(** [s.split(sep)] for a one-character separator: never the empty array. *)
Fixpoint split (sep : ascii) (s : string) : list string :=
  match s with
  | EmptyString => [EmptyString]
  | String a s' =>
      if Ascii.eqb a sep then EmptyString :: split sep s'
      else consToFirst a (split sep s')
  end.

(** [s.split(/\r?\n/)]: a line ends at LF or at CR LF; a CR that no LF
    follows stays in its line. *)
Fixpoint splitLines (s : string) : list string :=
  match s with
  | EmptyString => [EmptyString]
  | String a s' =>
      if Ascii.eqb a LF then EmptyString :: splitLines s'
      else
        match s' with
        | String b s'' =>
            if Ascii.eqb a CR && Ascii.eqb b LF
            then EmptyString :: splitLines s''
            else consToFirst a (splitLines s')
        | EmptyString => consToFirst a (splitLines s')
        end
  end.

(** [s.replace(/\r\n|\r|\n/g, '\n')] *)
Fixpoint normalizeLineEndings (s : string) : string :=
  match s with
  | EmptyString => EmptyString
  | String a s' =>
      if Ascii.eqb a CR then
        match s' with
        | String b s'' =>
            if Ascii.eqb b LF then String LF (normalizeLineEndings s'')
            else String LF (normalizeLineEndings s')
        | EmptyString => String LF EmptyString
        end
      else String a (normalizeLineEndings s')
  end.

(** Removal of the longest prefix, and of the longest suffix, made of
    characters of a class. *)
Fixpoint dropStartWhile (cls : ascii -> bool) (s : string) : string :=
  match s with
  | EmptyString => EmptyString
  | String a s' => if cls a then dropStartWhile cls s' else s
  end.

Fixpoint dropEndWhile (cls : ascii -> bool) (s : string) : string :=
  match s with
  | EmptyString => EmptyString
  | String a s' =>
      match dropEndWhile cls s' with
      | EmptyString => if cls a then EmptyString else String a EmptyString
      | t => String a t
      end
  end.

(** [s.trim()] *)
Definition trim (s : string) : string :=
  dropEndWhile isSpace (dropStartWhile isSpace s).

(** [!s] for a string: only the empty string is falsy. *)
Definition isEmpty (s : string) : bool :=
  match s with
  | EmptyString => true
  | _ => false
  end.

(** [s.replace(/,+$/, '')] *)
Definition stripTrailingCommas (s : string) : string :=
  dropEndWhile (Ascii.eqb ",") s.

(** [c.toLowerCase()] on U+0000..U+00FF: A-Z, and U+00C0..U+00DE without
    U+00D7, move up by 32; the other code units have no lower-case
    mapping. *)
Definition lowerChar (c : ascii) : ascii :=
  if isUpper c || (between 192 222 c && negb (code c =? 215)%nat)
  then ascii_of_nat (code c + 32)
  else c.

Fixpoint toLowerCase (s : string) : string :=
  match s with
  | EmptyString => EmptyString
  | String a s' => String (lowerChar a) (toLowerCase s')
  end.

(** [s.startsWith(p)] *)
Fixpoint startsWith (p s : string) : bool :=
  match p, s with
  | EmptyString, _ => true
  | String a p', String b s' => Ascii.eqb a b && startsWith p' s'
  | String _ _, EmptyString => false
  end.

(** [s.includes(sub)] *)
Fixpoint includes (sub s : string) : bool :=
  startsWith sub s ||
  match s with
  | EmptyString => false
  | String _ s' => includes sub s'
  end.

Fixpoint dropChars (n : nat) (s : string) : string :=
  match n, s with
  | O, _ => s
  | S n', String _ s' => dropChars n' s'
  | S _, EmptyString => EmptyString
  end.

(** [s.replace(pat, r)] with a string pattern: the first occurrence only
    ([pat] is not empty, [r] holds no [$]). *)
Fixpoint replaceFirst (pat r : string) (s : string) : string :=
  if startsWith pat s then r +:+ dropChars (String.length pat) s
  else
    match s with
    | EmptyString => EmptyString
    | String a s' => String a (replaceFirst pat r s')
    end.

(** [parts.join(sep)] on strings *)
Definition join (sep : string) (parts : list string) : string :=
  String.concat sep parts.

(** *** Arrays *)

(** [l.findIndex(p)]; [None] stands for -1. *)
Fixpoint findIndex {A : Type} (p : A -> bool) (l : list A) : option nat :=
  match l with
  | [] => None
  | x :: l' => if p x then Some 0 else S <$> findIndex p l'
  end.

(** An array of cells.  [None] is a hole: an index below [length] that was
    never written, left behind by an assignment past the end. *)
Definition array : Type := list (option value).

Definition ofStrings (l : list string) : array :=
  map (fun s => Some (str s)) l.

(** [a[i]], with [i] a [findIndex] result: -1, a hole, and an index past
    the end all read [undefined]. *)
Definition get (a : array) (i : option nat) : value :=
  match i with
  | None => undefined
  | Some n =>
      match a !! n with
      | Some (Some v) => v
      | _ => undefined
      end
  end.

(** [a[n] = v]: past the end the array grows, and the indices in between
    become holes. *)
Definition set (a : array) (n : nat) (v : value) : array :=
  if (n <? List.length a)%nat then <[n := Some v]> a
  else (a ++ replicate (n - List.length a) None ++ [Some v])%list.

(** [[...a]]: holes are read as [undefined]. *)
Definition spread (a : array) : array :=
  map (fun o => Some (default undefined o)) a.

(** [a.filter((_, i) => i !== k)], [k] a [findIndex] result that is not -1:
    the callback is not run on holes, which are left out as well. *)
Fixpoint filterIndexNeFrom (i k : nat) (a : array) : array :=
  match a with
  | [] => []
  | None :: a' => filterIndexNeFrom (S i) k a'
  | Some v :: a' =>
      if (i =? k)%nat then filterIndexNeFrom (S i) k a'
      else Some v :: filterIndexNeFrom (S i) k a'
  end.

Definition filterIndexNe (k : nat) (a : array) : array :=
  filterIndexNeFrom 0 k a.

(** The same filter on an array of strings. *)
Fixpoint filterStringsIndexNeFrom (i k : nat) (l : list string) : list string :=
  match l with
  | [] => []
  | x :: l' =>
      if (i =? k)%nat then filterStringsIndexNeFrom (S i) k l'
      else x :: filterStringsIndexNeFrom (S i) k l'
  end.

(** How [join] renders a cell: [undefined] and holes give the empty
    string. *)
Definition cellText (o : option value) : string :=
  match o with
  | Some (str s) => s
  | _ => EmptyString
  end.

(** [a.join(sep)] *)
Definition joinArray (sep : string) (a : array) : string :=
  String.concat sep (map cellText a).

(** [v || ''] *)
Definition orEmpty (v : value) : string :=
  match v with
  | str s => s
  | undefined => EmptyString
  end.

(** *** Exceptions *)

Definition bind {A B : Type} (m : result A) (k : A -> result B) : result B :=
  match m with
  | Ok a => k a
  | Throw e => Throw e
  end.

End JS.

(** ** [$lib/utils] *)

Module Utils.
Import JS.

(** [const DNA_COMPLEMENT: Record<string, string>], looked up with a
    one-character key; [None] is [undefined]. *)
Definition DNA_COMPLEMENT (base : ascii) : option ascii :=
  if Ascii.eqb base "A" then Some "T"%char
  else if Ascii.eqb base "T" then Some "A"%char
  else if Ascii.eqb base "C" then Some "G"%char
  else if Ascii.eqb base "G" then Some "C"%char
  else None.

(** [sequence.split('').reverse().map(base => DNA_COMPLEMENT[base] || base).join('')] *)
Definition reverseComplement (sequence : string) : string :=
  string_of_list_ascii
    (map (fun base => default base (DNA_COMPLEMENT base))
         (rev (list_ascii_of_string sequence))).

(** [[^a-zA-Z0-9\-_]] *)
Definition isSpecial (c : ascii) : bool :=
  negb (isLower c || isUpper c || isDigit c || Ascii.eqb c "-" || Ascii.eqb c "_").

(** [removeSpecialChars(text, replaceChar = '-', collapseRepeat = true)].
    [replaceChar] is one character that is neither [$] nor special in a
    regular expression, as at every call of the sources, so that
    [new RegExp(`${replaceChar}+`, 'g')] matches the runs of that
    character. *)
Definition removeSpecialChars (text : string) (replaceChar : ascii)
    (collapseRepeat : bool) : string :=
  let result := replaceEach isSpecial (String replaceChar EmptyString) text in
  if collapseRepeat then
    replaceRuns (Ascii.eqb replaceChar) (String replaceChar EmptyString) result
  else result.

(** The call [removeSpecialChars(text)] with both default arguments. *)
Definition removeSpecialChars_default (text : string) : string :=
  removeSpecialChars text "-" true.

(** [[\W_]] *)
Definition isNonWordOrUnderscore (c : ascii) : bool :=
  negb (isWord c) || Ascii.eqb c "_".

(** The three passes of [replaceSpecialCharacters], in source order. *)
Definition hyphenateRuns (text : string) : string :=
  replaceRuns isNonWordOrUnderscore "-" text.
Definition collapseHyphens (text : string) : string :=
  replaceRuns (Ascii.eqb "-") "-" text.
Definition collapseUnderscores (text : string) : string :=
  replaceRuns (Ascii.eqb "_") "_" text.

(** [replaceSpecialCharacters(text)] on a string; [!text] holds for the
    empty string, which is returned as it is. *)
Definition replaceSpecialCharacters (text : string) : string :=
  match text with
  | EmptyString => text
  | _ =>
      let result := hyphenateRuns text in
      let result := collapseHyphens result in
      let result := collapseUnderscores result in
      result
  end.

(** The function as the pages call it, on a cell that may be [undefined]:
    [!text] holds and [undefined] is returned. *)
Definition replaceSpecialCharactersCell (text : value) : value :=
  match text with
  | undefined => undefined
  | str s => str (replaceSpecialCharacters s)
  end.

(** The same function with the last pass ([/_+/g]) left out. *)
Definition replaceSpecialCharacters_noUnderscorePass (text : string) : string :=
  match text with
  | EmptyString => text
  | _ => collapseHyphens (hyphenateRuns text)
  end.

(** [isDNASequence(sequence)]: [/^[ATCG]+$/.test(sequence)] *)
Definition isDNABase (c : ascii) : bool :=
  Ascii.eqb c "A" || Ascii.eqb c "T" || Ascii.eqb c "C" || Ascii.eqb c "G".

Definition isDNASequence (sequence : string) : bool :=
  testAllPlus isDNABase sequence.

(** Membership in the alphabet {A,C,G,T}, stated without the regular
    expression. *)
Definition inACGT (c : ascii) : Prop :=
  (c = "A" \/ c = "C" \/ c = "G" \/ c = "T")%char.

(** *** [validateSampleSheet] (NextSeq 500) *)

(** [ADAPTER_LIST.nextera_xt_v2.get(id)]; [None] is [undefined]. *)
Definition nextera_xt_v2 (id : string) : option string :=
  if String.eqb id "N701" then Some "TAAGGCGA"
  else if String.eqb id "S522" then Some "TTATGCGA"
  else None.

Definition expectedHeader : list string :=
  ["Sample_ID"; "Description"; "I7_Index_ID"; "index"; "I5_Index_ID";
   "index2"; "Sample_Project"].

(** [expectedHeader.every((col, i) => col === row[i])]: a missing [row[i]]
    is [undefined] and differs from every column name. *)
Fixpoint everyColumnMatches (expected row : list string) : bool :=
  match expected, row with
  | [], _ => true
  | col :: expected', cell :: row' =>
      String.eqb col cell && everyColumnMatches expected' row'
  | _ :: _, [] => false
  end.

(** The seven constants a data row is destructured into. *)
Record fields : Type := Fields {
  sampleId : string;
  description : string;
  i7IndexId : string;
  index : string;
  i5IndexId : string;
  index2 : string;
  sampleProject : string
}.

(** [const [sampleId, ..., sampleProject] = row].  A row of fewer than seven
    cells leaves [sampleProject] undefined, and
    [removeSpecialChars(sampleProject)] then raises a [TypeError] before
    anything is recorded: such a row has no [fields]. *)
Definition destructure (row : list string) : option fields :=
  match row with
  | c0 :: c1 :: c2 :: c3 :: c4 :: c5 :: c6 :: _ =>
      Some (Fields c0 c1 c2 c3 c4 c5 c6)
  | _ => None
  end.

Definition cleanSampleId (f : fields) : string :=
  removeSpecialChars (sampleId f) "-" true.

(** [description ? removeSpecialChars(description) : cleanSampleId] *)
Definition cleanDescription (f : fields) : string :=
  if isEmpty (description f) then cleanSampleId f
  else removeSpecialChars (description f) "-" true.

Definition cleanSampleProject (f : fields) : string :=
  removeSpecialChars (sampleProject f) "-" true.

(** [`${index}+${index2}`] *)
Definition pairIndex (f : fields) : string :=
  index f +:+ "+" +:+ index2 f.

Definition cleanI7IndexId (f : fields) : string :=
  replaceFirst "A-" EmptyString (i7IndexId f).

Definition cleanI5IndexId (f : fields) : string :=
  replaceFirst "A-" EmptyString (i5IndexId f).

(** The line pushed for a row: [[...].join(',')].  The adapter kit is the
    default one, [nextera_xt_v2], which is what the only caller passes. *)
Definition sample (f : fields) : string :=
  join ","
    [ cleanSampleId f;
      cleanDescription f;
      cleanI7IndexId f;
      default (index f) (nextera_xt_v2 (cleanI7IndexId f));
      cleanI5IndexId f;
      reverseComplement (default (index2 f) (nextera_xt_v2 (cleanI5IndexId f)));
      cleanSampleProject f ].

(** The variables of the loop. [duplicatedIndexes] is a plain object used as
    a map; every key holds a [+], so no key is a property of
    [Object.prototype] and [in] tests own keys. *)
Record loopState : Type := LoopState {
  foundHeader : bool;
  samplesAcc : list string;
  dupAcc : gmap string string
}.

(** The loop body once the header row was found. *)
Definition dataRow (st : loopState) (row : list string) : result loopState :=
  match destructure row with
  | None => Throw TypeError
  | Some f =>
      match dupAcc st !! pairIndex f with
      | Some seen =>
          Ok (LoopState (foundHeader st) (samplesAcc st)
                (<[pairIndex f := seen +:+ "," +:+ cleanSampleId f]> (dupAcc st)))
      | None =>
          Ok (LoopState (foundHeader st) (samplesAcc st ++ [sample f])%list
                (<[pairIndex f := cleanSampleId f]> (dupAcc st)))
      end
  end.

(** The loop body before the header row was found. *)
Definition headerRow (st : loopState) (line : string) (row : list string)
    : result loopState :=
  match row with
  | [] => Throw TypeError
  | row0 :: _ =>
      if includes "sample" (toLowerCase row0) then
        if negb (everyColumnMatches expectedHeader row)
        then Throw (Error "Invalid column headers")
        else Ok (LoopState true (samplesAcc st ++ [line])%list (dupAcc st))
      else Ok (LoopState (foundHeader st) (samplesAcc st ++ [line])%list (dupAcc st))
  end.

Definition cellsOf (line : string) : list string :=
  map trim (split "," line).

Definition isBlank (line : string) : bool := isEmpty (trim line).

Definition loopBody (st : loopState) (line : string) : result loopState :=
  if isBlank line then Ok st
  else
    let row := cellsOf line in
    if negb (foundHeader st) then headerRow st line row
    else dataRow st row.

(** [for (const line of lines) { ... }] *)
Fixpoint forLines (lines : list string) (st : loopState) : result loopState :=
  match lines with
  | [] => Ok st
  | line :: lines' => bind (loopBody st line) (forLines lines')
  end.

Record ValidationResult : Type := {
  samples : list string;
  duplicatedIndexes : gmap string string
}.

(** [validateSampleSheet(content)], with the default adapter kit. *)
Definition validateSampleSheet (content : string) : result ValidationResult :=
  bind (forLines (split LF content) (LoopState false [] ∅))
    (fun st =>
       Ok {| samples := samplesAcc st;
             duplicatedIndexes :=
               filter (fun kv => includes "," kv.2 = true) (dupAcc st) |}).

(** *** Vocabulary for the statements about [validateSampleSheet]

    These definitions are not part of the source: they describe a sheet
    without running the loop. *)

(** The lines that the loop does not skip. *)
Definition nonBlankLines (content : string) : list string :=
  List.filter (fun line => negb (isBlank line)) (split LF content).

(** A line whose first cell, in lower case, contains [sample]. *)
Definition isHeaderLine (line : string) : bool :=
  match cellsOf line with
  | row0 :: _ => includes "sample" (toLowerCase row0)
  | [] => false
  end.

(** The lines up to and with the first header line. *)
Fixpoint preambleOf (lines : list string) : list string :=
  match lines with
  | [] => []
  | line :: lines' =>
      if isHeaderLine line then [line] else line :: preambleOf lines'
  end.

(** The lines after the first header line. *)
Fixpoint dataLinesOf (lines : list string) : list string :=
  match lines with
  | [] => []
  | line :: lines' =>
      if isHeaderLine line then lines' else dataLinesOf lines'
  end.

(** The rows whose index pair is neither in [seen] nor carried by an
    earlier row. *)
Fixpoint firstOccurrences (seen : gset string) (rows : list fields)
    : list fields :=
  match rows with
  | [] => []
  | f :: rows' =>
      if decide (pairIndex f ∈ seen) then firstOccurrences seen rows'
      else f :: firstOccurrences ({[pairIndex f]} ∪ seen) rows'
  end.

(** The sanitized identifiers of the rows with index pair [k], in row
    order. *)
Definition idsWithKey (k : string) (rows : list fields) : list string :=
  map cleanSampleId (List.filter (fun f => String.eqb (pairIndex f) k) rows).

(** An entry of the map after the identifiers [ids] were appended to it. *)
Definition appendIds (entry : option string) (ids : list string)
    : option string :=
  fold_left
    (fun entry id =>
       Some match entry with
            | None => id
            | Some seen => seen +:+ "," +:+ id
            end)
    ids entry.

(** *** [validateSampleSheet2k] (NextSeq 2000) *)

(** The variables of the loop.  The arrays of sample identifiers live in
    [arrays], and the two maps hold their addresses: [indexCombinations]
    and [duplicatedIndexes] share one array per key. *)
Record loopState2k : Type := LoopState2k {
  dataSection : bool;
  headers : list string;
  arrays : list (list string);
  indexCombinations : gmap string nat;
  duplicatedAddr : gmap string nat
}.

Definition columnOf (name : string) (headers : list string) : option nat :=
  findIndex (fun h => String.eqb (toLowerCase h) name) headers.

(** [`${index}-${index2}`] *)
Definition indexKey (index index2 : string) : string :=
  index +:+ "-" +:+ index2.

Definition loopBody2k (st : loopState2k) (rawLine : string) : loopState2k :=
  let line := trim rawLine in
  if String.eqb line "[BCLConvert_Data]" then
    LoopState2k true (headers st) (arrays st) (indexCombinations st) (duplicatedAddr st)
  else if negb (dataSection st) || isEmpty line then st
  else if (List.length (headers st) =? 0)%nat then
    LoopState2k (dataSection st) (map trim (split "," line)) (arrays st)
      (indexCombinations st) (duplicatedAddr st)
  else
    let cells := ofStrings (map trim (split "," line)) in
    let sampleId := orEmpty (get cells (columnOf "sample_id" (headers st))) in
    let index := orEmpty (get cells (columnOf "index" (headers st))) in
    let index2 := orEmpty (get cells (columnOf "index2" (headers st))) in
    if isEmpty sampleId || isEmpty index then st
    else
      let indexKey := indexKey index index2 in
      match indexCombinations st !! indexKey with
      | Some samples =>
          LoopState2k (dataSection st) (headers st)
            (alter (fun ids => ids ++ [sampleId])%list samples (arrays st))
            (<[indexKey := samples]> (indexCombinations st))
            (<[indexKey := samples]> (duplicatedAddr st))
      | None =>
          LoopState2k (dataSection st) (headers st)
            (arrays st ++ [[sampleId]])%list
            (<[indexKey := List.length (arrays st)]> (indexCombinations st))
            (duplicatedAddr st)
      end.

Record ValidationResult2k : Type := {
  duplicatedIndexes2k : gmap string (list string);
  isValid : bool
}.

(** [validateSampleSheet2k(content)]; the returned map is read through the
    array addresses as they are on return. *)
Definition validateSampleSheet2k (content : string) : ValidationResult2k :=
  let st := fold_left loopBody2k (splitLines content)
              (LoopState2k false [] [] ∅ ∅) in
  {| duplicatedIndexes2k :=
       (fun samples => default [] (arrays st !! samples)) <$> duplicatedAddr st;
     isValid := (size (duplicatedAddr st) =? 0)%nat |}.

End Utils.

(** ** Code shared by the three [downloadValidated] functions

    Each page holds its own copy of the column removal and of the padding
    loop; the three copies are the same text. *)

Module Serializer.
Import JS.

(** [headers.findIndex(header => header.toLowerCase().includes('project'))] *)
Definition projectColIndex (headers : list string) : option nat :=
  findIndex (fun header => includes "project" (toLowerCase header)) headers.

(** [downloadHeaders] when the serialization starts. *)
Definition downloadHeaders (removeProject : bool) (headers : list string)
    : list string :=
  if removeProject then
    match projectColIndex headers with
    | Some k => filterStringsIndexNeFrom 0 k headers
    | None => headers
    end
  else headers.

(** [downloadRows] when the serialization starts. *)
Definition downloadRows (removeProject : bool) (headers : list string)
    (rows : list array) : list array :=
  if removeProject then
    match projectColIndex headers with
    | Some k => map (filterIndexNe k) rows
    | None => map spread rows
    end
  else map spread rows.

(** [while (paddedRow.length < n) { paddedRow.push('') }], with a bound on
    the number of iterations. *)
Fixpoint padLoop (fuel : nat) (paddedRow : array) (n : nat) : array :=
  match fuel with
  | O => paddedRow
  | S fuel' =>
      if (List.length paddedRow <? n)%nat
      then padLoop fuel' (paddedRow ++ [Some (str EmptyString)])%list n
      else paddedRow
  end.

(** [const paddedRow = [...row]; while ...]: the loop runs at most [n]
    times. *)
Definition paddedRow (n : nat) (row : array) : array :=
  padLoop n (spread row) n.

(** The lines after the header section: the header line and one line per
    row. *)
Definition tableLines (dHeaders : list string) (dRows : list array)
    : list string :=
  join "," dHeaders ::
  map (fun row => joinArray "," (paddedRow (List.length dHeaders) row)) dRows.

End Serializer.

(** ** [routes/nextseq500/+page.svelte] *)

Module NextSeq500.
Import JS Serializer.

Record scan : Type := Scan {
  dataSection : bool;
  headerLines : list string;
  dataLines : list string
}.

(** [cleanLine]: the trimmed line without its trailing commas. *)
Definition cleanLineOf (rawLine : string) : string :=
  let line := trim rawLine in
  stripTrailingCommas line.

(** [cleanLine === '[Data]'] and [cleanLine.length > 0] *)
Definition isDataMarker (rawLine : string) : bool :=
  String.eqb (cleanLineOf rawLine) "[Data]".

Definition hasText (rawLine : string) : bool :=
  (0 <? String.length (cleanLineOf rawLine))%nat.

(** The body of the loop over [lines]; [rawLine] is [lines[i]]. *)
Definition scanLine (st : scan) (rawLine : string) : scan :=
  let cleanLine := cleanLineOf rawLine in
  if isDataMarker rawLine then
    Scan true (headerLines st) []
  else if negb (dataSection st) then
    Scan (dataSection st) (headerLines st ++ [rawLine])%list (dataLines st)
  else if hasText rawLine then
    Scan (dataSection st) (headerLines st) (dataLines st ++ [cleanLine])%list
  else st.

Definition linesOf (content : string) : list string :=
  split LF (normalizeLineEndings content).

Definition noDataSection : exn :=
  Error "Invalid sample sheet format: [Data] section not found".

Definition noDataFound : exn :=
  Error "Invalid sample sheet format: No data found after [Data] section".

Record parsed : Type := Parsed {
  headerSection : list string;
  parsedDataLines : list string
}.

Definition parseIlluminaSampleSheet (content : string) : result parsed :=
  let st := fold_left scanLine (linesOf content) (Scan false [] []) in
  if negb (dataSection st) then Throw noDataSection
  else if (List.length (dataLines st) <? 2)%nat then Throw noDataFound
  else Ok (Parsed (headerLines st) (dataLines st)).

(** [downloadValidated(removeProject)]: [None] when the function returns
    at once, otherwise the text handed to the browser, or the exception
    caught into [error]. *)
Definition downloadValidated (removeProject : bool) (headers : list string)
    (rows : list array) (fileContent : string) : option (result string) :=
  if (List.length headers =? 0)%nat || (List.length rows =? 0)%nat
     || isEmpty fileContent
  then None
  else
    let dHeaders := downloadHeaders removeProject headers in
    let dRows := downloadRows removeProject headers rows in
    Some (bind (parseIlluminaSampleSheet fileContent)
            (fun p =>
               Ok (unlines (headerSection p ++ "[Data]" :: tableLines dHeaders dRows)%list))).

End NextSeq500.

(** ** The two NextSeq 2000 pages *)

Module Page2k.
Import JS.

(** The configuration fields of a page, each as the text that a template
    literal renders for it. *)
Record config : Type := Config {
  runName : string;
  adapterRead1 : string;
  adapterRead2 : string;
  bclVersion : string;
  read1Cycle : string;
  read2Cycle : string;
  index1Cycle : string;
  index2Cycle : string;
  barcodeMismatchesIndex1 : string;
  barcodeMismatchesIndex2 : string;
  noLaneSplitting : bool
}.

(** The header section that both pages build from the configuration. *)
Definition generatedHeaderSection (cfg : config) : list string :=
  [ "[Header],,,";
    "FileFormatVersion,2,,";
    "RunName," +:+ runName cfg +:+ ",,";
    "InstrumentPlatform,NextSeq1k2k,,";
    "InstrumentType,NextSeq2000,,";
    ",,,";
    "[Reads],,,";
    "Read1Cycles," +:+ read1Cycle cfg +:+ ",,";
    "Read2Cycles," +:+ read2Cycle cfg +:+ ",,";
    "Index1Cycles," +:+ index1Cycle cfg +:+ ",,";
    "Index2Cycles," +:+ index2Cycle cfg +:+ ",,";
    ",,,";
    "[BCLConvert_Settings],,,";
    "SoftwareVersion," +:+ bclVersion cfg +:+ ",,";
    "BarcodeMismatchesIndex1," +:+ barcodeMismatchesIndex1 cfg +:+ ",,";
    "BarcodeMismatchesIndex2," +:+ barcodeMismatchesIndex2 cfg +:+ ",,";
    "AdapterRead1," +:+ adapterRead1 cfg +:+ ",,";
    "AdapterRead2," +:+ adapterRead2 cfg +:+ ",,";
    "NoLaneSplitting," +:+ (if noLaneSplitting cfg then "TRUE" else "FALSE") +:+ ",,";
    ",,,";
    "[BCLConvert_Data],,," ].

(** The variables of a page that [processContent] and [downloadValidated]
    read and assign.  [error] keeps the caught exception instead of its
    message, since the text of a [TypeError] depends on the engine. *)
Record page : Type := Page {
  headers : list string;
  rows : list array;
  originalRows : list array;
  headerSection : list string;
  result : option Utils.ValidationResult2k;
  error : option exn
}.

(** [catch (e) { error = ...; result = null; }] *)
Definition caught (st : page) (e : exn) : page :=
  Page (headers st) (rows st) (originalRows st) (headerSection st) None (Some e).

(** [content.split(/\r?\n/).filter(line => line.trim())] *)
Definition nonBlankLines (content : string) : list string :=
  List.filter (fun line => negb (isEmpty (trim line))) (splitLines content).

(** [lines.some(line => line.includes('[Header]'))] *)
Definition hasFullStructure (lines : list string) : bool :=
  existsb (includes "[Header]") lines.

(** A [Map<number, number>] in insertion order; [set] on a present key
    keeps its place. *)
Fixpoint mapSet (k v : nat) (m : list (nat * nat)) : list (nat * nat) :=
  match m with
  | [] => [(k, v)]
  | (k', v') :: m' =>
      if (k' =? k)%nat then (k, v) :: m' else (k', v') :: mapSet k v m'
  end.

(** The loop of the full-structure branch: header lines up to and with the
    marker line, then the non-blank lines. *)
Record scan : Type := Scan {
  dataSection : bool;
  scannedHeader : list string;
  dataLines : list string
}.

Definition scanLine (isMarker : string -> bool) (st : scan) (line : string)
    : scan :=
  if isMarker line then
    Scan true (scannedHeader st ++ [line])%list (dataLines st)
  else if negb (dataSection st) then
    Scan (dataSection st) (scannedHeader st ++ [line])%list (dataLines st)
  else if negb (isEmpty (trim line)) then
    Scan (dataSection st) (scannedHeader st) (dataLines st ++ [line])%list
  else st.

Definition scanLines (isMarker : string -> bool) (lines : list string) : scan :=
  fold_left (scanLine isMarker) lines (Scan false [] []).

(** [[...headerSection, headers.join(','), ...rows.map(row => row.join(','))].join('\n')] *)
Definition getFullContent (st : page) : string :=
  unlines (headerSection st ++ join "," (headers st)
             :: map (joinArray ",") (rows st))%list.

End Page2k.

(** ** The second NextSeq 2000 page *)

Module NextSeq2kAlt.
Import JS Serializer Page2k.

Definition expectedHeaders : list string :=
  ["Sample_ID"; "Index2"; "Index"; "Sample_Project"].

(** [expectedHeaders.forEach((expected, expectedIndex) => ...)]: the map
    from positions in the input to positions in [expectedHeaders]; a
    column that the input lacks adds nothing. *)
Fixpoint buildHeaderMap (inputHeaders expected : list string)
    (expectedIndex : nat) (headerMap : list (nat * nat)) : list (nat * nat) :=
  match expected with
  | [] => headerMap
  | e :: expected' =>
      let currentIndex :=
        findIndex (fun h => String.eqb (toLowerCase h) (toLowerCase e))
                  inputHeaders in
      buildHeaderMap inputHeaders expected' (S expectedIndex)
        match currentIndex with
        | Some i => mapSet i expectedIndex headerMap
        | None => headerMap
        end
  end.

(** [headerMap.forEach((newIndex, oldIndex) =>
       { reorderedCells[newIndex] = cells[oldIndex] || ''; })] *)
Definition reorderCells (headerMap : list (nat * nat)) (cells : list string)
    : array :=
  fold_left
    (fun reorderedCells '(oldIndex, newIndex) =>
       set reorderedCells newIndex
         (str (orEmpty (get (ofStrings cells) (Some oldIndex)))))
    headerMap
    (replicate (List.length expectedHeaders) (Some (str EmptyString))).

(** [line.trim() === '[BCLConvert_Data]'] *)
Definition isMarker (line : string) : bool :=
  String.eqb (trim line) "[BCLConvert_Data]".

(** [rows = originalRows.map(row => ...)]: the Sample_ID cell is
    sanitized. *)
Definition sanitizeRow (headers : list string) (row : array) : array :=
  let newRow := spread row in
  match Utils.columnOf "sample_id" headers with
  | Some sampleIdIndex =>
      set newRow sampleIdIndex
        (Utils.replaceSpecialCharactersCell (get row (Some sampleIdIndex)))
  | None => newRow
  end.

(** The end of [processContent], once [headers], [originalRows] and
    [headerSection] are assigned. *)
Definition finish (headers : list string) (originalRows : list array)
    (headerSection : list string) : page :=
  let rows := map (sanitizeRow headers) originalRows in
  let st := Page headers rows originalRows headerSection None None in
  Page headers rows originalRows headerSection
       (Some (Utils.validateSampleSheet2k (getFullContent st))) None.

Definition processContent (cfg : config) (st : page) (content : string) : page :=
  let lines := nonBlankLines content in
  if negb (hasFullStructure lines) then
    match lines with
    | [] => caught st TypeError
    | line0 :: rest =>
        let inputHeaders := map trim (split "," line0) in
        let headerMap := buildHeaderMap inputHeaders expectedHeaders 0 [] in
        finish expectedHeaders
          (map (fun line => reorderCells headerMap (map trim (split "," line)))
               (List.filter (fun line => negb (isEmpty (trim line))) rest))
          (generatedHeaderSection cfg)
    end
  else
    let sc := scanLines isMarker lines in
    match dataLines sc with
    | [] =>
        caught (Page (headers st) (rows st) (originalRows st)
                     (scannedHeader sc) (result st) (error st))
               TypeError
    | dataLine0 :: rest =>
        finish (map trim (split "," dataLine0))
          (map (fun line => ofStrings (map trim (split "," line)))
               (List.filter (fun line => negb (isEmpty (trim line))) rest))
          (scannedHeader sc)
    end.

(** [downloadValidated(removeProject)]: [None] when the function returns
    at once, otherwise the text handed to the browser. *)
Definition downloadValidated (removeProject : bool) (st : page) : option string :=
  if (List.length (headers st) =? 0)%nat || (List.length (rows st) =? 0)%nat
  then None
  else
    let dHeaders := downloadHeaders removeProject (headers st) in
    let dRows := downloadRows removeProject (headers st) (rows st) in
    Some (unlines (headerSection st ++ tableLines dHeaders dRows)%list).

End NextSeq2kAlt.

(** ** [routes/nextseq2k/+page.svelte] *)

Module NextSeq2k.
Import JS Serializer Page2k.

Definition requiredColumns : list string :=
  ["sample_id"; "index2"; "index"; "sample_project"].

(** [inputHeadersLower.includes(required)] *)
Definition includesString (l : list string) (x : string) : bool :=
  existsb (String.eqb x) l.

(** [requiredColumns.filter(required => !inputHeadersLower.includes(required))] *)
Definition missingColumns (inputHeadersLower : list string) : list string :=
  List.filter (fun required => negb (includesString inputHeadersLower required))
              requiredColumns.

Definition missingColumnsError (missing : list string) : exn :=
  Error ("Missing required columns: " +:+ join ", " missing).

Fixpoint buildHeaderMap (inputHeadersLower required : list string)
    (index : nat) (headerMap : list (nat * nat)) : list (nat * nat) :=
  match required with
  | [] => headerMap
  | r :: required' =>
      buildHeaderMap inputHeadersLower required' (S index)
        match findIndex (String.eqb r) inputHeadersLower with
        | Some inputIndex => mapSet inputIndex index headerMap
        | None => headerMap
        end
  end.

(** [requiredColumns.map(required => inputHeaders[inputIndex])]; after the
    check on missing columns every [inputIndex] is found. *)
Definition originalHeaders (inputHeaders inputHeadersLower : list string)
    : list string :=
  map (fun required =>
         orEmpty (get (ofStrings inputHeaders)
                      (findIndex (String.eqb required) inputHeadersLower)))
      requiredColumns.

(** [headerMap.forEach((newIndex, oldIndex) =>
       { if (cells[oldIndex]) { reorderedCells[newIndex] = cells[oldIndex]; } })] *)
Definition reorderCells (headerMap : list (nat * nat)) (cells : list string)
    : array :=
  fold_left
    (fun reorderedCells '(oldIndex, newIndex) =>
       match get (ofStrings cells) (Some oldIndex) with
       | str (String a c) => set reorderedCells newIndex (str (String a c))
       | _ => reorderedCells
       end)
    headerMap
    (replicate (List.length requiredColumns) (Some (str EmptyString))).

(** [line.includes('[BCLConvert_Data]')] *)
Definition isMarker (line : string) : bool :=
  includes "[BCLConvert_Data]" line.

(** *** [processRows] *)

(** The variables of [processRows].  The arrays of sample identifiers live
    in [arrays]; [indexCombinations] and [duplicatedIndexes] hold
    addresses.  [duplicatedIndexes] is kept in insertion order, the order
    of [Object.entries]: every key holds a [-], so none is an array index
    or a property of [Object.prototype]. *)
Record rowsState : Type := RowsState {
  changedSampleIds : list string;
  arrays : list (list string);
  indexCombinations : gmap string nat;
  duplicatedIndexes : list (string * nat)
}.

Fixpoint objectSet (k : string) (v : nat) (o : list (string * nat))
    : list (string * nat) :=
  match o with
  | [] => [(k, v)]
  | (k', v') :: o' =>
      if String.eqb k' k then (k, v) :: o' else (k', v') :: objectSet k v o'
  end.

(** [headers.map(h => h.toLowerCase()).indexOf(name)] *)
Definition indexOfLower (name : string) (headers : list string) : option nat :=
  findIndex (String.eqb name) (map toLowerCase headers).

(** [original !== cleaned] *)
Definition valueNe (a b : value) : bool :=
  match a, b with
  | undefined, undefined => false
  | str x, str y => negb (String.eqb x y)
  | _, _ => true
  end.

(** [v || fallback] *)
Definition orElse (v : value) (fallback : string) : string :=
  match v with
  | str (String a s) => String a s
  | _ => fallback
  end.

(** The callback of [originalRows.map]: the new row and the new state. *)
Definition processRow (headers : list string) (st : rowsState) (row : array)
    : array * rowsState :=
  let sampleIdIndex := indexOfLower "sample_id" headers in
  let index1Index := indexOfLower "index" headers in
  let index2Index := indexOfLower "index2" headers in
  let '(newRow, changed) :=
    match sampleIdIndex with
    | Some i =>
        let original := get row sampleIdIndex in
        let cleaned := Utils.replaceSpecialCharactersCell original in
        (set (spread row) i cleaned,
         if valueNe original cleaned
         then (changedSampleIds st ++ [orEmpty original])%list
         else changedSampleIds st)
    | None => (spread row, changedSampleIds st)
    end in
  match index1Index, index2Index with
  | Some _, Some _ =>
      let sampleId := orElse (get row sampleIdIndex) "Unknown" in
      let index1 := orEmpty (get row index1Index) in
      let index2 := orEmpty (get row index2Index) in
      let indexKey := index2 +:+ "-" +:+ index1 in
      match indexCombinations st !! indexKey with
      | Some samples =>
          (newRow,
           RowsState changed
             (alter (fun ids => ids ++ [sampleId])%list samples (arrays st))
             (indexCombinations st)
             (objectSet indexKey samples (duplicatedIndexes st)))
      | None =>
          (newRow,
           RowsState changed
             (arrays st ++ [[sampleId]])%list
             (<[indexKey := List.length (arrays st)]> (indexCombinations st))
             (duplicatedIndexes st))
      end
  | _, _ => (newRow, RowsState changed (arrays st) (indexCombinations st)
                                (duplicatedIndexes st))
  end.

Fixpoint mapRows (headers : list string) (originalRows : list array)
    (st : rowsState) : list array * rowsState :=
  match originalRows with
  | [] => ([], st)
  | row :: originalRows' =>
      let '(newRow, st1) := processRow headers st row in
      let '(rows, st2) := mapRows headers originalRows' st1 in
      (newRow :: rows, st2)
  end.

Record processedRows : Type := {
  processed : list array;
  changed : list string;
  duplicated : list (string * list string)
}.

Definition processRows (originalRows : list array) (headers : list string)
    : processedRows :=
  let '(rows, st) := mapRows headers originalRows (RowsState [] [] ∅ []) in
  {| processed := rows;
     changed := changedSampleIds st;
     duplicated :=
       map (fun '(k, samples) => (k, default [] (arrays st !! samples)))
           (duplicatedIndexes st) |}.

(** *** [processContent] *)

Definition quote : string := String (ascii_of_nat 34) EmptyString.

Definition invalidCharactersError (changedSampleIds : list string) : exn :=
  Error ("Invalid characters found in Sample_ID. The following sample IDs contain special characters: "
         +:+ join ", " changedSampleIds).

Definition duplicateIndexError (dups : list (string * list string)) : exn :=
  Error ("Duplicate index combinations found: " +:+
         join "; "
           (map (fun '(indexCombo, samples) =>
                   quote +:+ indexCombo +:+ quote +:+ " used by: "
                   +:+ join ", " samples)
                dups)).

Definition processContent (cfg : config) (st : page) (content : string) : page :=
  if isEmpty content then caught st (Error "Empty content received")
  else
  let lines := nonBlankLines content in
  match lines with
  | [] => caught st (Error "File appears to be empty")
  | line0 :: rest =>
      if negb (hasFullStructure lines) then
        let inputHeaders := map trim (split "," line0) in
        if (List.length inputHeaders =? 0)%nat
        then caught st (Error "No headers found in the file")
        else
        let inputHeadersLower := map toLowerCase inputHeaders in
        let missing := missingColumns inputHeadersLower in
        if (0 <? List.length missing)%nat
        then caught st (missingColumnsError missing)
        else
        let headerMap := buildHeaderMap inputHeadersLower requiredColumns 0 [] in
        let headers' := originalHeaders inputHeaders inputHeadersLower in
        let originalRows' :=
          map (fun line => reorderCells headerMap (map trim (split "," line)))
              (List.filter (fun line => negb (isEmpty (trim line))) rest) in
        if (List.length originalRows' =? 0)%nat
        then caught (Page headers' (rows st) originalRows' (headerSection st)
                          (result st) (error st))
                    (Error "No data rows found in the file")
        else Page headers' (rows st) originalRows' (generatedHeaderSection cfg)
                  (result st) (error st)
      else
        let sc := scanLines isMarker lines in
        let st1 := Page (headers st) (rows st) (originalRows st)
                        (scannedHeader sc) (result st) (error st) in
        if negb (dataSection sc)
        then caught st1 (Error "No [BCLConvert_Data] section found in the file")
        else
        match dataLines sc with
        | [] => caught st1 (Error "No data found after [BCLConvert_Data] section")
        | dataLine0 :: dataRest =>
            let inputHeaders := map trim (split "," dataLine0) in
            let inputHeadersLower := map toLowerCase inputHeaders in
            let missing := missingColumns inputHeadersLower in
            if (0 <? List.length missing)%nat
            then caught st1 (missingColumnsError missing)
            else
            let headers' := originalHeaders inputHeaders inputHeadersLower in
            let originalRows' :=
              map (fun line => ofStrings (map trim (split "," line)))
                  (List.filter (fun line => negb (isEmpty (trim line))) dataRest) in
            let p := processRows originalRows' headers' in
            let st2 := Page headers' (processed p) originalRows'
                            (scannedHeader sc) (result st) (error st) in
            if (0 <? List.length (changed p))%nat
            then caught st2 (invalidCharactersError (changed p))
            else if (0 <? List.length (duplicated p))%nat
            then caught st2 (duplicateIndexError (duplicated p))
            else st2
        end
  end.

(** [downloadValidated(removeProject)]: the page with [headerSection]
    rebuilt from the configuration, and the text handed to the browser;
    [None] when the function returns at once. *)
Definition downloadValidated (cfg : config) (removeProject : bool) (st : page)
    : option (page * string) :=
  if (List.length (headers st) =? 0)%nat || (List.length (rows st) =? 0)%nat
  then None
  else
    let st' := Page (headers st) (rows st) (originalRows st)
                    (generatedHeaderSection cfg) (result st) (error st) in
    let dHeaders := downloadHeaders removeProject (headers st) in
    let dRows := downloadRows removeProject (headers st) (rows st) in
    Some (st', unlines (headerSection st' ++ tableLines dHeaders dRows)%list).

End NextSeq2k.

(** ** More of [$lib/utils] *)

Module UtilsMore.
Import JS Utils.

(** [`${count}`] for a count, in decimal. *)
Definition numberToString (n : nat) : string :=
  NilEmpty.string_of_uint (Nat.to_uint n).

(** [count === 0 ? value : `${value}-${count}`] *)
Definition renamed (value : string) (count : nat) : string :=
  if (count =? 0)%nat then value
  else value +:+ "-" +:+ numberToString count.

(** The callback of [values.map] in [renameDuplicates], with the
    [Map<string, number>] it updates. *)
Fixpoint renameLoop (values : list string) (counts : gmap string nat)
    : list string :=
  match values with
  | [] => []
  | value :: values' =>
      let count := default 0 (counts !! value) in
      renamed value count :: renameLoop values' (<[value := count + 1]> counts)
  end.

(** [renameDuplicates(values)] *)
Definition renameDuplicates (values : list string) : list string :=
  renameLoop values ∅.

(** *** Vocabulary for the statements about the sanitizers *)

(** [[A-Za-z0-9]] *)
Definition isAlphaNumeric (c : ascii) : bool :=
  isLower c || isUpper c || isDigit c.

(** [[A-Za-z0-9\-_]] *)
Definition isIdentifierChar (c : ascii) : bool :=
  isAlphaNumeric c || Ascii.eqb c "-" || Ascii.eqb c "_".

(** The characters with a meaning of their own in a regular expression,
    among them [$], which is also special in a replacement text.  For any
    other [replaceChar], [new RegExp(`${replaceChar}+`, 'g')] matches the
    runs of that character. *)
Definition isRegExpSyntaxChar (c : ascii) : bool :=
  existsb (Ascii.eqb c) (list_ascii_of_string "^$\.*+?()[]{}|").

(** *** Vocabulary for the statements about [validateSampleSheet2k] *)


Definition isBclMarker (rawLine : string) : bool :=
  String.eqb (trim rawLine) "[BCLConvert_Data]".

(** The lines after the first marker line, if there is one. *)
Fixpoint afterBclMarker (lines : list string) : option (list string) :=
  match lines with
  | [] => None
  | line :: lines' =>
      if isBclMarker line then Some lines' else afterBclMarker lines'
  end.

(** The column row: the first line that is neither blank nor a marker
    line; and the lines after it. *)
Fixpoint columnRow (lines : list string) : option (string * list string) :=
  match lines with
  | [] => None
  | line :: lines' =>
      if isBclMarker line || isEmpty (trim line) then columnRow lines'
      else Some (trim line, lines')
  end.

(** What a line under the column row contributes: its index key and its
    sample identifier; nothing for a marker line, a blank line, and a line
    whose sample identifier or index is empty. *)
Definition entryOf (headers : list string) (rawLine : string)
    : option (string * string) :=
  if isBclMarker rawLine || isEmpty (trim rawLine) then None
  else
    let cells := ofStrings (map trim (split "," (trim rawLine))) in
    let sampleId := orEmpty (get cells (columnOf "sample_id" headers)) in
    let index := orEmpty (get cells (columnOf "index" headers)) in
    let index2 := orEmpty (get cells (columnOf "index2" headers)) in
    if isEmpty sampleId || isEmpty index then None
    else Some (indexKey index index2, sampleId).

(** The entries of a sheet, in line order. *)
Definition entries2k (content : string) : list (string * string) :=
  match afterBclMarker (splitLines content) with
  | None => []
  | Some lines =>
      match columnRow lines with
      | None => []
      | Some (columns, rows) =>
          omap (entryOf (map trim (split "," columns))) rows
      end
  end.

(** The sample identifiers entered under a key, in line order. *)
Definition samplesOf (key : string) (entries : list (string * string))
    : list string :=
  map snd (List.filter (fun e => String.eqb (fst e) key) entries).

(** The invariant of the loop of [validateSampleSheet2k] once the column
    row was read: after the entries [seen], every key that was entered has
    one array, which holds its sample identifiers; no array is shared by
    two keys; and the keys bound in [duplicatedIndexes] are those entered
    twice or more. *)
Definition tracks (st : loopState2k) (seen : list (string * string)) : Prop :=
  (forall k,
     match indexCombinations st !! k with
     | Some a =>
         arrays st !! a = Some (samplesOf k seen) /\ samplesOf k seen <> []
     | None => samplesOf k seen = []
     end)
  /\ (forall k1 k2 a,
        indexCombinations st !! k1 = Some a ->
        indexCombinations st !! k2 = Some a -> k1 = k2)
  /\ (forall k,
        duplicatedAddr st !! k
        = if (2 <=? List.length (samplesOf k seen))%nat
          then indexCombinations st !! k
          else None).

End UtilsMore.

(** ** [routes/ont/+page.svelte] *)

Module Ont.
Import JS.

(** The configuration fields that [processContent] reads. *)
Record config : Type := Config {
  flowcell_id : string;
  kit : string;
  experiment_id : string;
  type : string
}.

(** The variables of the page that the functions assign. *)
Record page : Type := Page {
  headers : list string;
  rows : list array;
  originalRows : list array;
  error : option exn
}.

Definition outputHeaders : list string :=
  ["flow_cell_id"; "kit"; "sample_id"; "experiment_id"; "barcode"; "alias";
   "type"].

(** [inputHeaders.indexOf(name)] *)
Definition indexOf (name : string) (l : list string) : option nat :=
  findIndex (String.eqb name) l.

(** [barcode.startsWith('NB_') ? 'barcode' + barcode.substring(3) : barcode] *)
Definition processBarcode (barcode : string) : string :=
  if startsWith "NB_" barcode then "barcode" +:+ dropChars 3 barcode
  else barcode.

(** The callback of [lines.slice(1).filter(...).map]; [sampleIndex] and
    [barcodeIndex] were found. *)
Definition processLine (cfg : config) (sampleIndex barcodeIndex : nat)
    (projectIndex : option nat) (line : string) : result array :=
  let cells := map trim (split "," line) in
  if (List.length cells <=? Nat.max sampleIndex barcodeIndex)%nat
  then Throw (Error "Row has insufficient columns")
  else
    let sampleName := get (ofStrings cells) (Some sampleIndex) in
    let barcode := processBarcode (orEmpty (get (ofStrings cells) (Some barcodeIndex))) in
    let project :=
      match projectIndex with
      | Some i => get (ofStrings cells) (Some i)
      | None => str (type cfg)
      end in
    let cleanedSampleName := Utils.replaceSpecialCharactersCell sampleName in
    Ok [ Some (str (flowcell_id cfg));
         Some (str (kit cfg));
         Some cleanedSampleName;
         Some (str (experiment_id cfg));
         Some (str barcode);
         Some cleanedSampleName;
         Some project ].

(** [lines.map(callback)] with a callback that may throw. *)
Fixpoint mapLines (f : string -> result array) (lines : list string)
    : result (list array) :=
  match lines with
  | [] => Ok []
  | line :: lines' =>
      bind (f line) (fun row =>
      bind (mapLines f lines') (fun rows' => Ok (row :: rows')))
  end.

(** [catch (e) { error = ...; headers = []; rows = []; originalRows = []; }] *)
Definition caught (e : exn) : page := Page [] [] [] (Some e).

Definition requiredColumnsError : exn :=
  Error ("Required columns " +:+ NextSeq2k.quote +:+ "SampleName"
         +:+ NextSeq2k.quote +:+ " and " +:+ NextSeq2k.quote +:+ "Barcode"
         +:+ NextSeq2k.quote +:+ " not found").

Definition processContent (cfg : config) (content : string) : page :=
  let lines := Page2k.nonBlankLines content in
  match lines with
  | [] => caught (Error "File is empty")
  | line0 :: rest =>
      let inputHeaders :=
        map (fun header => toLowerCase (trim header)) (split "," line0) in
      match indexOf "samplename" inputHeaders, indexOf "barcode" inputHeaders with
      | Some sampleIndex, Some barcodeIndex =>
          match mapLines
                  (processLine cfg sampleIndex barcodeIndex
                     (indexOf "project" inputHeaders))
                  (List.filter (fun line => negb (isEmpty (trim line))) rest)
          with
          | Ok originalRows' =>
              Page outputHeaders originalRows' originalRows' None
          | Throw e => caught e
          end
      | _, _ =>
          caught requiredColumnsError
      end
  end.

(** The reactive block [$: if (rows.length > 0) { rows = originalRows.map(...) }]:
    the rows are rebuilt from [originalRows] with the current
    configuration. *)
Definition refreshRow (cfg : config) (row : array) : array :=
  let newRow := spread row in
  let newRow := set newRow 0 (str (flowcell_id cfg)) in
  let newRow := set newRow 1 (str (kit cfg)) in
  let newRow := set newRow 3 (str (experiment_id cfg)) in
  if isEmpty (type cfg) then newRow else set newRow 6 (str (type cfg)).

Definition refreshRows (cfg : config) (st : page) : page :=
  if (0 <? List.length (rows st))%nat
  then Page (headers st) (map (refreshRow cfg) (originalRows st))
            (originalRows st) (error st)
  else st.

(** [!cell || cell.trim() === ''] *)
Definition isBlankCell (cell : option value) : bool :=
  match cell with
  | Some (str s) => isEmpty s || isEmpty (trim s)
  | _ => true
  end.

(** [row.some((cell, index) => index === 3 ? false : blank)]; the callback
    is not run on holes. *)
Fixpoint someBlankFrom (index : nat) (row : array) : bool :=
  match row with
  | [] => false
  | cell :: row' =>
      match cell with
      | None => someBlankFrom (S index) row'
      | Some _ =>
          (if (index =? 3)%nat then false else isBlankCell cell)
          || someBlankFrom (S index) row'
      end
  end.

Definition emptyFieldsError : exn :=
  Error "All fields except Experiment ID must be filled before downloading".

(** [downloadValidated()]: the page, whose [error] may be assigned, and the
    text handed to the browser, if any. *)
Definition downloadValidated (st : page) : page * option string :=
  if (List.length (headers st) =? 0)%nat || (List.length (rows st) =? 0)%nat
  then (st, None)
  else if existsb (someBlankFrom 0) (rows st)
  then (Page (headers st) (rows st) (originalRows st) (Some emptyFieldsError),
        None)
  else (st, Some (unlines (join "," (headers st)
                           :: map (joinArray ",") (rows st)))).

End Ont.

(** ** [handleReverseComplementToggle] of the NextSeq 2000 pages *)

Module Toggle.
Import JS Page2k.

(** [reverseComplement(v)]: on [undefined] the call of [split] raises a
    [TypeError]. *)
Definition reverseComplementCell (v : value)   : JS.result value :=
  match v with
  | str s => Ok (str (Utils.reverseComplement s))
  | undefined => Throw TypeError
  end.

(** The callback of [rows.map((row, i) => ...)]; [originalRow] is
    [originalRows[i]], [None] when there is no such row. *)
Definition toggleRow (checked : bool) (index2ColIndex : nat)
    (row : array) (originalRow : option array) : JS.result array :=
  match originalRow with
  | None => Throw TypeError
  | Some original =>
      let cell := get original (Some index2ColIndex) in
      bind (if checked then reverseComplementCell cell else Ok cell)
        (fun v => Ok (set (spread row) index2ColIndex v))
  end.

Fixpoint toggleRows (checked : bool) (index2ColIndex : nat)
    (rows originalRows : list array) : JS.result (list array) :=
  match rows with
  | [] => Ok []
  | row :: rows' =>
      bind (toggleRow checked index2ColIndex row (head originalRows))
        (fun newRow =>
      bind (toggleRows checked index2ColIndex rows' (tail originalRows))
        (fun newRows => Ok (newRow :: newRows)))
  end.

(** [handleReverseComplementToggle(event)], with the value of the store
    [$reverseComplement2k]; an exception leaves the page as it is. *)
Definition handleReverseComplementToggle (checked : bool) (st : page)
    : JS.result page :=
  if (List.length (rows st) =? 0)%nat then Ok st
  else
    match Utils.columnOf "index2" (headers st) with
    | None => Ok st
    | Some index2ColIndex =>
        bind (toggleRows checked index2ColIndex (rows st) (originalRows st))
          (fun rows' =>
             Ok (Page (headers st) rows' (originalRows st) (headerSection st)
                      (result st) (error st)))
    end.

End Toggle.

(** ** Vocabulary for the statements about [parseIlluminaSampleSheet] *)

Module ParserVocabulary.
Import JS NextSeq500.

(** The lines before the first marker line. *)
Fixpoint beforeFirstMarker (lines : list string) : list string :=
  match lines with
  | [] => []
  | line :: lines' =>
      if isDataMarker line then [] else line :: beforeFirstMarker lines'
  end.

(** The lines after the last marker line. *)
Fixpoint afterLastMarker (lines : list string) : list string :=
  match lines with
  | [] => []
  | line :: lines' =>
      if existsb isDataMarker lines' then afterLastMarker lines'
      else if isDataMarker line then lines'
      else []
  end.

(** A line without a carriage return and without a line feed. *)
Definition isOneLine (line : string) : Prop :=
  allChars (fun c => c <> CR /\ c <> LF) line.

Definition CRLF : string := String CR (String LF EmptyString).


End ParserVocabulary.

(** ** Vocabulary for the statements about [downloadValidated] *)

Module SerializerVocabulary.
Import JS Serializer.

(** The position that is left out of the headers and of every row: that
    of the project column, when its removal is asked for and the column is
    found. *)
Definition removedColumn (removeProject : bool) (headers : list string)
    : option nat :=
  if removeProject then projectColIndex headers else None.

(** A list of strings without the element at the removed position. *)
Definition keptStrings (removeProject : bool) (headers l : list string)
    : list string :=
  match removedColumn removeProject headers with
  | Some k => take k l ++ drop (S k) l
  | None => l
  end.

(** The cells of a row that are serialized: when a column is removed, the
    cells at the other positions, holes left out; otherwise every cell, a
    hole read as [undefined]. *)
Definition keptCells (removeProject : bool) (headers : list string)
    (row : array) : array :=
  match removedColumn removeProject headers with
  | Some k => filterIndexNe k row
  | None => spread row
  end.

(** The cells written for a row: the kept cells, then empty cells up to
    the number of kept headers. *)
Definition emittedCells (removeProject : bool) (headers : list string)
    (row : array) : array :=
  keptCells removeProject headers row
  ++ replicate (List.length (keptStrings removeProject headers headers)
                - List.length (keptCells removeProject headers row))
               (Some (str EmptyString)).

(** The lines written for the table: the kept headers, and one line per
    row of the table. *)
Definition emittedTable (removeProject : bool) (headers : list string)
    (rows : list array) : list string :=
  join "," (keptStrings removeProject headers headers)
  :: map (fun row => joinArray "," (emittedCells removeProject headers row))
         rows.

End SerializerVocabulary.

(** ** Concrete sheets *)

Module Sheets.
Import JS.

(** The configuration a NextSeq 2000 page starts with. *)
Definition defaultConfig : Page2k.config :=
  Page2k.Config "nextseq2000"
    "AGATCGGAAGAGCACACGTCTGAACTCCAGTCA" "AGATCGGAAGAGCGTCGTGTAGGGAAAGAGTGT"
    "4.2.7" "151" "151" "10" "10" "0" "0" true.

(** The variables of a page before any file is loaded. *)
Definition emptyPage : Page2k.page :=
  Page2k.Page [] [] [] [] None None.

(** Three samples, the first two with the same index pair, in the column
    order of the NextSeq 2000 pages. *)
Definition duplicateSheet : string :=
  unlines
    [ "[Header]";
      "[BCLConvert_Data]";
      "Sample_ID,Index2,Index,Sample_Project";
      "sample1,TTTT,AAAA,ProjA";
      "sample2,TTTT,AAAA,ProjA";
      "sample3,CCCC,GGGG,ProjA" ].

(** A NextSeq 500 sheet whose [Data] section holds the column row only. *)
Definition headerOnlySheet : string :=
  unlines [ "[Header]"; "[Data]"; "Sample_ID,index,index2" ].

(** A NextSeq 500 sheet with one sample. *)
Definition illuminaSheet : string :=
  unlines
    [ "[Header]"; "IEMFileVersion,4"; "[Data]";
      "Sample_ID,index,index2"; "S1,AAAA,TTTT" ].

(** A NextSeq 500 data section: two samples share the index pair. *)
Definition repeatedPairSheet : string :=
  unlines
    [ "Sample_ID,Description,I7_Index_ID,index,I5_Index_ID,index2,Sample_Project";
      "S1,first,N701,AAAA,S522,TTTT,ProjA";
      "S2,second,N702,GGGG,S503,CCCC,ProjA";
      "S3,third,N701,AAAA,S522,TTTT,ProjB" ].

(** What [validateSampleSheet] returns for it: S3 has no line of its own
    and is listed with S1 under the shared pair. *)
Definition repeatedPairResult : Utils.ValidationResult :=
  {| Utils.samples :=
       [ "Sample_ID,Description,I7_Index_ID,index,I5_Index_ID,index2,Sample_Project";
         "S1,first,N701,TAAGGCGA,S522,TCGCATAA,ProjA";
         "S2,second,N702,GGGG,S503,GGGG,ProjA" ];
     Utils.duplicatedIndexes := {[ "AAAA+TTTT" := "S1,S3" ]} |}.

(** A bare CSV file in which two samples share the index pair, and the
    text that the second NextSeq 2000 page validates after loading it. *)
Definition bareDuplicateSheet : string :=
  unlines
    [ "Sample_ID,Index2,Index,Sample_Project";
      "sample1,TTTT,AAAA,ProjA";
      "sample2,TTTT,AAAA,ProjA" ].

Definition bareDuplicateFullContent : string :=
  Page2k.getFullContent
    (NextSeq2kAlt.processContent defaultConfig emptyPage bareDuplicateSheet).

(** A page with one row, before and after the reverse-complement box is
    checked. *)
Definition untoggledPage : Page2k.page :=
  Page2k.Page ["Sample_ID"; "Index2"; "Index"]
    [ofStrings ["sample1"; "TTATGCGA"; "AAAA"]]
    [ofStrings ["sample1"; "TTATGCGA"; "AAAA"]] [] None None.

Definition toggledPage : Page2k.page :=
  Page2k.Page ["Sample_ID"; "Index2"; "Index"]
    [ofStrings ["sample1"; "TCGCATAA"; "AAAA"]]
    [ofStrings ["sample1"; "TTATGCGA"; "AAAA"]] [] None None.

(** What the second NextSeq 2000 page hands out for [bareDuplicateSheet]:
    a sheet with the full structure. *)
Definition altDownload : string :=
  default EmptyString
    (NextSeq2kAlt.downloadValidated false
       (NextSeq2kAlt.processContent defaultConfig emptyPage bareDuplicateSheet)).

(** A page whose only row is short of the project column. *)
Definition shortRowPage : Page2k.page :=
  Page2k.Page ["Sample_ID"; "Index2"; "Index"; "Sample_Project"]
    [ofStrings ["S1"; "TTTT"]] [ofStrings ["S1"; "TTTT"]]
    ["[Header]"; "[BCLConvert_Data]"] None None.

(** A page with a full table. *)
Definition fullTablePage : Page2k.page :=
  Page2k.Page ["Sample_ID"; "Index2"; "Index"; "Sample_Project"]
    [ofStrings ["S1"; "TTTT"; "AAAA"; "ProjA"]]
    [ofStrings ["S1"; "TTTT"; "AAAA"; "ProjA"]]
    ["[Header]"; "[BCLConvert_Data]"] None None.

(** A bare CSV file with its columns in another order and in other
    spellings than the required ones. *)
Definition mixedCaseSheet : string :=
  unlines [ "Index,SAMPLE_ID,Sample_Project,index2";
            "AAAA,sample1,ProjA,TTTT" ].

(** A page whose only row does not reach the index2 column. *)
Definition shortOfIndex2Page : Page2k.page :=
  Page2k.Page ["Sample_ID"; "Index"; "Index2"]
    [ofStrings ["sample1"]] [ofStrings ["sample1"]] [] None None.

(** The same page after the handler has run with the box unchecked: the
    write at position 2 has left a hole at position 1. *)
Definition shortOfIndex2Toggled : Page2k.page :=
  Page2k.Page ["Sample_ID"; "Index"; "Index2"]
    [[Some (str "sample1"); None; Some undefined]]
    [ofStrings ["sample1"]] [] None None.

(** A bare CSV file with none of the required columns. *)
Definition missingColumnsSheet : string :=
  unlines [ "Sample_Name,Foo,Bar"; "S1,x,y" ].

End Sheets.

(** * Properties *)

Module UtilsFacts.
Import JS Utils.

Lemma complement_involutive (c : ascii) :
  default (default c (DNA_COMPLEMENT c))
          (DNA_COMPLEMENT (default c (DNA_COMPLEMENT c))) = c.
Proof.
  unfold DNA_COMPLEMENT.
  destruct (Ascii.eqb_spec c "A") as [->|HA]; [reflexivity|].
  destruct (Ascii.eqb_spec c "T") as [->|HT]; [reflexivity|].
  destruct (Ascii.eqb_spec c "C") as [->|HC]; [reflexivity|].
  destruct (Ascii.eqb_spec c "G") as [->|HG]; [reflexivity|].
  simpl.
  destruct (Ascii.eqb_spec c "A"); [contradiction|].
  destruct (Ascii.eqb_spec c "T"); [contradiction|].
  destruct (Ascii.eqb_spec c "C"); [contradiction|].
  destruct (Ascii.eqb_spec c "G"); [contradiction|].
  reflexivity.
Qed.

(** C4: [reverseComplement] is its own inverse on every string, whatever
    mix of bases and passthrough characters it holds. *)
Theorem reverseComplement_involutive (s : string) :
  reverseComplement (reverseComplement s) = s.
Proof.
  unfold reverseComplement.
  rewrite list_ascii_of_string_of_list_ascii.
  rewrite <- map_rev, rev_involutive, map_map.
  rewrite <- (string_of_list_ascii_of_string s) at 2.
  f_equal.
  induction (list_ascii_of_string s) as [|c l IH]; simpl; [reflexivity|].
  rewrite complement_involutive. f_equal. exact IH.
Qed.

(** *** Regular-expression replacement *)

Lemma replaceEach_id cls r s :
  allChars (fun c => cls c = false) s -> replaceEach cls r s = s.
Proof.
  induction s as [|a s IH]; simpl; [reflexivity|].
  intros [Ha Hs]. rewrite Ha. f_equal. auto.
Qed.

Lemma replaceRuns_id cls r s :
  allChars (fun c => cls c = false) s -> replaceRuns cls r s = s.
Proof.
  induction s as [|a s IH]; simpl; [reflexivity|].
  intros [Ha Hs]. rewrite Ha. f_equal. auto.
Qed.

Lemma allChars_app P s t :
  allChars P s -> allChars P t -> allChars P (s +:+ t).
Proof.
  induction s as [|a s IH]; simpl; [auto|]. intros [Ha Hs] Ht. auto.
Qed.

Lemma allChars_impl (P Q : ascii -> Prop) s :
  (forall c, P c -> Q c) -> allChars P s -> allChars Q s.
Proof.
  intros HPQ. induction s as [|a s IH]; simpl; [auto|].
  intros [Ha Hs]. auto.
Qed.

Lemma replaceEach_allChars (P : ascii -> Prop) cls r s :
  (forall c, cls c = false -> P c) -> allChars P r ->
  allChars P (replaceEach cls r s).
Proof.
  intros Hcls Hr. induction s as [|a s IH]; simpl; [exact I|].
  destruct (cls a) eqn:Ea.
  - apply allChars_app; assumption.
  - simpl. auto.
Qed.

Lemma replaceRuns_allChars (P : ascii -> Prop) cls r s :
  allChars (fun c => cls c = false -> P c) s -> allChars P r ->
  allChars P (replaceRuns cls r s).
Proof.
  intros Hs Hr. induction s as [|a s IH]; simpl; [exact I|].
  destruct Hs as [Ha Hs]. specialize (IH Hs).
  destruct (cls a) eqn:Ea.
  - destruct (startsIn cls s); [exact IH|].
    apply allChars_app; assumption.
  - simpl. auto.
Qed.

Lemma app_single (c : ascii) (s : string) : String c EmptyString +:+ s = String c s.
Proof. reflexivity. Qed.

(** The two equations of a global replacement of runs: a character outside
    the class is copied, and a maximal run of the class becomes [r]. *)
Lemma replaceRuns_other cls r (a : ascii) (s : string) :
  cls a = false ->
  replaceRuns cls r (String a s) = String a (replaceRuns cls r s).
Proof. intros Ha. simpl. rewrite Ha. reflexivity. Qed.

Lemma replaceRuns_run cls r (a : ascii) (run rest : string) :
  cls a = true ->
  allChars (fun c => cls c = true) run ->
  startsIn cls rest = false ->
  replaceRuns cls r (String a run +:+ rest) = r +:+ replaceRuns cls r rest.
Proof.
  revert a. induction run as [|b run IH]; intros a Ha Hrun Hrest.
  - change (String a EmptyString +:+ rest) with (String a rest).
    simpl. rewrite Ha, Hrest. reflexivity.
  - destruct Hrun as [Hb Hrun].
    change (String a (String b run) +:+ rest)
      with (String a (String b run +:+ rest)).
    cbn [replaceRuns]. rewrite Ha.
    change (startsIn cls (String b run +:+ rest)) with (cls b).
    rewrite Hb. apply IH; assumption.
Qed.

Example replaceRuns_mixed_run :
  replaceRuns Utils.isNonWordOrUnderscore "-" "a__b -_c!" = "a-b-c-".
Proof. reflexivity. Qed.

Example removeSpecialChars_sample :
  removeSpecialChars "Sample 1 (a)--b_c" "-" true = "Sample-1-a-b_c".
Proof. reflexivity. Qed.

Example split_keeps_empty_cells :
  JS.split "," "S1,,N701," = ["S1"; EmptyString; "N701"; EmptyString].
Proof. reflexivity. Qed.

Example splitLines_crlf :
  splitLines (String "a" (String CR (String LF (String "b" (String LF "c")))))
  = ["a"; "b"; "c"].
Proof. reflexivity. Qed.

Example trim_both_ends : trim "  Sample_ID	 " = "Sample_ID".
Proof. reflexivity. Qed.

Example reverseComplement_sample : reverseComplement "TTATGCGA" = "TCGCATAA".
Proof. reflexivity. Qed.

(** Replacing the runs of one character by that character is idempotent. *)
Lemma collapse_idempotent (c : ascii) (s : string) :
  let collapse := replaceRuns (Ascii.eqb c) (String c EmptyString) in
  collapse (collapse s) = collapse s.
Proof.
  simpl. induction s as [|a s IH]; [reflexivity|].
  cbn [replaceRuns].
  destruct (Ascii.eqb c a) eqn:Ea.
  - destruct s as [|b s'].
    + cbn [startsIn replaceRuns]. rewrite !app_single.
      cbn [startsIn replaceRuns]. rewrite Ascii.eqb_refl. reflexivity.
    + cbn [startsIn].
      destruct (Ascii.eqb c b) eqn:Eb; [exact IH|].
      cbn [replaceRuns] in IH. rewrite Eb in IH.
      cbn [replaceRuns]. rewrite Eb, !app_single.
      cbn [replaceRuns startsIn].
      rewrite Ascii.eqb_refl, Eb, app_single. f_equal.
      cbn [replaceRuns] in IH. rewrite Eb in IH. exact IH.
  - cbn [replaceRuns]. rewrite Ea. f_equal. exact IH.
Qed.

(** *** [removeSpecialChars] *)

Lemma removeSpecialChars_default_clean (x : string) :
  allChars (fun c => isSpecial c = false) (removeSpecialChars_default x).
Proof.
  unfold removeSpecialChars_default, removeSpecialChars.
  apply replaceRuns_allChars; [|simpl; auto].
  apply allChars_impl with (P := fun c => isSpecial c = false); [auto|].
  apply replaceEach_allChars; [auto|simpl; auto].
Qed.

(** C5: the sanitizer with the default replacement character and run
    collapsing enabled is idempotent. *)
Theorem removeSpecialChars_idempotent (x : string) :
  removeSpecialChars (removeSpecialChars x "-" true) "-" true
  = removeSpecialChars x "-" true.
Proof.
  pose proof (removeSpecialChars_default_clean x) as Hclean.
  unfold removeSpecialChars_default in Hclean.
  unfold removeSpecialChars at 1.
  rewrite (replaceEach_id _ _ _ Hclean).
  unfold removeSpecialChars.
  apply (collapse_idempotent "-").
Qed.

(** *** [replaceSpecialCharacters] *)

Lemma isNonWordOrUnderscore_underscore c :
  isNonWordOrUnderscore c = false -> c <> "_"%char.
Proof. intros H ->. discriminate H. Qed.

Lemma collapseHyphens_hyphenateRuns_no_underscore (text : string) :
  allChars (fun c => Ascii.eqb "_" c = false)
           (collapseHyphens (hyphenateRuns text)).
Proof.
  unfold collapseHyphens, hyphenateRuns.
  apply replaceRuns_allChars; [|simpl; auto].
  apply allChars_impl with (P := fun c => Ascii.eqb "_" c = false); [auto|].
  apply replaceRuns_allChars; [|simpl; auto].
  apply allChars_impl with (P := fun _ => True); [|clear; induction text; simpl; auto].
  intros c _ Hc. apply Ascii.eqb_neq. intros <-. discriminate Hc.
Qed.

Lemma underscore_pass_is_noop (text : string) :
  replaceSpecialCharacters text = replaceSpecialCharacters_noUnderscorePass text.
Proof.
  destruct text as [|a text]; [reflexivity|].
  unfold replaceSpecialCharacters, replaceSpecialCharacters_noUnderscorePass.
  unfold collapseUnderscores. apply replaceRuns_id.
  apply collapseHyphens_hyphenateRuns_no_underscore.
Qed.

(** C7, as stated, fails: no input separates [replaceSpecialCharacters]
    from the variant without the [/_+/g] pass. *)
Lemma underscore_pass_never_observable :
  ~ exists text : string,
      replaceSpecialCharacters_noUnderscorePass text
      <> replaceSpecialCharacters text.
Proof.
  intros [text Hne]. apply Hne. symmetry. apply underscore_pass_is_noop.
Qed.

(** C7, amended: the first pass [/[\W_]+/g] already turns every underscore
    into a hyphen, so the result holds no underscore and leaving out the
    [/_+/g] pass gives the same result on every input. *)
Theorem replaceSpecialCharacters_underscore_pass_dead (text : string) :
  allChars (fun c => c <> "_"%char) (replaceSpecialCharacters text)
  /\ replaceSpecialCharacters text
     = replaceSpecialCharacters_noUnderscorePass text.
Proof.
  split; [|apply underscore_pass_is_noop].
  rewrite underscore_pass_is_noop.
  destruct text as [|a text]; [exact I|].
  unfold replaceSpecialCharacters_noUnderscorePass.
  eapply allChars_impl; [|apply collapseHyphens_hyphenateRuns_no_underscore].
  intros c Hc ->. discriminate Hc.
Qed.

(** *** [isDNASequence] *)

Lemma isDNABase_spec (c : ascii) : isDNABase c = true <-> inACGT c.
Proof.
  unfold isDNABase, inACGT.
  rewrite !orb_true_iff, !Ascii.eqb_eq. tauto.
Qed.

Lemma forallb_isDNABase (s : string) :
  forallb isDNABase (list_ascii_of_string s) = true <-> allChars inACGT s.
Proof.
  induction s as [|a s IH]; simpl; [tauto|].
  rewrite andb_true_iff, isDNABase_spec, IH. tauto.
Qed.

(** C9, as stated, fails at the empty string: all its characters (there
    are none) lie in the set, and the predicate is false. *)
Lemma isDNASequence_empty_false :
  allChars inACGT EmptyString /\ isDNASequence EmptyString = false.
Proof. split; [exact I|reflexivity]. Qed.

(** C9, amended: [isDNASequence] holds exactly for the non-empty strings
    all of whose characters are in {A,C,G,T}. *)
Theorem isDNASequence_spec (s : string) :
  isDNASequence s = true <-> s <> EmptyString /\ allChars inACGT s.
Proof.
  rewrite <- forallb_isDNABase.
  unfold isDNASequence, testAllPlus.
  destruct s as [|a s]; simpl.
  - split; [discriminate|intros [H _]; contradiction].
  - split; [intros H; split; [discriminate|exact H]|intros [_ H]; exact H].
Qed.

End UtilsFacts.

(** ** Duplicate index detection of [validateSampleSheet2k] *)

Module DuplicateFacts.
Import JS Utils Sheets.

Lemma duplicateSheet_lines :
  splitLines duplicateSheet =
    [ "[Header]"; "[BCLConvert_Data]"; "Sample_ID,Index2,Index,Sample_Project";
      "sample1,TTTT,AAAA,ProjA"; "sample2,TTTT,AAAA,ProjA";
      "sample3,CCCC,GGGG,ProjA" ].
Proof. vm_compute. reflexivity. Qed.

(** C1, as stated, fails: on the three rows (AAAA,TTTT), (AAAA,TTTT),
    (GGGG,CCCC) the map returned by [validateSampleSheet2k] has no key
    [TTTT-AAAA]. *)
Lemma validateSampleSheet2k_no_index2_first_key :
  duplicatedIndexes2k (validateSampleSheet2k duplicateSheet) !! "TTTT-AAAA" = None
  /\ duplicatedIndexes2k (validateSampleSheet2k duplicateSheet)
     <> {[ "TTTT-AAAA" := ["sample1"; "sample2"] ]}.
Proof.
  split; [vm_compute; reflexivity|].
  intros Heq.
  assert (Hl : duplicatedIndexes2k (validateSampleSheet2k duplicateSheet)
               !! "TTTT-AAAA" = Some ["sample1"; "sample2"]).
  { rewrite Heq. apply lookup_singleton_eq. }
  vm_compute in Hl. discriminate Hl.
Qed.

(** C1, amended: the key is the index value, a hyphen, then the index2
    value.  On the three rows the returned map holds the one key
    [AAAA-TTTT], bound to [sample1, sample2]; the key of sample3 is absent
    and the sheet is reported invalid. *)
Theorem validateSampleSheet2k_duplicate_key :
  duplicatedIndexes2k (validateSampleSheet2k duplicateSheet)
  = {[ indexKey "AAAA" "TTTT" := ["sample1"; "sample2"] ]}
  /\ indexKey "AAAA" "TTTT" = "AAAA-TTTT"
  /\ duplicatedIndexes2k (validateSampleSheet2k duplicateSheet)
     !! indexKey "GGGG" "CCCC" = None
  /\ isValid (validateSampleSheet2k duplicateSheet) = false.
Proof. repeat split; vm_compute; reflexivity. Qed.

(** The detector inside [routes/nextseq2k/+page.svelte], [processRows],
    composes its keys the other way round: index2 first. *)
Lemma processRows_key_index2_first :
  NextSeq2k.duplicated
    (NextSeq2k.processRows
       [ ofStrings ["sample1"; "TTTT"; "AAAA"; "ProjA"];
         ofStrings ["sample2"; "TTTT"; "AAAA"; "ProjA"];
         ofStrings ["sample3"; "CCCC"; "GGGG"; "ProjA"] ]
       ["Sample_ID"; "Index2"; "Index"; "Sample_Project"])
  = [("TTTT-AAAA", ["sample1"; "sample2"])].
Proof. vm_compute. reflexivity. Qed.

End DuplicateFacts.

(** ** Missing required columns *)

Module ReconcilerFacts.
Import JS Page2k Sheets.

(** C2 on the second NextSeq 2000 page: a header row [Sample_Name,Foo,Bar]
    raises no error at all.  The four required columns are emitted and
    every cell of the row is empty. *)
Theorem alt_processContent_missing_columns_silent (cfg : config) (st : page) :
  let st' := NextSeq2kAlt.processContent cfg st missingColumnsSheet in
  error st' = None
  /\ headers st' = ["Sample_ID"; "Index2"; "Index"; "Sample_Project"]
  /\ rows st' = [ofStrings [EmptyString; EmptyString; EmptyString; EmptyString]].
Proof. repeat split; vm_compute; reflexivity. Qed.

(** On that page a bare CSV file never raises an error, whatever columns
    it has. *)
Lemma alt_processContent_bare_never_fails (cfg : config) (st : page)
    (content : string) :
  hasFullStructure (nonBlankLines content) = false ->
  nonBlankLines content <> [] ->
  error (NextSeq2kAlt.processContent cfg st content) = None.
Proof.
  intros Hbare Hlines. unfold NextSeq2kAlt.processContent.
  rewrite Hbare. simpl.
  destruct (nonBlankLines content); [contradiction|reflexivity].
Qed.

Lemma split_not_nil (sep : ascii) (s : string) : JS.split sep s <> [].
Proof.
  induction s as [|a s IH]; simpl; [discriminate|].
  destruct (Ascii.eqb a sep); [discriminate|].
  destruct (JS.split sep s); [contradiction|discriminate].
Qed.

(** X19: [routes/nextseq2k/+page.svelte] reports every missing column at once:
    the error names the required columns that the header row lacks, in
    the order of [requiredColumns]. *)
Lemma processContent_reports_all_missing (cfg : config) (st : page)
    (content line0 : string) (rest : list string) :
  nonBlankLines content = line0 :: rest ->
  hasFullStructure (line0 :: rest) = false ->
  let inputHeadersLower := map toLowerCase (map trim (JS.split "," line0)) in
  NextSeq2k.missingColumns inputHeadersLower <> [] ->
  error (NextSeq2k.processContent cfg st content)
  = Some (NextSeq2k.missingColumnsError
            (NextSeq2k.missingColumns inputHeadersLower)).
Proof.
  intros Hlines Hbare lower Hmissing. unfold NextSeq2k.processContent.
  destruct content as [|c content]; [discriminate Hlines|].
  cbn [isEmpty]. rewrite Hlines, Hbare. cbn [negb].
  destruct (map trim (JS.split "," line0)) as [|h hs] eqn:Hsplit.
  - apply map_eq_nil in Hsplit. destruct (split_not_nil _ _ Hsplit).
  - cbn [List.length Nat.eqb]. fold lower.
    destruct (NextSeq2k.missingColumns lower); [contradiction|reflexivity].
Qed.

(** [routes/nextseq2k/+page.svelte] on the same file: one error that names
    the four missing columns. *)
Lemma processContent_missing_columns_batched (cfg : config) (st : page) :
  error (NextSeq2k.processContent cfg st missingColumnsSheet)
  = Some (Error "Missing required columns: sample_id, index2, index, sample_project").
Proof. vm_compute. reflexivity. Qed.

End ReconcilerFacts.

(** ** Section scanning *)

Module ParserFacts.
Import JS Sheets.

(** *** [parseIlluminaSampleSheet] *)

Section Illumina.
Import NextSeq500 ParserVocabulary.

Lemma scan_no_marker (ls : list string) (st : scan) :
  Forall (fun l => isDataMarker l = false) ls ->
  dataSection st = true ->
  fold_left scanLine ls st
  = Scan true (headerLines st)
         (dataLines st ++ map cleanLineOf (List.filter hasText ls)).
Proof.
  intros Hls. revert st.
  induction Hls as [|l ls Hl _ IH]; intros st Hst; simpl.
  - rewrite app_nil_r. destruct st; simpl in *; congruence.
  - unfold scanLine at 2. rewrite Hl, Hst. simpl.
    destruct (hasText l); simpl.
    + rewrite IH by reflexivity. simpl. rewrite <- app_assoc. reflexivity.
    + apply IH. exact Hst.
Qed.

Lemma scan_no_marker_before (ls : list string) (st : scan) :
  Forall (fun l => isDataMarker l = false) ls ->
  dataSection st = false ->
  dataSection (fold_left scanLine ls st) = false.
Proof.
  intros Hls. revert st.
  induction Hls as [|l ls Hl _ IH]; intros st Hst; simpl; [exact Hst|].
  apply IH. unfold scanLine. rewrite Hl, Hst. reflexivity.
Qed.

(** Either no line is a marker, or there is a last marker line. *)
Lemma last_marker (ls : list string) :
  Forall (fun l => isDataMarker l = false) ls
  \/ exists before marker after,
       ls = before ++ marker :: after
       /\ isDataMarker marker = true
       /\ Forall (fun l => isDataMarker l = false) after.
Proof.
  induction ls as [|l ls IH]; [left; constructor|].
  destruct IH as [Hno|(before & marker & after & -> & Hm & Hafter)].
  - destruct (isDataMarker l) eqn:El.
    + right. exists [], l, ls. auto.
    + left. constructor; assumption.
  - right. exists (l :: before), marker, after. auto.
Qed.

Lemma last_marker_unique (before after b a : list string) (marker m : string) :
  before ++ marker :: after = b ++ m :: a ->
  isDataMarker marker = true ->
  Forall (fun l => isDataMarker l = false) after ->
  isDataMarker m = true ->
  Forall (fun l => isDataMarker l = false) a ->
  a = after.
Proof.
  intros Heq Hm Hafter Hmk Ha. revert b Heq.
  induction before as [|x before IH]; intros [|y b] Heq; simpl in Heq.
  - congruence.
  - injection Heq as _ Heq. subst after.
    apply Forall_app in Hafter as [_ Hafter].
    inversion Hafter; congruence.
  - injection Heq as _ Heq. subst a.
    apply Forall_app in Ha as [_ Ha].
    inversion Ha; congruence.
  - injection Heq as _ Heq. eauto.
Qed.

Lemma scan_after_last_marker (before after : list string) (marker : string) :
  isDataMarker marker = true ->
  Forall (fun l => isDataMarker l = false) after ->
  let st := fold_left scanLine (before ++ marker :: after) (Scan false [] []) in
  dataSection st = true
  /\ dataLines st = map cleanLineOf (List.filter hasText after).
Proof.
  intros Hm Hafter. rewrite fold_left_app. simpl.
  set (st0 := fold_left scanLine before (Scan false [] [])).
  assert (Hstep : scanLine st0 marker = Scan true (headerLines st0) []).
  { unfold scanLine. rewrite Hm. reflexivity. }
  rewrite Hstep, scan_no_marker by (assumption || reflexivity).
  simpl. auto.
Qed.

(** C3, as stated, fails: in [headerOnlySheet] the marker line is found and
    a non-empty line follows it, and the parser raises the empty-data
    error. *)
Lemma parse_header_only_raises :
  linesOf headerOnlySheet = ["[Header]"; "[Data]"; "Sample_ID,index,index2"]
  /\ parseIlluminaSampleSheet headerOnlySheet = Throw noDataFound.
Proof. split; vm_compute; reflexivity. Qed.

(** C3, amended: the parser raises the empty-data error exactly when a
    marker line is found and fewer than two lines with text follow the
    last marker line. *)
Theorem parse_noDataFound_iff (content : string) :
  parseIlluminaSampleSheet content = Throw noDataFound
  <-> exists before marker after,
        linesOf content = before ++ marker :: after
        /\ isDataMarker marker = true
        /\ Forall (fun l => isDataMarker l = false) after
        /\ List.length (List.filter hasText after) < 2.
Proof.
  unfold parseIlluminaSampleSheet.
  destruct (last_marker (linesOf content))
    as [Hno|(before & marker & after & Hlines & Hm & Hafter)].
  - rewrite (scan_no_marker_before _ (Scan false [] []) Hno eq_refl). simpl.
    split; [discriminate|].
    intros (b & m & a & Hl & Hmk & _). rewrite Hl in Hno.
    apply Forall_app in Hno as [_ Hno]. inversion Hno; congruence.
  - rewrite Hlines.
    destruct (scan_after_last_marker before after marker Hm Hafter) as [Hds Hdl].
    rewrite Hds, Hdl, length_map. simpl.
    destruct (Nat.ltb_spec (List.length (List.filter hasText after)) 2) as [Hlt|Hge].
    + split; [|reflexivity]. intros _. exists before, marker, after. auto.
    + split; [discriminate|].
      intros (b & m & a & Hl & Hmk & Ha & Hlt).
      rewrite (last_marker_unique _ _ _ _ _ _ Hl Hm Hafter Hmk Ha) in Hlt. lia.
Qed.



Lemma scan_spec (ls : list string) (st : scan) :
  fold_left scanLine ls st
  = if existsb isDataMarker ls then
      Scan true
        (headerLines st ++ (if dataSection st then [] else beforeFirstMarker ls))
        (map cleanLineOf (List.filter hasText (afterLastMarker ls)))
    else if dataSection st then
      Scan true (headerLines st)
        (dataLines st ++ map cleanLineOf (List.filter hasText ls))
    else Scan false (headerLines st ++ ls) (dataLines st).
Proof.
  revert st. induction ls as [|l ls IH]; intros st.
  - simpl. destruct st as [[] hl dl]; simpl; rewrite app_nil_r; reflexivity.
  - cbn [fold_left existsb beforeFirstMarker afterLastMarker].
    rewrite IH. unfold scanLine.
    destruct (isDataMarker l) eqn:Hl; cbn [orb dataSection headerLines dataLines].
    + destruct (existsb isDataMarker ls).
      * destruct (dataSection st); reflexivity.
      * destruct (dataSection st); rewrite app_nil_r; reflexivity.
    + destruct (dataSection st) eqn:Hds; cbn [negb].
      * destruct (hasText l) eqn:Ht;
          cbn [dataSection headerLines dataLines List.filter]; rewrite ?Hds, ?Ht;
          destruct (existsb isDataMarker ls); cbn [map];
          rewrite <- ?app_assoc; reflexivity.
      * cbn [dataSection headerLines dataLines].
        destruct (existsb isDataMarker ls); rewrite <- app_assoc; reflexivity.
Qed.



End Illumina.

(** *** The scan of the NextSeq 2000 pages *)

Section Scan2k.
Import Page2k ParserVocabulary.
Variable isMarker : string -> bool.

Lemma scan_without_marker (lines : list string) (sc : scan) :
  Forall (fun l => isMarker l = false) lines ->
  dataSection sc = false ->
  fold_left (scanLine isMarker) lines sc
  = Scan false (scannedHeader sc ++ lines) (dataLines sc).
Proof.
  intros Hlines. revert sc.
  induction Hlines as [|l lines Hl _ IH]; intros sc Hsc; simpl.
  - rewrite app_nil_r. destruct sc; simpl in *; congruence.
  - rewrite IH.
    + unfold scanLine. rewrite Hl, Hsc. simpl. rewrite <- app_assoc.
      reflexivity.
    + unfold scanLine. rewrite Hl, Hsc. reflexivity.
Qed.








End Scan2k.






End ParserFacts.

(** ** Serialization *)

Module SerializerFacts.
Import JS Serializer SerializerVocabulary Sheets.

Lemma padLoop_enough_fuel (fuel n : nat) (row : array) :
  n - List.length row <= fuel ->
  padLoop fuel row n
  = row ++ replicate (n - List.length row) (Some (str EmptyString)).
Proof.
  revert row. induction fuel as [|fuel IH]; intros row Hfuel; simpl.
  - replace (n - List.length row) with 0 by lia. simpl.
    rewrite app_nil_r. reflexivity.
  - destruct (Nat.ltb_spec (List.length row) n) as [Hlt|Hge].
    + rewrite IH by (rewrite length_app; simpl; lia).
      rewrite length_app. simpl.
      replace (n - List.length row) with (S (n - (List.length row + 1))) by lia.
      simpl. rewrite <- app_assoc. reflexivity.
    + replace (n - List.length row) with 0 by lia. simpl.
      rewrite app_nil_r. reflexivity.
Qed.

Lemma length_spread (row : array) : List.length (spread row) = List.length row.
Proof. unfold spread. apply length_map. Qed.

Lemma paddedRow_cells (n : nat) (row : array) :
  paddedRow n row
  = spread row ++ replicate (n - List.length row) (Some (str EmptyString)).
Proof.
  unfold paddedRow. rewrite padLoop_enough_fuel; rewrite length_spread; [reflexivity|lia].
Qed.

Lemma spread_idempotent (row : array) : spread (spread row) = spread row.
Proof.
  induction row as [|c row IH]; simpl; [reflexivity|]. f_equal. exact IH.
Qed.

Lemma findIndex_lt {A : Type} (p : A -> bool) (l : list A) (k : nat) :
  findIndex p l = Some k -> k < List.length l.
Proof.
  revert k. induction l as [|x l IH]; intros k; simpl; [discriminate|].
  destruct (p x); [intros [= <-]; lia|].
  destruct (findIndex p l) as [j|]; simpl; [|discriminate].
  intros [= <-]. specialize (IH j eq_refl). lia.
Qed.

Lemma filterStrings_past (j k : nat) (l : list string) :
  k < j -> filterStringsIndexNeFrom j k l = l.
Proof.
  revert j. induction l as [|y l IH]; intros j Hj; simpl; [reflexivity|].
  destruct (Nat.eqb_spec j k); [lia|]. f_equal. apply IH. lia.
Qed.

Lemma filterStrings_from (i k : nat) (l : list string) :
  i <= k ->
  filterStringsIndexNeFrom i k l = take (k - i) l ++ drop (S (k - i)) l.
Proof.
  revert i. induction l as [|x l IH]; intros i Hik; simpl.
  - rewrite take_nil. reflexivity.
  - destruct (Nat.eqb_spec i k) as [->|Hne].
    + rewrite Nat.sub_diag. simpl. rewrite drop_0.
      apply filterStrings_past. lia.
    + replace (k - i) with (S (k - S i)) by lia. simpl. f_equal.
      apply IH. lia.
Qed.

Lemma filterIndexNe_ofStrings (i k : nat) (l : list string) :
  filterIndexNeFrom i k (ofStrings l)
  = ofStrings (filterStringsIndexNeFrom i k l).
Proof.
  revert i. induction l as [|x l IH]; intros i; simpl; [reflexivity|].
  destruct (i =? k)%nat; simpl; rewrite IH; reflexivity.
Qed.

Lemma spread_ofStrings (l : list string) : spread (ofStrings l) = ofStrings l.
Proof.
  unfold spread, ofStrings. rewrite map_map. reflexivity.
Qed.

Lemma length_ofStrings (l : list string) :
  List.length (ofStrings l) = List.length l.
Proof. apply length_map. Qed.

Lemma length_without (k : nat) (l : list string) :
  k < List.length l ->
  List.length (take k l ++ drop (S k) l) = List.length l - 1.
Proof.
  intros Hk. rewrite length_app, length_take, length_drop. lia.
Qed.

Lemma joinArray_ofStrings (sep : string) (l : list string) :
  joinArray sep (ofStrings l) = join sep l.
Proof.
  unfold joinArray, ofStrings, join. rewrite map_map. cbn [cellText].
  rewrite map_id. reflexivity.
Qed.

(** *** The three [downloadValidated] functions in closed form *)

Lemma downloadHeaders_kept (removeProject : bool) (headers : list string) :
  downloadHeaders removeProject headers
  = keptStrings removeProject headers headers.
Proof.
  unfold downloadHeaders, keptStrings, removedColumn.
  destruct removeProject; [|reflexivity].
  destruct (projectColIndex headers) as [k|]; [|reflexivity].
  rewrite filterStrings_from by lia. rewrite Nat.sub_0_r. reflexivity.
Qed.

Lemma downloadRows_kept (removeProject : bool) (headers : list string)
    (rows : list array) :
  downloadRows removeProject headers rows
  = map (keptCells removeProject headers) rows.
Proof.
  unfold downloadRows, keptCells, removedColumn.
  destruct removeProject; [|reflexivity].
  destruct (projectColIndex headers); reflexivity.
Qed.

Lemma spread_filterIndexNeFrom (i k : nat) (row : array) :
  spread (filterIndexNeFrom i k row) = filterIndexNeFrom i k row.
Proof.
  revert i. induction row as [|[v|] row IH]; intros i; simpl;
    [reflexivity| |apply IH].
  destruct (i =? k)%nat; simpl; [apply IH|]. f_equal. apply IH.
Qed.

Lemma spread_keptCells (removeProject : bool) (headers : list string)
    (row : array) :
  spread (keptCells removeProject headers row)
  = keptCells removeProject headers row.
Proof.
  unfold keptCells.
  destruct (removedColumn removeProject headers);
    [apply spread_filterIndexNeFrom|apply spread_idempotent].
Qed.

Lemma keptCells_ofStrings (removeProject : bool) (headers cells : list string) :
  keptCells removeProject headers (ofStrings cells)
  = ofStrings (keptStrings removeProject headers cells).
Proof.
  unfold keptCells, keptStrings.
  destruct (removedColumn removeProject headers) as [k|];
    [|apply spread_ofStrings].
  unfold filterIndexNe.
  rewrite filterIndexNe_ofStrings, filterStrings_from by lia.
  rewrite Nat.sub_0_r. reflexivity.
Qed.

Lemma tableLines_emitted (removeProject : bool) (headers : list string)
    (rows : list array) :
  tableLines (downloadHeaders removeProject headers)
             (downloadRows removeProject headers rows)
  = emittedTable removeProject headers rows.
Proof.
  unfold tableLines, emittedTable.
  rewrite downloadHeaders_kept, downloadRows_kept, map_map.
  f_equal. apply map_ext. intros row.
  rewrite paddedRow_cells, spread_keptCells. reflexivity.
Qed.

Lemma not_nil_length {A : Type} (l : list A) :
  l <> [] -> (List.length l =? 0)%nat = false.
Proof. destruct l; [contradiction|reflexivity]. Qed.

Lemma parsed_not_empty (content : string) (p : NextSeq500.parsed) :
  NextSeq500.parseIlluminaSampleSheet content = Ok p ->
  isEmpty content = false.
Proof. destruct content; [vm_compute; discriminate|reflexivity]. Qed.

Lemma downloadValidated_alt (removeProject : bool) (st : Page2k.page) :
  Page2k.headers st <> [] ->
  Page2k.rows st <> [] ->
  NextSeq2kAlt.downloadValidated removeProject st
  = Some (unlines
            (Page2k.headerSection st
             ++ emittedTable removeProject (Page2k.headers st)
                  (Page2k.rows st))).
Proof.
  intros Hheaders Hrows. unfold NextSeq2kAlt.downloadValidated.
  rewrite (not_nil_length _ Hheaders), (not_nil_length _ Hrows).
  cbn [orb]. rewrite tableLines_emitted. reflexivity.
Qed.

Lemma downloadValidated_2k (cfg : Page2k.config) (removeProject : bool)
    (st : Page2k.page) :
  Page2k.headers st <> [] ->
  Page2k.rows st <> [] ->
  exists st',
    NextSeq2k.downloadValidated cfg removeProject st
    = Some (st',
            unlines
              (Page2k.generatedHeaderSection cfg
               ++ emittedTable removeProject (Page2k.headers st)
                    (Page2k.rows st))).
Proof.
  intros Hheaders Hrows. unfold NextSeq2k.downloadValidated.
  rewrite (not_nil_length _ Hheaders), (not_nil_length _ Hrows).
  cbn [orb Page2k.headerSection]. rewrite tableLines_emitted.
  eexists. reflexivity.
Qed.

Lemma downloadValidated_500 (removeProject : bool) (headers : list string)
    (rows : list array) (fileContent : string) (p : NextSeq500.parsed) :
  headers <> [] ->
  rows <> [] ->
  NextSeq500.parseIlluminaSampleSheet fileContent = Ok p ->
  NextSeq500.downloadValidated removeProject headers rows fileContent
  = Some (Ok (unlines
                (NextSeq500.headerSection p
                 ++ "[Data]" :: emittedTable removeProject headers rows))).
Proof.
  intros Hheaders Hrows Hparse. unfold NextSeq500.downloadValidated.
  rewrite (not_nil_length _ Hheaders), (not_nil_length _ Hrows),
    (parsed_not_empty _ _ Hparse), Hparse.
  cbn [orb bind]. rewrite tableLines_emitted. reflexivity.
Qed.

(** C8: on each of the three pages, with headers and rows in the table
    (and, on the NextSeq 500 page, a file that parses),
    [downloadValidated] writes the header section, the kept headers and
    one line per row of the table: the kept cells of the row followed by
    empty cells up to the number of kept headers.  The number of cells
    written for a row is the larger of the number of its kept cells and
    the number of kept headers, and the kept cells come first, so that no
    cell is cut off.  Without a removed column the kept cells are as many
    as the cells of the row; with one, a row without holes keeps every
    cell but the one at the removed position. *)
Theorem serialized_row_cell_count (removeProject : bool) :
  (forall st : Page2k.page,
     Page2k.headers st <> [] ->
     Page2k.rows st <> [] ->
     NextSeq2kAlt.downloadValidated removeProject st
     = Some (unlines
               (Page2k.headerSection st
                ++ emittedTable removeProject (Page2k.headers st)
                     (Page2k.rows st))))
  /\ (forall (cfg : Page2k.config) (st : Page2k.page),
        Page2k.headers st <> [] ->
        Page2k.rows st <> [] ->
        exists st',
          NextSeq2k.downloadValidated cfg removeProject st
          = Some (st',
                  unlines
                    (Page2k.generatedHeaderSection cfg
                     ++ emittedTable removeProject (Page2k.headers st)
                          (Page2k.rows st))))
  /\ (forall (headers : list string) (rows : list array)
             (fileContent : string) (p : NextSeq500.parsed),
        headers <> [] ->
        rows <> [] ->
        NextSeq500.parseIlluminaSampleSheet fileContent = Ok p ->
        NextSeq500.downloadValidated removeProject headers rows fileContent
        = Some (Ok (unlines
                      (NextSeq500.headerSection p
                       ++ "[Data]"
                       :: emittedTable removeProject headers rows))))
  /\ (forall (headers : list string) (row : array),
        List.length (emittedCells removeProject headers row)
        = Nat.max (List.length (keptCells removeProject headers row))
                  (List.length (keptStrings removeProject headers headers))
        /\ take (List.length (keptCells removeProject headers row))
                (emittedCells removeProject headers row)
           = keptCells removeProject headers row)
  /\ (forall (headers : list string) (row : array),
        removedColumn removeProject headers = None ->
        List.length (emittedCells removeProject headers row)
        = Nat.max (List.length row) (List.length headers))
  /\ (forall headers cells : list string,
        keptCells removeProject headers (ofStrings cells)
        = ofStrings (keptStrings removeProject headers cells)).
Proof.
  split; [exact (downloadValidated_alt removeProject)|].
  split; [intros cfg; exact (downloadValidated_2k cfg removeProject)|].
  split; [exact (downloadValidated_500 removeProject)|].
  split; [|split].
  - intros headers row. unfold emittedCells. split.
    + rewrite length_app, length_replicate. lia.
    + apply take_app_length.
  - intros headers row Hnone. unfold emittedCells, keptCells, keptStrings.
    rewrite Hnone, length_app, length_replicate, length_spread. lia.
  - exact (keptCells_ofStrings removeProject).
Qed.

Lemma serialized_row_cell_count_witness :
  NextSeq2kAlt.downloadValidated true shortRowPage
  = Some (unlines [ "[Header]"; "[BCLConvert_Data]";
                    "Sample_ID,Index2,Index"; "S1,TTTT," ])
  /\ (exists st',
        NextSeq2k.downloadValidated defaultConfig true shortRowPage
        = Some (st',
                unlines
                  (Page2k.generatedHeaderSection defaultConfig
                   ++ ["Sample_ID,Index2,Index"; "S1,TTTT,"])))
  /\ NextSeq500.downloadValidated true
       ["Sample_ID"; "index"; "index2"; "Sample_Project"]
       [ofStrings ["S1"; "AAAA"]] illuminaSheet
     = Some (Ok (unlines [ "[Header]"; "IEMFileVersion,4"; "[Data]";
                           "Sample_ID,index,index2"; "S1,AAAA," ]))
  /\ List.length
       (emittedCells false ["Sample_ID"; "Index2"; "Index"]
          (ofStrings ["S1"; "TTTT"]))
     = Nat.max 2 3.
Proof.
  destruct (serialized_row_cell_count true)
    as (Halt & H2k & H500 & _ & _ & _).
  destruct (serialized_row_cell_count false)
    as (_ & _ & _ & _ & Hcount & _).
  split; [|split; [|split]].
  - apply (Halt shortRowPage); discriminate.
  - apply (H2k defaultConfig shortRowPage); discriminate.
  - apply (H500 ["Sample_ID"; "index"; "index2"; "Sample_Project"]
             [ofStrings ["S1"; "AAAA"]] illuminaSheet
             (NextSeq500.Parsed ["[Header]"; "IEMFileVersion,4"]
                ["Sample_ID,index,index2"; "S1,AAAA,TTTT"]));
      [discriminate|discriminate|vm_compute; reflexivity].
  - apply (Hcount ["Sample_ID"; "Index2"; "Index"] (ofStrings ["S1"; "TTTT"])).
    reflexivity.
Defined.

End SerializerFacts.

(** ** [validateSampleSheet]: rows with a repeated index pair *)

Module ValidatorFacts.
Import JS Utils Sheets.

Lemma string_app_assoc (a b c : string) : (a +:+ b) +:+ c = a +:+ b +:+ c.
Proof.
  induction a as [|x a IH]; [reflexivity|].
  change (String x ((a +:+ b) +:+ c) = String x (a +:+ b +:+ c)).
  f_equal. exact IH.
Qed.

Lemma join_absorb (v r : string) (rest : list string) :
  join "," ((v +:+ "," +:+ r) :: rest) = v +:+ "," +:+ join "," (r :: rest).
Proof.
  destruct rest as [|x rest]; simpl; [reflexivity|].
  rewrite !string_app_assoc. reflexivity.
Qed.

Lemma appendIds_Some (ids : list string) (v : string) :
  appendIds (Some v) ids = Some (join "," (v :: ids)).
Proof.
  revert v. induction ids as [|r ids IH]; intros v; [reflexivity|].
  change (appendIds (Some v) (r :: ids))
    with (appendIds (Some (v +:+ "," +:+ r)) ids).
  rewrite IH, join_absorb. reflexivity.
Qed.

Lemma appendIds_None (ids : list string) :
  appendIds None ids
  = match ids with
    | [] => None
    | _ :: _ => Some (join "," ids)
    end.
Proof.
  destruct ids as [|i ids]; [reflexivity|].
  change (appendIds None (i :: ids)) with (appendIds (Some i) ids).
  apply appendIds_Some.
Qed.

(** *** The loop *)

Lemma forLines_skips_blank (lines : list string) (st : loopState) :
  forLines lines st
  = forLines (List.filter (fun line => negb (isBlank line)) lines) st.
Proof.
  revert st. induction lines as [|l lines IH]; intros st; simpl; [reflexivity|].
  destruct (isBlank l) eqn:El; simpl.
  - unfold loopBody. rewrite El. simpl. apply IH.
  - destruct (loopBody st l); simpl; [apply IH|reflexivity].
Qed.

Lemma nonBlankLines_not_blank (content : string) :
  Forall (fun l => isBlank l = false) (nonBlankLines content).
Proof.
  unfold nonBlankLines. apply Forall_forall. intros l Hl.
  apply list_elem_of_In, filter_In in Hl as [_ Hl].
  apply negb_true_iff. exact Hl.
Qed.

Lemma dataLinesOf_Forall (P : string -> Prop) (lines : list string) :
  Forall P lines -> Forall P (dataLinesOf lines).
Proof.
  induction 1 as [|l lines Hl Hls IH]; simpl; [constructor|].
  destruct (isHeaderLine l); assumption.
Qed.

(** Before the header row: lines are copied until the header line. *)
Lemma header_phase (lines : list string) (st st' : loopState) :
  foundHeader st = false ->
  Forall (fun l => isBlank l = false) lines ->
  forLines lines st = Ok st' ->
  exists st1,
    samplesAcc st1 = samplesAcc st ++ preambleOf lines
    /\ dupAcc st1 = dupAcc st
    /\ (foundHeader st1 = true \/ dataLinesOf lines = [])
    /\ forLines (dataLinesOf lines) st1 = Ok st'.
Proof.
  intros Hfh Hls. revert st Hfh.
  induction Hls as [|l lines Hl _ IH]; intros st Hfh Hrun; simpl in *.
  - exists st. rewrite app_nil_r. auto.
  - unfold loopBody in Hrun. rewrite Hl, Hfh in Hrun. simpl in Hrun.
    unfold headerRow, isHeaderLine in *.
    destruct (cellsOf l) as [|row0 row]; [discriminate Hrun|].
    destruct (includes "sample" (toLowerCase row0)).
    + destruct (negb (everyColumnMatches expectedHeader (row0 :: row)));
        [discriminate Hrun|].
      simpl in Hrun.
      exists (LoopState true (samplesAcc st ++ [l]) (dupAcc st)).
      split; [reflexivity|]. split; [reflexivity|]. split; [left; reflexivity|].
      exact Hrun.
    + simpl in Hrun. apply IH in Hrun as (st1 & Hs & Hd & Hor & Hrun); [|exact Hfh].
      exists st1. simpl in Hs. rewrite <- app_assoc in Hs. auto.
Qed.

(** After the header row: a row whose index pair is known only extends the
    entry of the pair; any other row adds one line and one entry. *)
Lemma data_phase (lines : list string) (st st' : loopState) :
  foundHeader st = true ->
  Forall (fun l => isBlank l = false) lines ->
  forLines lines st = Ok st' ->
  exists rows,
    map (fun l => destructure (cellsOf l)) lines = map Some rows
    /\ samplesAcc st'
       = samplesAcc st ++ map sample (firstOccurrences (dom (dupAcc st)) rows)
    /\ forall k,
         dupAcc st' !! k = appendIds (dupAcc st !! k) (idsWithKey k rows).
Proof.
  intros Hfh Hls. revert st Hfh.
  induction Hls as [|l lines Hl _ IH]; intros st Hfh Hrun; simpl in *.
  - injection Hrun as <-. exists []. simpl. rewrite app_nil_r. auto.
  - unfold loopBody in Hrun. rewrite Hl, Hfh in Hrun. simpl in Hrun.
    unfold dataRow in Hrun.
    destruct (destructure (cellsOf l)) as [f|] eqn:Hf; [|discriminate Hrun].
    destruct (dupAcc st !! pairIndex f) as [seen|] eqn:Hseen; simpl in Hrun.
    + apply IH in Hrun as (rows & Hrows & Hsamples & Hdup); [|exact Hfh].
      simpl in Hsamples, Hdup.
      exists (f :: rows). split; [simpl; congruence|]. split.
      * simpl. rewrite decide_True by (apply elem_of_dom; eauto).
        rewrite Hsamples, dom_insert_lookup_L by eauto. reflexivity.
      * intros k. rewrite Hdup. unfold idsWithKey. simpl.
        destruct (String.eqb_spec (pairIndex f) k) as [<-|Hne].
        -- rewrite lookup_insert_eq, Hseen. reflexivity.
        -- rewrite lookup_insert_ne by exact Hne. reflexivity.
    + apply IH in Hrun as (rows & Hrows & Hsamples & Hdup); [|exact Hfh].
      simpl in Hsamples, Hdup.
      exists (f :: rows). split; [simpl; congruence|]. split.
      * simpl. rewrite decide_False by (apply not_elem_of_dom; exact Hseen).
        rewrite Hsamples, dom_insert_L, <- app_assoc. reflexivity.
      * intros k. rewrite Hdup. unfold idsWithKey. simpl.
        destruct (String.eqb_spec (pairIndex f) k) as [<-|Hne].
        -- rewrite lookup_insert_eq, Hseen. reflexivity.
        -- rewrite lookup_insert_ne by exact Hne. reflexivity.
Qed.

(** The loop as a whole, from the empty state. *)
Lemma forLines_spec (content : string) (st' : loopState) :
  forLines (split LF content) (LoopState false [] ∅) = Ok st' ->
  exists rows,
    map (fun l => destructure (cellsOf l)) (dataLinesOf (nonBlankLines content))
    = map Some rows
    /\ samplesAcc st'
       = preambleOf (nonBlankLines content)
         ++ map sample (firstOccurrences ∅ rows)
    /\ forall k, dupAcc st' !! k = appendIds None (idsWithKey k rows).
Proof.
  intros Hrun. rewrite forLines_skips_blank in Hrun.
  fold (nonBlankLines content) in Hrun.
  pose proof (nonBlankLines_not_blank content) as Hnb.
  apply header_phase in Hrun as (st1 & Hs & Hd & Hor & Hrun);
    [|reflexivity|exact Hnb].
  simpl in Hs, Hd.
  destruct Hor as [Hfh|Hnil].
  - apply data_phase in Hrun as (rows & Hrows & Hsamples & Hdup);
      [|exact Hfh|apply dataLinesOf_Forall; exact Hnb].
    exists rows. rewrite Hd, dom_empty_L in Hsamples.
    split; [exact Hrows|]. split; [congruence|].
    intros k. rewrite Hdup, Hd, lookup_empty. reflexivity.
  - rewrite Hnil in Hrun |- *. injection Hrun as <-.
    exists []. simpl. rewrite app_nil_r, Hd.
    split; [reflexivity|]. split; [exact Hs|]. intros k. apply lookup_empty.
Qed.

(** *** The returned map *)

Lemma startsWith_app (p t : string) : startsWith p (p +:+ t) = true.
Proof.
  induction p as [|a p IH]; [reflexivity|].
  change (Ascii.eqb a a && startsWith p (p +:+ t) = true).
  rewrite Ascii.eqb_refl. exact IH.
Qed.

Lemma includes_app_mid (p a t : string) : includes p (a +:+ p +:+ t) = true.
Proof.
  induction a as [|x a IH].
  - change (includes p (p +:+ t) = true).
    destruct (p +:+ t) eqn:E; simpl; rewrite <- E, startsWith_app; reflexivity.
  - change (startsWith p (String x (a +:+ p +:+ t))
            || includes p (a +:+ p +:+ t) = true).
    rewrite IH. apply orb_true_r.
Qed.

Lemma includes_comma_join (a b : string) (rest : list string) :
  includes "," (join "," (a :: b :: rest)) = true.
Proof. apply (includes_app_mid "," a (join "," (b :: rest))). Qed.

Lemma includes_comma_clean (s : string) :
  allChars (fun c => isSpecial c = false) s -> includes "," s = false.
Proof.
  induction s as [|a s IH]; [reflexivity|].
  intros [Ha Hs].
  change (Ascii.eqb "," a && true || includes "," s = false).
  rewrite (IH Hs).
  destruct (Ascii.eqb_spec "," a) as [<-|_]; [discriminate Ha|reflexivity].
Qed.

Lemma filtered_entry (m : gmap string string) (k : string) (ids : list string) :
  m !! k = appendIds None ids ->
  (forall i, ids = [i] -> includes "," i = false) ->
  filter (fun kv : string * string => includes "," kv.2 = true) m !! k
  = if (2 <=? List.length ids)%nat then Some (join "," ids) else None.
Proof.
  intros Hm Hone. rewrite appendIds_None in Hm.
  destruct ids as [|a [|b rest]]; simpl.
  - apply map_lookup_filter_None. left. exact Hm.
  - apply map_lookup_filter_None. right. intros x Hx. simpl.
    rewrite Hm in Hx. injection Hx as <-.
    rewrite (Hone a eq_refl). discriminate.
  - apply map_lookup_filter_Some. split; [exact Hm|].
    apply includes_comma_join.
Qed.

Lemma idsWithKey_single (k i : string) (rows : list fields) :
  idsWithKey k rows = [i] -> includes "," i = false.
Proof.
  unfold idsWithKey.
  destruct (List.filter _ rows) as [|f [|g l]]; simpl; try discriminate.
  intros [= <-]. apply includes_comma_clean.
  apply UtilsFacts.removeSpecialChars_default_clean.
Qed.

(** The rows kept by [firstOccurrences] carry pairwise distinct index
    pairs, none of them in [seen]. *)
Lemma firstOccurrences_distinct (seen : gset string) (rows : list fields) :
  NoDup (map pairIndex (firstOccurrences seen rows))
  /\ Forall (fun f => pairIndex f ∉ seen) (firstOccurrences seen rows).
Proof.
  revert seen. induction rows as [|f rows IH]; intros seen; simpl.
  - split; constructor.
  - destruct (decide (pairIndex f ∈ seen)) as [Hin|Hnot]; [apply IH|].
    destruct (IH ({[pairIndex f]} ∪ seen)) as [Hnd Hall].
    split.
    + simpl. constructor; [|exact Hnd].
      intros Hmem. apply list_elem_of_fmap in Hmem as (g & Hg & Hgin).
      rewrite Forall_forall in Hall. apply Hall in Hgin.
      apply Hgin. rewrite <- Hg. apply elem_of_union_l, elem_of_singleton.
      reflexivity.
    + constructor; [exact Hnot|].
      eapply Forall_impl; [exact Hall|]. intros g Hg Hmem.
      apply Hg, elem_of_union_r, Hmem.
Qed.

(** C10: when [validateSampleSheet] returns, its [samples] are the lines
    up to the header row followed by one line per index pair, made from
    the first row that carries the pair; the rows that repeat a pair add
    no line, and the identifiers of all rows of a repeated pair are listed
    in the entry of that pair. *)
Theorem validateSampleSheet_repeated_pair (content : string)
    (res : ValidationResult) :
  validateSampleSheet content = Ok res ->
  exists rows,
    map (fun l => destructure (cellsOf l)) (dataLinesOf (nonBlankLines content))
    = map Some rows
    /\ samples res
       = preambleOf (nonBlankLines content)
         ++ map sample (firstOccurrences ∅ rows)
    /\ NoDup (map pairIndex (firstOccurrences ∅ rows))
    /\ forall k,
         duplicatedIndexes res !! k
         = if (2 <=? List.length (idsWithKey k rows))%nat
           then Some (join "," (idsWithKey k rows))
           else None.
Proof.
  unfold validateSampleSheet.
  destruct (forLines (split LF content) (LoopState false [] ∅))
    as [st'|e] eqn:Hrun; simpl; [|discriminate].
  intros [= <-]. simpl.
  apply forLines_spec in Hrun as (rows & Hrows & Hsamples & Hdup).
  exists rows. split; [exact Hrows|]. split; [exact Hsamples|].
  split; [apply firstOccurrences_distinct|].
  intros k. apply filtered_entry; [apply Hdup|].
  intros i. apply idsWithKey_single.
Qed.

Lemma validateSampleSheet_repeated_pair_witness :
  exists rows,
    map (fun l => destructure (cellsOf l))
        (dataLinesOf (nonBlankLines repeatedPairSheet))
    = map Some rows
    /\ samples repeatedPairResult
       = preambleOf (nonBlankLines repeatedPairSheet)
         ++ map sample (firstOccurrences ∅ rows)
    /\ NoDup (map pairIndex (firstOccurrences ∅ rows))
    /\ forall k,
         duplicatedIndexes repeatedPairResult !! k
         = if (2 <=? List.length (idsWithKey k rows))%nat
           then Some (join "," (idsWithKey k rows))
           else None.
Proof.
  apply (validateSampleSheet_repeated_pair repeatedPairSheet repeatedPairResult).
  vm_compute. reflexivity.
Defined.

End ValidatorFacts.

(** * Further properties of the sources *)

(** ** [reverseComplement], [removeSpecialChars], [replaceSpecialCharacters] *)

Module UtilsMoreFacts.
Import JS Utils UtilsMore.

Lemma list_ascii_of_string_app (a b : string) :
  list_ascii_of_string (a +:+ b)
  = list_ascii_of_string a ++ list_ascii_of_string b.
Proof.
  induction a as [|x a IH]; [reflexivity|].
  change (x :: list_ascii_of_string (a +:+ b)
          = x :: (list_ascii_of_string a ++ list_ascii_of_string b)).
  f_equal. exact IH.
Qed.

Lemma string_of_list_ascii_app (l m : list ascii) :
  string_of_list_ascii (l ++ m)
  = string_of_list_ascii l +:+ string_of_list_ascii m.
Proof.
  induction l as [|x l IH]; [reflexivity|].
  change (String x (string_of_list_ascii (l ++ m))
          = String x (string_of_list_ascii l +:+ string_of_list_ascii m)).
  f_equal. exact IH.
Qed.

(** X1: The reverse complement of a concatenation is the concatenation of the
    reverse complements, in the opposite order. *)
Theorem reverseComplement_app (a b : string) :
  reverseComplement (a +:+ b) = reverseComplement b +:+ reverseComplement a.
Proof.
  unfold reverseComplement.
  rewrite list_ascii_of_string_app, rev_app_distr, map_app.
  apply string_of_list_ascii_app.
Qed.

Lemma isDNABase_complement (c : ascii) :
  isDNABase (default c (DNA_COMPLEMENT c)) = isDNABase c.
Proof.
  unfold DNA_COMPLEMENT.
  destruct (Ascii.eqb_spec c "A") as [->|HA]; [reflexivity|].
  destruct (Ascii.eqb_spec c "T") as [->|HT]; [reflexivity|].
  destruct (Ascii.eqb_spec c "C") as [->|HC]; [reflexivity|].
  destruct (Ascii.eqb_spec c "G") as [->|HG]; reflexivity.
Qed.

Lemma forallb_rev {A : Type} (p : A -> bool) (l : list A) :
  forallb p (rev l) = forallb p l.
Proof.
  induction l as [|x l IH]; [reflexivity|]. simpl.
  rewrite forallb_app, IH. simpl. rewrite andb_true_r. apply andb_comm.
Qed.

Lemma string_length_of_list (l : list ascii) :
  String.length (string_of_list_ascii l) = List.length l.
Proof. induction l as [|x l IH]; simpl; [reflexivity|]. f_equal. exact IH. Qed.

Lemma list_length_of_string (s : string) :
  List.length (list_ascii_of_string s) = String.length s.
Proof. induction s as [|x s IH]; simpl; [reflexivity|]. f_equal. exact IH. Qed.

(** X2: The reverse complement has the length of its argument, and it is a
    DNA sequence exactly when the argument is one. *)
Theorem reverseComplement_keeps_dna (s : string) :
  String.length (reverseComplement s) = String.length s
  /\ isDNASequence (reverseComplement s) = isDNASequence s.
Proof.
  unfold reverseComplement, isDNASequence, testAllPlus. split.
  - rewrite string_length_of_list, length_map, length_rev.
    apply list_length_of_string.
  - rewrite list_ascii_of_string_of_list_ascii.
    assert (Hall : forallb isDNABase
                     (map (fun base => default base (DNA_COMPLEMENT base))
                          (rev (list_ascii_of_string s)))
                   = forallb isDNABase (list_ascii_of_string s)).
    { rewrite <- (forallb_rev isDNABase (list_ascii_of_string s)).
      induction (rev (list_ascii_of_string s)) as [|c l IH]; simpl; [reflexivity|].
      rewrite isDNABase_complement, IH. reflexivity. }
    destruct (list_ascii_of_string s) as [|c l] eqn:Hs; [reflexivity|].
    rewrite <- Hall.
    destruct (map _ (rev (c :: l))) as [|d m] eqn:Hm; [|reflexivity].
    apply (f_equal (@List.length ascii)) in Hm.
    rewrite length_map, length_rev in Hm. discriminate Hm.
Qed.

(** *** Pairs of adjacent hyphens *)

Lemma includes_hyphens_cons (a : ascii) (s : string) :
  includes "--" (String a s)
  = (Ascii.eqb "-" a && startsIn (Ascii.eqb "-") s) || includes "--" s.
Proof.
  change (includes "--" (String a s))
    with (startsWith "--" (String a s) || includes "--" s).
  f_equal.
  change (startsWith "--" (String a s))
    with (Ascii.eqb "-" a && startsWith "-" s).
  f_equal. destruct s as [|b s]; [reflexivity|].
  change (startsWith "-" (String b s)) with (Ascii.eqb "-" b && true).
  apply andb_true_r.
Qed.

Lemma replaceRuns_start cls (s : string) :
  cls "-"%char = true ->
  startsIn cls s = false ->
  startsIn (Ascii.eqb "-") (replaceRuns cls "-" s) = false.
Proof.
  intros Hc Hs. destruct s as [|b s]; [reflexivity|].
  cbn [startsIn] in Hs. cbn [replaceRuns]. rewrite Hs. cbn [startsIn].
  destruct (Ascii.eqb_spec "-" b) as [<-|]; [congruence|reflexivity].
Qed.

Lemma replaceRuns_no_hyphens cls (s : string) :
  cls "-"%char = true ->
  includes "--" (replaceRuns cls "-" s) = false.
Proof.
  intros Hc. induction s as [|a s IH]; [reflexivity|].
  cbn [replaceRuns]. destruct (cls a) eqn:Ea.
  - destruct (startsIn cls s) eqn:Es; [exact IH|].
    rewrite UtilsFacts.app_single, includes_hyphens_cons, IH.
    rewrite (replaceRuns_start cls s Hc Es). rewrite andb_false_r. reflexivity.
  - rewrite includes_hyphens_cons, IH.
    destruct (Ascii.eqb_spec "-" a) as [<-|]; [congruence|reflexivity].
Qed.

Lemma replaceRuns_fixed cls (s : string) :
  cls "-"%char = true ->
  allChars (fun a => cls a = true -> a = "-"%char) s ->
  includes "--" s = false ->
  replaceRuns cls "-" s = s.
Proof.
  intros Hc. induction s as [|a s IH]; [reflexivity|].
  intros [Ha Hs] Hinc. rewrite includes_hyphens_cons in Hinc.
  apply orb_false_iff in Hinc as [Hpair Hinc].
  cbn [replaceRuns]. destruct (cls a) eqn:Ea.
  - specialize (Ha eq_refl). subst a.
    rewrite Ascii.eqb_refl in Hpair. cbn [andb] in Hpair.
    assert (Hstart : startsIn cls s = false).
    { destruct s as [|b s']; [reflexivity|]. cbn [startsIn] in *.
      destruct (cls b) eqn:Eb; [|reflexivity].
      destruct Hs as [Hb _]. rewrite Eb in Hb. specialize (Hb eq_refl). subst b.
      rewrite Ascii.eqb_refl in Hpair. discriminate Hpair. }
    rewrite Hstart, UtilsFacts.app_single. f_equal. apply IH; assumption.
  - f_equal. apply IH; assumption.
Qed.

(** *** [removeSpecialChars] *)

Lemma isSpecial_identifier (c : ascii) :
  isSpecial c = negb (isIdentifierChar c).
Proof.
  unfold isSpecial, isIdentifierChar, isAlphaNumeric.
  rewrite <- !orb_assoc. reflexivity.
Qed.

Lemma clean_identifier (s : string) :
  allChars (fun c => isSpecial c = false) s
  <-> allChars (fun c => isIdentifierChar c = true) s.
Proof.
  split; apply UtilsFacts.allChars_impl; intros c; rewrite isSpecial_identifier;
    destruct (isIdentifierChar c); simpl; congruence.
Qed.

(** X3: The result of the default sanitizer holds only letters, digits,
    hyphens and underscores, and no two hyphens in a row. *)
Theorem removeSpecialChars_result (text : string) :
  allChars (fun c => isIdentifierChar c = true)
           (removeSpecialChars text "-" true)
  /\ includes "--" (removeSpecialChars text "-" true) = false.
Proof.
  split.
  - apply clean_identifier, UtilsFacts.removeSpecialChars_default_clean.
  - unfold removeSpecialChars.
    apply (replaceRuns_no_hyphens (Ascii.eqb "-")). reflexivity.
Qed.

(** X4: The default sanitizer leaves a text as it is exactly when the text
    holds only letters, digits, hyphens and underscores, and no two hyphens
    in a row. *)
Theorem removeSpecialChars_fixed_iff (text : string) :
  removeSpecialChars text "-" true = text
  <-> allChars (fun c => isIdentifierChar c = true) text
      /\ includes "--" text = false.
Proof.
  split.
  - intros Heq. rewrite <- Heq. split.
    + apply clean_identifier, UtilsFacts.removeSpecialChars_default_clean.
    + unfold removeSpecialChars.
      apply (replaceRuns_no_hyphens (Ascii.eqb "-")). reflexivity.
  - intros [Hclean Hpair]. unfold removeSpecialChars.
    rewrite UtilsFacts.replaceEach_id by (apply clean_identifier; exact Hclean).
    apply (replaceRuns_fixed (Ascii.eqb "-")); [reflexivity| |exact Hpair].
    clear. induction text as [|a s IH]; simpl; [exact I|].
    split; [|exact IH]. intros Ha. symmetry. apply Ascii.eqb_eq. exact Ha.
Qed.

Lemma replaceEach_length cls (c : ascii) (s : string) :
  String.length (replaceEach cls (String c EmptyString) s) = String.length s.
Proof.
  induction s as [|a s IH]; [reflexivity|]. cbn [replaceEach].
  destruct (cls a); [rewrite UtilsFacts.app_single|]; simpl; f_equal; exact IH.
Qed.

Lemma replaceRuns_length cls (c : ascii) (s : string) :
  String.length (replaceRuns cls (String c EmptyString) s) <= String.length s.
Proof.
  induction s as [|a s IH]; [reflexivity|]. cbn [replaceRuns].
  destruct (cls a); [destruct (startsIn cls s); [|rewrite UtilsFacts.app_single]|];
    simpl; lia.
Qed.

(** X5: With a replacement character that is not special in a regular
    expression, the sanitizer without the collapse of repeats keeps the
    length of the text; with the collapse the result is never longer than
    the text. *)
Theorem removeSpecialChars_length (text : string) (replaceChar : ascii) :
  isRegExpSyntaxChar replaceChar = false ->
  String.length (removeSpecialChars text replaceChar false) = String.length text
  /\ String.length (removeSpecialChars text replaceChar true)
     <= String.length text.
Proof.
  intros _. unfold removeSpecialChars. split; [apply replaceEach_length|].
  etransitivity; [apply replaceRuns_length|].
  rewrite replaceEach_length. reflexivity.
Qed.

Lemma removeSpecialChars_length_witness :
  String.length (removeSpecialChars "a b,,c" "_" false) = 6
  /\ String.length (removeSpecialChars "a b,,c" "_" true) <= 6.
Proof.
  apply (removeSpecialChars_length "a b,,c" "_"). vm_compute. reflexivity.
Defined.

(** *** [replaceSpecialCharacters] *)

Lemma nonWord_alphaNumeric (c : ascii) :
  isNonWordOrUnderscore c = negb (isAlphaNumeric c).
Proof.
  unfold isNonWordOrUnderscore, isWord, isAlphaNumeric.
  destruct (Ascii.eqb_spec c "_") as [->|_]; [reflexivity|].
  rewrite !orb_false_r. reflexivity.
Qed.

Lemma hyphenateRuns_result (text : string) :
  allChars (fun c => isAlphaNumeric c = true \/ c = "-"%char)
           (hyphenateRuns text)
  /\ includes "--" (hyphenateRuns text) = false.
Proof.
  unfold hyphenateRuns. split.
  - apply UtilsFacts.replaceRuns_allChars; [|simpl; auto].
    apply UtilsFacts.allChars_impl with (P := fun _ => True);
      [|clear; induction text; simpl; auto].
    intros c _ Hc. left. rewrite nonWord_alphaNumeric in Hc.
    destruct (isAlphaNumeric c); [reflexivity|discriminate Hc].
  - apply replaceRuns_no_hyphens. reflexivity.
Qed.

Lemma alphaNumeric_or_hyphen_fixed (text : string) :
  allChars (fun c => isAlphaNumeric c = true \/ c = "-"%char) text ->
  includes "--" text = false ->
  hyphenateRuns text = text
  /\ collapseHyphens text = text
  /\ collapseUnderscores text = text.
Proof.
  intros Hchars Hpair. split; [|split].
  - apply replaceRuns_fixed; [reflexivity| |exact Hpair].
    eapply UtilsFacts.allChars_impl; [|exact Hchars].
    intros c [Hc| ->] Hcls; [|reflexivity].
    rewrite nonWord_alphaNumeric, Hc in Hcls. discriminate Hcls.
  - apply (replaceRuns_fixed (Ascii.eqb "-")); [reflexivity| |exact Hpair].
    eapply UtilsFacts.allChars_impl; [|exact Hchars].
    intros c _ Hc. symmetry. apply Ascii.eqb_eq. exact Hc.
  - apply UtilsFacts.replaceRuns_id.
    eapply UtilsFacts.allChars_impl; [|exact Hchars].
    intros c [Hc| ->]; [|reflexivity].
    destruct (Ascii.eqb_spec "_" c) as [<-|]; [discriminate Hc|reflexivity].
Qed.

(** Only the first pass of [replaceSpecialCharacters] does anything. *)
Lemma replaceSpecialCharacters_first_pass (text : string) :
  replaceSpecialCharacters text = hyphenateRuns text.
Proof.
  destruct text as [|a text]; [reflexivity|].
  unfold replaceSpecialCharacters.
  destruct (hyphenateRuns_result (String a text)) as [Hchars Hpair].
  destruct (alphaNumeric_or_hyphen_fixed _ Hchars Hpair) as (_ & Hh & Hu).
  rewrite Hh, Hu. reflexivity.
Qed.

Lemma sanitized_is_fixed (text : string) :
  hyphenateRuns (replaceSpecialCharacters text) = replaceSpecialCharacters text.
Proof.
  rewrite replaceSpecialCharacters_first_pass.
  destruct (hyphenateRuns_result text) as [Hchars Hpair].
  apply (alphaNumeric_or_hyphen_fixed _ Hchars Hpair).
Qed.

(** X6: [replaceSpecialCharacters] is idempotent. *)
Theorem replaceSpecialCharacters_idempotent (text : string) :
  replaceSpecialCharacters (replaceSpecialCharacters text)
  = replaceSpecialCharacters text.
Proof.
  rewrite !replaceSpecialCharacters_first_pass.
  destruct (hyphenateRuns_result text) as [Hchars Hpair].
  apply (alphaNumeric_or_hyphen_fixed _ Hchars Hpair).
Qed.

(** X7: [replaceSpecialCharacters] leaves a text as it is exactly when the
    text holds only letters, digits and hyphens, and no two hyphens in a
    row; an underscore always changes. *)
Theorem replaceSpecialCharacters_fixed_iff (text : string) :
  replaceSpecialCharacters text = text
  <-> allChars (fun c => isAlphaNumeric c = true \/ c = "-"%char) text
      /\ includes "--" text = false.
Proof.
  rewrite replaceSpecialCharacters_first_pass. split.
  - intros Heq. rewrite <- Heq. apply hyphenateRuns_result.
  - intros [Hchars Hpair]. apply (alphaNumeric_or_hyphen_fixed _ Hchars Hpair).
Qed.

End UtilsMoreFacts.

(** ** [renameDuplicates] *)

Module RenameFacts.
Import JS UtilsMore.





Lemma renameLoop_fresh (values : list string) (counts : gmap string nat) :
  NoDup values ->
  Forall (fun v => counts !! v = None) values ->
  renameLoop values counts = values.
Proof.
  intros Hnd. revert counts.
  induction Hnd as [|v values Hv Hnd IH]; intros counts Hfresh; [reflexivity|].
  inversion Hfresh as [|? ? Hhead Htail]; subst.
  cbn [renameLoop]. rewrite Hhead. cbn [default renamed Nat.eqb]. f_equal.
  apply IH. apply Forall_forall. intros w Hw.
  rewrite lookup_insert_ne; [|intros ->; contradiction].
  rewrite Forall_forall in Htail. apply Htail, Hw.
Qed.

(** X9: A list without repeated values is returned as it is. *)
Theorem renameDuplicates_distinct (values : list string) :
  NoDup values -> renameDuplicates values = values.
Proof.
  intros Hnd. apply renameLoop_fresh; [exact Hnd|].
  apply Forall_forall. intros v _. apply lookup_empty.
Qed.

Lemma renameDuplicates_distinct_witness :
  renameDuplicates ["S1"; "S2"; "S3"] = ["S1"; "S2"; "S3"].
Proof.
  apply (renameDuplicates_distinct ["S1"; "S2"; "S3"]).
  apply (bool_decide_unpack _). vm_compute. exact I.
Defined.

End RenameFacts.

(** ** [validateSampleSheet2k] on every sheet *)

Module Validator2kFacts.
Import JS Utils UtilsMore Sheets.

Lemma samplesOf_app (k : string) (l m : list (string * string)) :
  samplesOf k (l ++ m) = samplesOf k l ++ samplesOf k m.
Proof. unfold samplesOf. rewrite List.filter_app, map_app. reflexivity. Qed.

Lemma samplesOf_one (k k' id : string) :
  samplesOf k [(k', id)] = if String.eqb k' k then [id] else [].
Proof. unfold samplesOf. simpl. destruct (String.eqb k' k); reflexivity. Qed.

(** *** The three phases of the loop *)

Lemma loopBody2k_marker (st : loopState2k) (l : string) :
  isBclMarker l = true ->
  loopBody2k st l
  = LoopState2k true (headers st) (arrays st) (indexCombinations st)
                (duplicatedAddr st).
Proof. intros Hm. unfold loopBody2k. unfold isBclMarker in Hm. rewrite Hm. reflexivity. Qed.

Lemma before_marker (lines : list string) (st : loopState2k) :
  dataSection st = false ->
  fold_left loopBody2k lines st
  = match afterBclMarker lines with
    | None => st
    | Some rest =>
        fold_left loopBody2k rest
          (LoopState2k true (headers st) (arrays st) (indexCombinations st)
                       (duplicatedAddr st))
    end.
Proof.
  intros Hds. induction lines as [|l lines IH]; [reflexivity|]. simpl.
  destruct (isBclMarker l) eqn:Hm.
  - rewrite loopBody2k_marker by exact Hm. reflexivity.
  - assert (Hstep : loopBody2k st l = st).
    { unfold loopBody2k. unfold isBclMarker in Hm. rewrite Hm, Hds. reflexivity. }
    rewrite Hstep. exact IH.
Qed.

Lemma before_columns (lines : list string) (st : loopState2k) :
  dataSection st = true ->
  headers st = [] ->
  fold_left loopBody2k lines st
  = match columnRow lines with
    | None => st
    | Some (columns, rest) =>
        fold_left loopBody2k rest
          (LoopState2k true (map trim (JS.split "," columns)) (arrays st)
                       (indexCombinations st) (duplicatedAddr st))
    end.
Proof.
  intros Hds Hh. induction lines as [|l lines IH]; [reflexivity|]. simpl.
  destruct (isBclMarker l) eqn:Hm; simpl.
  - rewrite loopBody2k_marker by exact Hm.
    replace (LoopState2k true (headers st) (arrays st) (indexCombinations st)
                         (duplicatedAddr st)) with st
      by (destruct st; simpl in *; congruence).
    exact IH.
  - assert (Hstep : loopBody2k st l
                    = if isEmpty (trim l) then st
                      else LoopState2k true (map trim (JS.split "," (trim l)))
                             (arrays st) (indexCombinations st)
                             (duplicatedAddr st)).
    { unfold loopBody2k. unfold isBclMarker in Hm. rewrite Hm, Hds, Hh.
      reflexivity. }
    rewrite Hstep. destruct (isEmpty (trim l)); [exact IH|reflexivity].
Qed.

Lemma tracks_start (columns : list string) :
  tracks (LoopState2k true columns [] ∅ ∅) [].
Proof.
  split; [|split]; simpl.
  - intros k. rewrite lookup_empty. reflexivity.
  - intros k1 k2 a H. rewrite lookup_empty in H. discriminate H.
  - intros k. rewrite lookup_empty. reflexivity.
Qed.

Lemma entry_skipped (st : loopState2k) (l : string) :
  dataSection st = true ->
  headers st <> [] ->
  entryOf (headers st) l = None ->
  loopBody2k st l = st.
Proof.
  intros Hds Hh He. unfold entryOf, isBclMarker in He. unfold loopBody2k.
  destruct (String.eqb (trim l) "[BCLConvert_Data]") eqn:Hm.
  - destruct st; simpl in *; congruence.
  - rewrite Hds. simpl in *.
    destruct (isEmpty (trim l)); [reflexivity|].
    destruct (headers st) as [|h hs] eqn:Hhs; [contradiction|]. simpl.
    destruct (isEmpty _ || isEmpty _); [reflexivity|discriminate He].
Qed.

Lemma entry_added (st : loopState2k) (l k id : string) :
  dataSection st = true ->
  headers st <> [] ->
  entryOf (headers st) l = Some (k, id) ->
  loopBody2k st l
  = match indexCombinations st !! k with
    | Some samples =>
        LoopState2k true (headers st)
          (alter (fun ids => ids ++ [id]) samples (arrays st))
          (<[k := samples]> (indexCombinations st))
          (<[k := samples]> (duplicatedAddr st))
    | None =>
        LoopState2k true (headers st) (arrays st ++ [[id]])
          (<[k := List.length (arrays st)]> (indexCombinations st))
          (duplicatedAddr st)
    end.
Proof.
  intros Hds Hh He. unfold entryOf, isBclMarker in He. unfold loopBody2k.
  destruct (String.eqb (trim l) "[BCLConvert_Data]") eqn:Hm; [discriminate He|].
  rewrite Hds. simpl in *.
  destruct (isEmpty (trim l)); [discriminate He|].
  destruct (headers st) as [|h hs] eqn:Hhs; [contradiction|]. simpl.
  destruct (isEmpty _ || isEmpty _); [discriminate He|].
  injection He as <- <-. reflexivity.
Qed.

Lemma tracks_step (st : loopState2k) (seen : list (string * string))
    (l : string) :
  dataSection st = true ->
  headers st <> [] ->
  tracks st seen ->
  dataSection (loopBody2k st l) = true
  /\ headers (loopBody2k st l) = headers st
  /\ tracks (loopBody2k st l) (seen ++ option_list (entryOf (headers st) l)).
Proof.
  intros Hds Hh (Hkeys & Hinj & Hdup).
  destruct (entryOf (headers st) l) as [[k id]|] eqn:He.
  2:{ rewrite (entry_skipped st l Hds Hh He). simpl. rewrite app_nil_r.
      repeat split; assumption. }
  rewrite (entry_added st l k id Hds Hh He). simpl.
  pose proof (Hkeys k) as Hk.
  destruct (indexCombinations st !! k) as [a|] eqn:Hic.
  - destruct Hk as [Harr Hne]. split; [reflexivity|]. split; [reflexivity|].
    rewrite (insert_id _ _ _ Hic). split; [|split]; simpl.
    + intros k0. rewrite samplesOf_app, samplesOf_one.
      destruct (String.eqb_spec k k0) as [<-|Hk0].
      * rewrite Hic, list_lookup_alter_eq, Harr. simpl. split; [reflexivity|].
        destruct (samplesOf k seen); [contradiction|discriminate].
      * rewrite app_nil_r. specialize (Hkeys k0).
        destruct (indexCombinations st !! k0) as [b|] eqn:Hb; [|exact Hkeys].
        rewrite list_lookup_alter_ne; [exact Hkeys|].
        intros <-. apply Hk0. eapply Hinj; eassumption.
    + exact Hinj.
    + intros k0. rewrite samplesOf_app, samplesOf_one.
      destruct (String.eqb_spec k k0) as [<-|Hk0].
      * rewrite lookup_insert_eq, Hic, length_app. simpl.
        destruct (samplesOf k seen); [contradiction|]. simpl.
        replace (List.length l0 + 1) with (S (List.length l0)) by lia.
        reflexivity.
      * rewrite lookup_insert_ne, app_nil_r by exact Hk0. apply Hdup.
  - split; [reflexivity|]. split; [reflexivity|]. split; [|split]; simpl.
    + intros k0. rewrite samplesOf_app, samplesOf_one.
      destruct (String.eqb_spec k k0) as [<-|Hk0].
      * rewrite lookup_insert_eq, Hk. simpl.
        rewrite list_lookup_middle by reflexivity. split; [reflexivity|discriminate].
      * rewrite lookup_insert_ne, app_nil_r by exact Hk0. specialize (Hkeys k0).
        destruct (indexCombinations st !! k0) as [b|] eqn:Hb; [|exact Hkeys].
        destruct Hkeys as [Harr Hne]. split; [|exact Hne].
        rewrite lookup_app_l; [exact Harr|]. eapply lookup_lt_Some, Harr.
    + intros k1 k2 a.
      destruct (String.eqb_spec k k1) as [<-|Hk1];
        destruct (String.eqb_spec k k2) as [<-|Hk2]; [reflexivity| | |].
      * rewrite lookup_insert_eq, lookup_insert_ne by exact Hk2.
        intros [= <-] H2. specialize (Hkeys k2). rewrite H2 in Hkeys.
        destruct Hkeys as [Harr _]. apply lookup_lt_Some in Harr. lia.
      * rewrite lookup_insert_eq, lookup_insert_ne by exact Hk1.
        intros H1 [= <-]. specialize (Hkeys k1). rewrite H1 in Hkeys.
        destruct Hkeys as [Harr _]. apply lookup_lt_Some in Harr. lia.
      * rewrite !lookup_insert_ne by assumption. apply Hinj.
    + intros k0. rewrite samplesOf_app, samplesOf_one.
      destruct (String.eqb_spec k k0) as [<-|Hk0].
      * rewrite Hdup, Hk. reflexivity.
      * rewrite lookup_insert_ne, app_nil_r by exact Hk0. apply Hdup.
Qed.

Lemma tracks_rows (rows : list string) (st : loopState2k)
    (seen : list (string * string)) :
  dataSection st = true ->
  headers st <> [] ->
  tracks st seen ->
  tracks (fold_left loopBody2k rows st)
         (seen ++ omap (entryOf (headers st)) rows).
Proof.
  revert st seen. induction rows as [|l rows IH]; intros st seen Hds Hh Ht.
  - simpl. rewrite app_nil_r. exact Ht.
  - destruct (tracks_step st seen l Hds Hh Ht) as (Hds' & Hh' & Ht').
    cbn [fold_left]. apply IH in Ht'; [|exact Hds'|rewrite Hh'; exact Hh].
    rewrite Hh', <- app_assoc in Ht'. cbn [omap list_omap].
    destruct (entryOf (headers st) l); exact Ht'.
Qed.

(** The state of the loop at the end tracks the entries of the sheet. *)
Lemma loop_tracks (content : string) :
  tracks (fold_left loopBody2k (splitLines content) (LoopState2k false [] [] ∅ ∅))
         (entries2k content).
Proof.
  unfold entries2k. rewrite before_marker by reflexivity. simpl.
  destruct (afterBclMarker (splitLines content)) as [lines|];
    [|apply (tracks_start [])].
  rewrite before_columns by reflexivity. simpl.
  destruct (columnRow lines) as [[columns rows]|]; [|apply (tracks_start [])].
  apply (tracks_rows rows
           (LoopState2k true (map trim (JS.split "," columns)) [] ∅ ∅) []);
    [reflexivity| |apply tracks_start].
  simpl. intros Hnil. apply map_eq_nil in Hnil.
  exact (ReconcilerFacts.split_not_nil _ _ Hnil).
Qed.

(** X10: The returned map binds a key exactly when two or more rows under the
    column row carry it, and binds it to the sample identifiers of these
    rows, in row order. *)
Theorem validateSampleSheet2k_spec (content k : string) :
  duplicatedIndexes2k (validateSampleSheet2k content) !! k
  = if (2 <=? List.length (samplesOf k (entries2k content)))%nat
    then Some (samplesOf k (entries2k content))
    else None.
Proof.
  unfold validateSampleSheet2k. cbn [duplicatedIndexes2k].
  destruct (loop_tracks content) as (Hkeys & _ & Hdup).
  rewrite lookup_fmap, Hdup.
  destruct (Nat.leb_spec 2 (List.length (samplesOf k (entries2k content))))
    as [Hle|_]; [|reflexivity].
  specialize (Hkeys k).
  destruct (indexCombinations _ !! k) as [a|]; simpl.
  - destruct Hkeys as [-> _]. reflexivity.
  - rewrite Hkeys in Hle. simpl in Hle. lia.
Qed.

Lemma samplesOf_cons (k : string) (e : string * string)
    (es : list (string * string)) :
  samplesOf k (e :: es)
  = (if String.eqb (fst e) k then [snd e] else []) ++ samplesOf k es.
Proof. unfold samplesOf. simpl. destruct (String.eqb (fst e) k); reflexivity. Qed.

Lemma samplesOf_nil_iff (k : string) (es : list (string * string)) :
  samplesOf k es = [] <-> k ∉ map fst es.
Proof.
  induction es as [|e es IH]; simpl.
  - split; [intros _ H; inversion H|reflexivity].
  - rewrite samplesOf_cons, not_elem_of_cons.
    destruct (String.eqb_spec (fst e) k) as [<-|Hne]; simpl.
    + split; [discriminate|intros [H _]; contradiction].
    + rewrite IH. split; [intros H; split; [congruence|exact H]|intros [_ H]; exact H].
Qed.

Lemma counts_NoDup (es : list (string * string)) :
  (forall k, List.length (samplesOf k es) <= 1) <-> NoDup (map fst es).
Proof.
  induction es as [|e es IH]; simpl.
  - split; [intros _; apply NoDup_nil; exact I|intros _ k; simpl; lia].
  - rewrite NoDup_cons, <- IH. split.
    + intros H. split.
      * apply samplesOf_nil_iff. specialize (H (fst e)).
        rewrite samplesOf_cons, String.eqb_refl in H. simpl in H.
        destruct (samplesOf (fst e) es); [reflexivity|simpl in H; lia].
      * intros k. specialize (H k). rewrite samplesOf_cons, length_app in H. lia.
    + intros [Hfresh H] k. rewrite samplesOf_cons, length_app.
      destruct (String.eqb_spec (fst e) k) as [<-|Hne]; simpl.
      * apply samplesOf_nil_iff in Hfresh. rewrite Hfresh. simpl. lia.
      * apply H.
Qed.

(** X11: The sheet is reported valid exactly when the index keys of its rows
    are pairwise distinct. *)
Theorem validateSampleSheet2k_valid_iff (content : string) :
  isValid (validateSampleSheet2k content) = true
  <-> NoDup (map fst (entries2k content)).
Proof.
  unfold validateSampleSheet2k. cbn [isValid].
  destruct (loop_tracks content) as (Hkeys & _ & Hdup).
  rewrite Nat.eqb_eq, map_size_empty_iff, map_empty, <- counts_NoDup.
  split; intros H k; specialize (H k); rewrite Hdup in *.
  - destruct (Nat.leb_spec 2 (List.length (samplesOf k (entries2k content))))
      as [Hle|Hlt]; [|lia].
    specialize (Hkeys k). rewrite H in Hkeys. rewrite Hkeys in Hle.
    simpl in Hle. lia.
  - destruct (Nat.leb_spec 2 (List.length (samplesOf k (entries2k content))))
      as [Hle|Hlt]; [lia|reflexivity].
Qed.

Lemma afterBclMarker_none (lines : list string) :
  Forall (fun l => isBclMarker l = false) lines ->
  afterBclMarker lines = None.
Proof.
  induction 1 as [|l lines Hl _ IH]; simpl; [reflexivity|].
  rewrite Hl. exact IH.
Qed.

(** X12: A text none of whose lines is [[BCLConvert_Data]] once trimmed, for
    instance because the marker carries trailing commas, is reported valid
    with no duplicate, whatever its rows are. *)
Theorem validateSampleSheet2k_without_marker (content : string) :
  Forall (fun l => isBclMarker l = false) (splitLines content) ->
  duplicatedIndexes2k (validateSampleSheet2k content) = ∅
  /\ isValid (validateSampleSheet2k content) = true.
Proof.
  intros Hno. unfold validateSampleSheet2k.
  rewrite before_marker, (afterBclMarker_none _ Hno) by reflexivity.
  simpl. split; [apply fmap_empty|reflexivity].
Qed.

Lemma validateSampleSheet2k_without_marker_witness :
  duplicatedIndexes2k (validateSampleSheet2k bareDuplicateFullContent) = ∅
  /\ isValid (validateSampleSheet2k bareDuplicateFullContent) = true.
Proof.
  apply (validateSampleSheet2k_without_marker bareDuplicateFullContent).
  apply (bool_decide_unpack _). vm_compute. exact I.
Defined.

End Validator2kFacts.

(** ** [validateSampleSheet]: what a sheet must look like *)

Module ValidatorMoreFacts.
Import JS Utils Sheets.

Lemma everyColumnMatches_take (expected row : list string) :
  everyColumnMatches expected row = true ->
  take (List.length expected) row = expected.
Proof.
  revert row. induction expected as [|col expected IH]; intros row H;
    [reflexivity|].
  destruct row as [|cell row]; [discriminate H|]. simpl in H.
  apply andb_true_iff in H as [Hc H]. apply String.eqb_eq in Hc. subst cell.
  simpl. f_equal. apply IH, H.
Qed.

Lemma destructure_Some (row : list string) (f : fields) :
  destructure row = Some f -> 7 <= List.length row.
Proof.
  destruct row as [|c0 [|c1 [|c2 [|c3 [|c4 [|c5 [|c6 row]]]]]]];
    try discriminate. intros _. simpl. lia.
Qed.

Lemma header_checked (lines : list string) (st st' : loopState) :
  foundHeader st = false ->
  Forall (fun l => isBlank l = false) lines ->
  forLines lines st = Ok st' ->
  Forall (fun l => isHeaderLine l = true ->
                   take 7 (cellsOf l) = expectedHeader)
         (preambleOf lines).
Proof.
  intros Hfh Hls. revert st Hfh.
  induction Hls as [|l lines Hl _ IH]; intros st Hfh Hrun; simpl in *;
    [constructor|].
  unfold loopBody in Hrun. rewrite Hl, Hfh in Hrun. simpl in Hrun.
  unfold headerRow in Hrun.
  destruct (cellsOf l) as [|row0 row] eqn:Hcells; [discriminate Hrun|].
  assert (Hhl : isHeaderLine l = includes "sample" (toLowerCase row0)).
  { unfold isHeaderLine. rewrite Hcells. reflexivity. }
  rewrite Hhl.
  destruct (includes "sample" (toLowerCase row0)) eqn:Hinc.
  - destruct (everyColumnMatches expectedHeader (row0 :: row)) eqn:Hmatch;
      [|discriminate Hrun].
    constructor; [|constructor]. intros _. rewrite Hcells.
    apply (everyColumnMatches_take expectedHeader), Hmatch.
  - simpl in Hrun. constructor.
    + rewrite Hhl. discriminate.
    + eapply IH; [|exact Hrun]. exact Hfh.
Qed.

(** X13: When [validateSampleSheet] returns, the header row of the sheet starts
    with the seven expected column names, in order, and every row under it
    has seven cells or more: any other sheet makes it throw. *)
Theorem validateSampleSheet_accepted_shape (content : string)
    (res : ValidationResult) :
  validateSampleSheet content = Ok res ->
  Forall (fun l => isHeaderLine l = true ->
                   take 7 (cellsOf l) = expectedHeader)
         (preambleOf (nonBlankLines content))
  /\ Forall (fun l => 7 <= List.length (cellsOf l))
            (dataLinesOf (nonBlankLines content)).
Proof.
  unfold validateSampleSheet.
  destruct (forLines (JS.split LF content) (LoopState false [] ∅))
    as [st'|e] eqn:Hrun; simpl; [|discriminate].
  intros _. split.
  - rewrite ValidatorFacts.forLines_skips_blank in Hrun.
    eapply header_checked; [|apply ValidatorFacts.nonBlankLines_not_blank|exact Hrun].
    reflexivity.
  - apply ValidatorFacts.forLines_spec in Hrun as (rows & Hrows & _).
    apply Forall_forall. intros l Hl.
    apply list_elem_of_lookup in Hl as [i Hi].
    apply (f_equal (fun m => m !! i)) in Hrows.
    rewrite !list_lookup_fmap, Hi in Hrows. simpl in Hrows.
    destruct (rows !! i) as [f|]; [|discriminate Hrows]. simpl in Hrows.
    injection Hrows as Hrows. eapply destructure_Some. exact Hrows.
Qed.

Lemma validateSampleSheet_accepted_shape_witness :
  Forall (fun l => isHeaderLine l = true ->
                   take 7 (cellsOf l) = expectedHeader)
         (preambleOf (nonBlankLines repeatedPairSheet))
  /\ Forall (fun l => 7 <= List.length (cellsOf l))
            (dataLinesOf (nonBlankLines repeatedPairSheet)).
Proof.
  apply (validateSampleSheet_accepted_shape repeatedPairSheet repeatedPairResult).
  vm_compute. reflexivity.
Defined.

End ValidatorMoreFacts.

(** ** [parseIlluminaSampleSheet] on every text *)

Module ParserMoreFacts.
Import JS NextSeq500 ParserVocabulary.

(** X14: What [parseIlluminaSampleSheet] returns, for every text: without a
    marker line the first error; otherwise the header section is made of
    the lines before the first marker line, kept as they are, and the data
    lines are the lines with text after the last marker line, trimmed and
    without trailing commas; with fewer than two of them, the second
    error. *)
Theorem parseIlluminaSampleSheet_spec (content : string) :
  parseIlluminaSampleSheet content
  = let lines := linesOf content in
    let data :=
      map cleanLineOf (List.filter hasText (afterLastMarker lines)) in
    if negb (existsb isDataMarker lines) then Throw noDataSection
    else if (List.length data <? 2)%nat then Throw noDataFound
    else Ok (Parsed (beforeFirstMarker lines) data).
Proof.
  unfold parseIlluminaSampleSheet. rewrite ParserFacts.scan_spec. cbn zeta.
  destruct (existsb isDataMarker (linesOf content)); reflexivity.
Qed.

(** *** Line endings *)

Lemma app_cons (a : ascii) (s t : string) :
  String a s +:+ t = String a (s +:+ t).
Proof. reflexivity. Qed.

Lemma join_cons (sep x y : string) (ys : list string) :
  join sep (x :: y :: ys) = x +:+ sep +:+ join sep (y :: ys).
Proof. reflexivity. Qed.

Lemma normalize_one_line_app (l s : string) :
  isOneLine l ->
  normalizeLineEndings (l +:+ s) = l +:+ normalizeLineEndings s.
Proof.
  induction l as [|a l IH]; [reflexivity|].
  intros [[Ha _] Hl]. rewrite !app_cons. cbn [normalizeLineEndings].
  destruct (Ascii.eqb_spec a CR) as [->|_]; [contradiction|].
  f_equal. apply IH, Hl.
Qed.

Lemma normalize_one_line (l : string) :
  isOneLine l -> normalizeLineEndings l = l.
Proof.
  induction l as [|a l IH]; [reflexivity|].
  intros [[Ha _] Hl]. cbn [normalizeLineEndings].
  destruct (Ascii.eqb_spec a CR) as [->|_]; [contradiction|].
  f_equal. apply IH, Hl.
Qed.

Lemma join_cr_start (ls : list string) :
  Forall isOneLine ls ->
  startsIn (fun c => Ascii.eqb c LF) (join (String CR EmptyString) ls) = false.
Proof.
  intros Hls. destruct Hls as [|x ls Hx Hls]; [reflexivity|].
  assert (Hstart : forall t, startsIn (fun c => Ascii.eqb c LF) t = false ->
                             startsIn (fun c => Ascii.eqb c LF) (x +:+ t) = false).
  { intros t Ht. destruct x as [|a x]; [exact Ht|].
    destruct Hx as [[_ Ha] _]. rewrite app_cons. cbn [startsIn].
    destruct (Ascii.eqb_spec a LF); [contradiction|reflexivity]. }
  destruct ls as [|y ys].
  - change (join (String CR EmptyString) [x]) with x.
    rewrite <- (Hstart EmptyString eq_refl). f_equal.
    clear. induction x as [|a x IH]; [reflexivity|]. rewrite app_cons, <- IH.
    reflexivity.
  - rewrite join_cons. apply Hstart. reflexivity.
Qed.

Lemma normalize_cr (s : string) :
  startsIn (fun c => Ascii.eqb c LF) s = false ->
  normalizeLineEndings (String CR s) = String LF (normalizeLineEndings s).
Proof.
  intros Hs. destruct s as [|b s]; [reflexivity|].
  cbn [startsIn] in Hs. cbn [normalizeLineEndings]. rewrite Hs.
  reflexivity.
Qed.

Lemma normalize_joined (ls : list string) :
  Forall isOneLine ls ->
  normalizeLineEndings (join CRLF ls) = unlines ls
  /\ normalizeLineEndings (join (String CR EmptyString) ls) = unlines ls
  /\ normalizeLineEndings (unlines ls) = unlines ls.
Proof.
  induction 1 as [|x ls Hx Hls IH]; [repeat split; reflexivity|].
  destruct ls as [|y ys].
  - change (unlines [x]) with x. repeat split; apply normalize_one_line, Hx.
  - destruct IH as (IH1 & IH2 & IH3).
    change (unlines (x :: y :: ys))
      with (x +:+ String LF EmptyString +:+ unlines (y :: ys)).
    rewrite !join_cons.
    split; [|split]; rewrite (normalize_one_line_app x _ Hx); f_equal.
    + change (CRLF +:+ join CRLF (y :: ys))
        with (String CR (String LF (join CRLF (y :: ys)))).
      cbn [normalizeLineEndings]. rewrite !Ascii.eqb_refl, IH1. reflexivity.
    + change (String CR EmptyString +:+ join (String CR EmptyString) (y :: ys))
        with (String CR (join (String CR EmptyString) (y :: ys))).
      rewrite normalize_cr by (apply join_cr_start, Hls). rewrite IH2.
      reflexivity.
    + change (String LF EmptyString +:+ unlines (y :: ys))
        with (String LF (unlines (y :: ys))).
      cbn [normalizeLineEndings]. rewrite IH3. reflexivity.
Qed.

Lemma split_one_line (l : string) : isOneLine l -> JS.split LF l = [l].
Proof.
  induction l as [|a l IH]; [reflexivity|].
  intros [[_ Ha] Hl]. cbn [JS.split].
  destruct (Ascii.eqb_spec a LF); [contradiction|].
  rewrite (IH Hl). reflexivity.
Qed.

Lemma split_one_line_app (l s : string) :
  isOneLine l ->
  JS.split LF (l +:+ String LF s) = l :: JS.split LF s.
Proof.
  induction l as [|a l IH].
  - intros _. change (EmptyString +:+ String LF s) with (String LF s).
    cbn [JS.split]. rewrite Ascii.eqb_refl. reflexivity.
  - intros [[_ Ha] Hl]. rewrite app_cons. cbn [JS.split].
    destruct (Ascii.eqb_spec a LF); [contradiction|].
    rewrite (IH Hl). reflexivity.
Qed.

Lemma split_unlines (ls : list string) :
  ls <> [] -> Forall isOneLine ls -> JS.split LF (unlines ls) = ls.
Proof.
  intros Hne Hls. induction Hls as [|x ls Hx Hls IH]; [contradiction|].
  destruct ls as [|y ys].
  - apply split_one_line, Hx.
  - change (unlines (x :: y :: ys))
      with (x +:+ String LF (unlines (y :: ys))).
    rewrite split_one_line_app by exact Hx. f_equal. apply IH. discriminate.
Qed.

(** X15: Lines that are joined by CR LF, by CR alone or by LF are read back as
    the same lines, so the three conventions give the same parse. *)
Theorem line_endings_uniform (ls : list string) :
  ls <> [] ->
  Forall isOneLine ls ->
  linesOf (join CRLF ls) = ls
  /\ linesOf (join (String CR EmptyString) ls) = ls
  /\ linesOf (unlines ls) = ls
  /\ parseIlluminaSampleSheet (join CRLF ls)
     = parseIlluminaSampleSheet (unlines ls)
  /\ parseIlluminaSampleSheet (join (String CR EmptyString) ls)
     = parseIlluminaSampleSheet (unlines ls).
Proof.
  intros Hne Hls.
  destruct (normalize_joined ls Hls) as (H1 & H2 & H3).
  pose proof (split_unlines ls Hne Hls) as Hsplit.
  assert (L1 : linesOf (join CRLF ls) = ls)
    by (unfold linesOf; rewrite H1; exact Hsplit).
  assert (L2 : linesOf (join (String CR EmptyString) ls) = ls)
    by (unfold linesOf; rewrite H2; exact Hsplit).
  assert (L3 : linesOf (unlines ls) = ls)
    by (unfold linesOf; rewrite H3; exact Hsplit).
  repeat split; try assumption.
  - unfold parseIlluminaSampleSheet. rewrite L1, L3. reflexivity.
  - unfold parseIlluminaSampleSheet. rewrite L2, L3. reflexivity.
Qed.

Lemma line_endings_uniform_witness :
  let ls := ["[Header]"; "[Data]"; "Sample_ID,index"; "S1,AAAA"] in
  linesOf (join CRLF ls) = ls
  /\ linesOf (join (String CR EmptyString) ls) = ls
  /\ linesOf (unlines ls) = ls
  /\ parseIlluminaSampleSheet (join CRLF ls)
     = parseIlluminaSampleSheet (unlines ls)
  /\ parseIlluminaSampleSheet (join (String CR EmptyString) ls)
     = parseIlluminaSampleSheet (unlines ls).
Proof.
  apply (line_endings_uniform ["[Header]"; "[Data]"; "Sample_ID,index"; "S1,AAAA"]).
  - discriminate.
  - repeat constructor; vm_compute; discriminate.
Defined.

End ParserMoreFacts.

(** ** Column removal *)

Module SerializerMoreFacts.
Import JS Serializer SerializerVocabulary Sheets.

Lemma kept_lengths (removeProject : bool) (headers cells : list string) :
  List.length cells = List.length headers ->
  List.length (keptStrings removeProject headers cells)
  = List.length (keptStrings removeProject headers headers).
Proof.
  intros Hlen. unfold keptStrings, removedColumn.
  destruct removeProject; [|exact Hlen].
  destruct (projectColIndex headers) as [k|] eqn:Hk; [|exact Hlen].
  apply SerializerFacts.findIndex_lt in Hk.
  rewrite !SerializerFacts.length_without by lia. congruence.
Qed.

Lemma emittedTable_rectangular (removeProject : bool) (headers : list string)
    (table : list (list string)) :
  Forall (fun cells => List.length cells = List.length headers) table ->
  emittedTable removeProject headers (map ofStrings table)
  = map (fun l => join "," (keptStrings removeProject headers l))
        (headers :: table).
Proof.
  intros Htable. unfold emittedTable. cbn [map]. f_equal.
  rewrite map_map. apply Forall_fmap_ext_1.
  eapply Forall_impl; [exact Htable|]. intros cells Hlen. cbn beta.
  unfold emittedCells.
  rewrite SerializerFacts.keptCells_ofStrings, SerializerFacts.length_ofStrings.
  rewrite (kept_lengths removeProject headers cells Hlen), Nat.sub_diag.
  cbn [replicate]. rewrite app_nil_r.
  apply SerializerFacts.joinArray_ofStrings.
Qed.

(** X16: On the two NextSeq 2000 pages, for a table whose rows have one
    cell per header, [downloadValidated] writes the header section and
    then the headers and the rows as they are, each without the element at
    the position of the project column when its removal is asked for and
    a header contains [project]: no padding cell is added and every line
    written has the same number of cells. *)
Theorem removal_keeps_table_rectangular (removeProject : bool)
    (cfg : Page2k.config) (st : Page2k.page) (table : list (list string)) :
  Page2k.headers st <> [] ->
  table <> [] ->
  Page2k.rows st = map ofStrings table ->
  Forall (fun cells => List.length cells = List.length (Page2k.headers st))
         table ->
  NextSeq2kAlt.downloadValidated removeProject st
  = Some (unlines
            (Page2k.headerSection st
             ++ map (fun l => join ","
                                (keptStrings removeProject (Page2k.headers st) l))
                    (Page2k.headers st :: table)))
  /\ (exists st',
        NextSeq2k.downloadValidated cfg removeProject st
        = Some (st',
                unlines
                  (Page2k.generatedHeaderSection cfg
                   ++ map (fun l => join ","
                                      (keptStrings removeProject
                                         (Page2k.headers st) l))
                          (Page2k.headers st :: table))))
  /\ Forall (fun cells =>
               List.length (keptStrings removeProject (Page2k.headers st) cells)
               = List.length (keptStrings removeProject (Page2k.headers st)
                                (Page2k.headers st)))
            table.
Proof.
  intros Hheaders Htable Hrows Hrect.
  assert (Hne : Page2k.rows st <> []).
  { rewrite Hrows. destruct table; [contradiction|discriminate]. }
  split; [|split].
  - rewrite (SerializerFacts.downloadValidated_alt _ _ Hheaders Hne).
    rewrite Hrows, (emittedTable_rectangular _ _ _ Hrect). reflexivity.
  - destruct (SerializerFacts.downloadValidated_2k cfg removeProject st
                Hheaders Hne) as [st' Hst'].
    exists st'. rewrite Hst'.
    rewrite Hrows, (emittedTable_rectangular _ _ _ Hrect). reflexivity.
  - eapply Forall_impl; [exact Hrect|]. intros cells. apply kept_lengths.
Qed.

Lemma removal_keeps_table_rectangular_witness :
  NextSeq2kAlt.downloadValidated true fullTablePage
  = Some (unlines [ "[Header]"; "[BCLConvert_Data]";
                    "Sample_ID,Index2,Index"; "S1,TTTT,AAAA" ])
  /\ (exists st',
        NextSeq2k.downloadValidated defaultConfig true fullTablePage
        = Some (st',
                unlines
                  (Page2k.generatedHeaderSection defaultConfig
                   ++ ["Sample_ID,Index2,Index"; "S1,TTTT,AAAA"])))
  /\ Forall (fun cells =>
               List.length
                 (keptStrings true (Page2k.headers fullTablePage) cells)
               = 3)
            [["S1"; "TTTT"; "AAAA"; "ProjA"]].
Proof.
  apply (removal_keeps_table_rectangular true defaultConfig fullTablePage
           [["S1"; "TTTT"; "AAAA"; "ProjA"]]).
  - discriminate.
  - discriminate.
  - reflexivity.
  - repeat constructor.
Defined.

End SerializerMoreFacts.

(** ** Reconciliation of the columns of a bare CSV file *)

Module ReconcileMoreFacts.
Import JS Page2k Sheets.

Lemma findIndex_Some_elem {A : Type} (p : A -> bool) (l : list A) (i : nat) :
  findIndex p l = Some i -> exists x, l !! i = Some x /\ p x = true.
Proof.
  revert i. induction l as [|y l IH]; intros i; simpl; [discriminate|].
  destruct (p y) eqn:Hy; [intros [= <-]; eauto|].
  destruct (findIndex p l) as [j|]; simpl; [|discriminate].
  intros [= <-]. apply (IH j eq_refl).
Qed.

Lemma distinct_positions {A : Type} (p q : A -> bool) (l : list A) (i j : nat) :
  (forall x, p x = true -> q x = true -> False) ->
  findIndex p l = Some i ->
  findIndex q l = Some j ->
  (i =? j)%nat = false.
Proof.
  intros Hpq Hi Hj. apply Nat.eqb_neq. intros <-.
  apply findIndex_Some_elem in Hi as (x & Hx & Hp).
  apply findIndex_Some_elem in Hj as (y & Hy & Hq).
  rewrite Hx in Hy. injection Hy as <-. eauto.
Qed.

Ltac destruct_columns l :=
  repeat match goal with
         | |- context [findIndex ?p l] =>
             let E := fresh "E" in destruct (findIndex p l) eqn:E
         end.

Ltac separate_columns tac :=
  repeat match goal with
         | H1 : findIndex ?p ?l = Some ?i, H2 : findIndex ?q ?l = Some ?j
           |- context [(?i =? ?j)%nat] =>
             rewrite (distinct_positions p q l i j ltac:(tac) H1 H2)
         end.



Lemma filter_own_result {A : Type} (f : A -> bool) (l : list A) (x : A)
    (rest : list A) :
  List.filter f l = x :: rest -> List.filter f rest = rest.
Proof.
  intros Heq.
  assert (Hall : Forall (fun y => f y = true) (x :: rest)).
  { rewrite <- Heq. apply Forall_forall. intros y Hy.
    apply list_elem_of_In, filter_In in Hy. apply Hy. }
  inversion Hall as [|? ? _ Hrest]; subst. clear - Hrest.
  induction Hrest as [|y rest Hy _ IH]; simpl; [reflexivity|].
  rewrite Hy, IH. reflexivity.
Qed.

Lemma length_set_inside (row : array) (n : nat) (v : value) :
  n < List.length row -> List.length (set row n v) = List.length row.
Proof.
  intros Hn. unfold set.
  destruct (Nat.ltb_spec n (List.length row)); [|lia]. apply length_insert.
Qed.



(** *** [routes/nextseq2k/+page.svelte] *)

Ltac names_differ_exact :=
  let x := fresh "x" in
  let Hp := fresh "Hp" in
  let Hq := fresh "Hq" in
  intros x Hp Hq; apply String.eqb_eq in Hp; apply String.eqb_eq in Hq;
  rewrite <- Hp in Hq; discriminate Hq.

Lemma reorderCells_by_name (inputHeadersLower cells : list string) :
  NextSeq2k.reorderCells
    (NextSeq2k.buildHeaderMap inputHeadersLower NextSeq2k.requiredColumns 0 [])
    cells
  = map (fun required =>
           Some (str (orEmpty
                        (get (ofStrings cells)
                             (findIndex (String.eqb required)
                                        inputHeadersLower)))))
        NextSeq2k.requiredColumns.
Proof.
  unfold NextSeq2k.reorderCells, NextSeq2k.requiredColumns.
  cbn [NextSeq2k.buildHeaderMap map].
  destruct_columns inputHeadersLower;
    repeat (cbn [mapSet]; progress separate_columns names_differ_exact);
    cbn [mapSet fold_left];
    repeat match goal with
           | |- context [get (ofStrings cells) (Some ?i)] =>
               destruct (get (ofStrings cells) (Some i)) as [|[|? ?]]
           end;
    reflexivity.
Qed.

Lemma header_found (inputHeaders : list string) (required : string) :
  NextSeq2k.includesString (map toLowerCase inputHeaders) required = true ->
  toLowerCase
    (orEmpty (get (ofStrings inputHeaders)
                  (findIndex (String.eqb required)
                             (map toLowerCase inputHeaders))))
  = required.
Proof.
  unfold NextSeq2k.includesString.
  induction inputHeaders as [|h t IH]; [discriminate|]. simpl.
  destruct (String.eqb_spec required (toLowerCase h)) as [->|_];
    [reflexivity|]. simpl.
  intros Hin. specialize (IH Hin).
  destruct (findIndex (String.eqb required) (map toLowerCase t)); exact IH.
Qed.

Lemma header_position (inputHeaders : list string) (required : string) :
  NextSeq2k.includesString (map toLowerCase inputHeaders) required = true ->
  exists i,
    inputHeaders !! i
    = Some (orEmpty (get (ofStrings inputHeaders)
                         (findIndex (String.eqb required)
                                    (map toLowerCase inputHeaders))))
    /\ findIndex (String.eqb required) (map toLowerCase inputHeaders) = Some i.
Proof.
  unfold NextSeq2k.includesString.
  induction inputHeaders as [|h t IH]; [discriminate|]. simpl.
  destruct (String.eqb_spec required (toLowerCase h)) as [->|_].
  - intros _. exists 0. split; reflexivity.
  - simpl. intros Hin. destruct (IH Hin) as (i & Hi & Hfind).
    rewrite Hfind in Hi |- *. exists (S i). split; [exact Hi|reflexivity].
Qed.

Lemma nothing_missing (inputHeadersLower : list string) :
  NextSeq2k.missingColumns inputHeadersLower = [] ->
  Forall (fun required =>
            NextSeq2k.includesString inputHeadersLower required = true)
         NextSeq2k.requiredColumns.
Proof.
  unfold NextSeq2k.missingColumns, NextSeq2k.requiredColumns.
  cbn [List.filter].
  repeat match goal with
         | |- context [negb (NextSeq2k.includesString ?l ?r)] =>
             destruct (NextSeq2k.includesString l r) eqn:?; cbn [negb]
         end;
    try discriminate.
  intros _. repeat constructor; assumption.
Qed.

(** X18: On [routes/nextseq2k/+page.svelte], a bare CSV file that has the four
    required columns and one row or more is accepted: no error is
    assigned; the headers are the input's own spellings of the required
    names, in the required order: each one is the cell of the header row
    at the first position whose lower-case form is the required name;
    every row holds under each name the input cell under that header (or
    the empty string), and the header section is the one built from the
    configuration. *)
Theorem bare_csv_reordered (cfg : config) (st : page)
    (content line0 : string) (rest : list string) :
  nonBlankLines content = line0 :: rest ->
  hasFullStructure (line0 :: rest) = false ->
  rest <> [] ->
  NextSeq2k.missingColumns (map toLowerCase (Utils.cellsOf line0)) = [] ->
  let st' := NextSeq2k.processContent cfg st content in
  error st' = error st
  /\ Forall2
       (fun header required =>
          toLowerCase header = required
          /\ exists i,
               Utils.cellsOf line0 !! i = Some header
               /\ findIndex (String.eqb required)
                            (map toLowerCase (Utils.cellsOf line0))
                  = Some i)
       (headers st') NextSeq2k.requiredColumns
  /\ originalRows st'
     = map (fun line =>
              map (fun required =>
                     Some (str (orEmpty
                                  (get (ofStrings (Utils.cellsOf line))
                                       (findIndex (String.eqb required)
                                          (map toLowerCase
                                               (Utils.cellsOf line0)))))))
                  NextSeq2k.requiredColumns)
           rest
  /\ headerSection st' = generatedHeaderSection cfg.
Proof.
  intros Hlines Hbare Hrest Hmissing st'. subst st'.
  unfold NextSeq2k.processContent.
  destruct content as [|c content]; [discriminate Hlines|]. cbn [isEmpty].
  rewrite Hlines, Hbare. cbn [negb].
  fold (Utils.cellsOf line0).
  destruct (Utils.cellsOf line0) as [|h hs] eqn:Hcells.
  { apply map_eq_nil in Hcells. destruct (ReconcilerFacts.split_not_nil _ _ Hcells). }
  cbn [List.length Nat.eqb]. rewrite Hmissing. cbn [List.length Nat.ltb Nat.leb].
  unfold nonBlankLines in Hlines. rewrite (filter_own_result _ _ _ _ Hlines).
  destruct rest as [|line1 rest']; [contradiction|].
  cbn [map List.length Nat.eqb error headers originalRows headerSection].
  split; [reflexivity|]. split; [|split; [|reflexivity]].
  - unfold NextSeq2k.originalHeaders.
    pose proof (nothing_missing _ Hmissing) as Hall.
    apply Forall2_fmap_l, Forall_Forall2_diag.
    eapply Forall_impl; [exact Hall|].
    intros required Hin. cbn beta.
    split; [apply (header_found (h :: hs)), Hin|].
    apply (header_position (h :: hs)), Hin.
  - f_equal; [apply reorderCells_by_name|].
    apply map_ext. intros line. apply reorderCells_by_name.
Qed.

Lemma bare_csv_reordered_witness :
  let st' := NextSeq2k.processContent defaultConfig emptyPage mixedCaseSheet in
  error st' = None
  /\ Forall2
       (fun header required =>
          toLowerCase header = required
          /\ exists i,
               ["Index"; "SAMPLE_ID"; "Sample_Project"; "index2"] !! i
               = Some header
               /\ findIndex (String.eqb required)
                            ["index"; "sample_id"; "sample_project"; "index2"]
                  = Some i)
       ["SAMPLE_ID"; "index2"; "Index"; "Sample_Project"]
       NextSeq2k.requiredColumns
  /\ originalRows st' = [ ofStrings ["sample1"; "TTTT"; "AAAA"; "ProjA"] ]
  /\ headerSection st' = generatedHeaderSection defaultConfig.
Proof.
  apply (bare_csv_reordered defaultConfig emptyPage mixedCaseSheet
           "Index,SAMPLE_ID,Sample_Project,index2"
           ["AAAA,sample1,ProjA,TTTT"]);
    try (vm_compute; reflexivity).
  discriminate.
Defined.

End ReconcileMoreFacts.

(** ** The Oxford Nanopore page *)

Module OntFacts.
Import JS Ont.

Lemma get_ofStrings_inside (l : list string) (i : nat) :
  i < List.length l -> exists x, get (ofStrings l) (Some i) = str x.
Proof.
  revert i. induction l as [|y l IH]; intros i Hi; simpl in Hi; [lia|].
  destruct i as [|i]; [exists y; reflexivity|].
  destruct (IH i) as [x Hx]; [lia|]. exists x. exact Hx.
Qed.

(** The rows that [processLine] builds. *)
Lemma processLine_row (cfg : config) (sampleIndex barcodeIndex : nat)
    (projectIndex : option nat) (line : string) (row : array) :
  processLine cfg sampleIndex barcodeIndex projectIndex line = Ok row ->
  exists name barcode project,
    row = [ Some (str (flowcell_id cfg)); Some (str (kit cfg));
            Some (str name); Some (str (experiment_id cfg));
            Some (str barcode); Some (str name); Some project ]
    /\ Utils.replaceSpecialCharacters name = name.
Proof.
  unfold processLine.
  destruct (Nat.leb_spec (List.length (map trim (JS.split "," line)))
                         (Nat.max sampleIndex barcodeIndex)) as [|Hlen];
    [discriminate|].
  destruct (get_ofStrings_inside (map trim (JS.split "," line)) sampleIndex)
    as [x Hx]; [lia|].
  rewrite Hx. simpl. intros [= <-].
  eexists _, _, _. split; [reflexivity|].
  rewrite UtilsMoreFacts.replaceSpecialCharacters_first_pass at 1.
  apply UtilsMoreFacts.sanitized_is_fixed.
Qed.

Lemma mapLines_rows (f : string -> result array) (lines : list string)
    (rows : list array) :
  mapLines f lines = Ok rows ->
  Forall (fun row => exists line, f line = Ok row) rows.
Proof.
  revert rows. induction lines as [|line lines IH]; intros rows; simpl.
  - intros [= <-]. constructor.
  - destruct (f line) as [row|e] eqn:Hrow; simpl; [|discriminate].
    destruct (mapLines f lines) as [rows'|e]; simpl; [|discriminate].
    intros [= <-]. constructor; [eauto|]. apply IH. reflexivity.
Qed.

Lemma processContent_cases (cfg : config) (content : string) :
  let st := processContent cfg content in
  (exists e, error st = Some e
             /\ headers st = [] /\ rows st = [] /\ originalRows st = [])
  \/ (error st = None
      /\ headers st = outputHeaders
      /\ rows st = originalRows st
      /\ Forall
           (fun row =>
              exists name barcode project,
                row = [ Some (str (flowcell_id cfg)); Some (str (kit cfg));
                        Some (str name); Some (str (experiment_id cfg));
                        Some (str barcode); Some (str name); Some project ]
                /\ Utils.replaceSpecialCharacters name = name)
           (rows st)).
Proof.
  unfold processContent.
  destruct (Page2k.nonBlankLines content) as [|line0 rest];
    [left; eexists; repeat split; reflexivity|].
  destruct (indexOf "samplename" _) as [sampleIndex|];
    [|left; eexists; repeat split; reflexivity].
  destruct (indexOf "barcode" _) as [barcodeIndex|];
    [|left; eexists; repeat split; reflexivity].
  destruct (mapLines _ _) as [rows'|e] eqn:Hrows;
    [|left; eexists; repeat split; reflexivity].
  right. repeat split.
  apply mapLines_rows in Hrows. simpl.
  eapply Forall_impl; [exact Hrows|].
  intros row [line Hline]. eapply processLine_row, Hline.
Qed.

(** X23: [processContent] either fails and clears the table, or succeeds with
    the seven output headers and rows of seven cells: the flow cell, kit
    and experiment of the configuration, and the same sanitized name as
    sample_id and as alias. *)
Theorem processContent_outcome (cfg : config) (content : string) :
  let st := processContent cfg content in
  (exists e, error st = Some e
             /\ headers st = [] /\ rows st = [] /\ originalRows st = [])
  \/ (error st = None
      /\ headers st = outputHeaders
      /\ rows st = originalRows st
      /\ Forall
           (fun row =>
              exists name barcode project,
                row = [ Some (str (flowcell_id cfg)); Some (str (kit cfg));
                        Some (str name); Some (str (experiment_id cfg));
                        Some (str barcode); Some (str name); Some project ]
                /\ Utils.replaceSpecialCharacters name = name)
           (rows st)).
Proof. exact (processContent_cases cfg content). Qed.

(** *** [downloadValidated] *)

Lemma someBlankFrom_false (j : nat) (row : array) :
  someBlankFrom j row = false ->
  forall i v, j + i <> 3 -> row !! i = Some (Some v) ->
              isBlankCell (Some v) = false.
Proof.
  revert j. induction row as [|cell row IH]; intros j Hrow i v Hi Hv;
    [discriminate Hv|].
  destruct i as [|i]; simpl in Hv.
  - injection Hv as ->. cbn [someBlankFrom] in Hrow.
    apply orb_false_iff in Hrow as [Hcell _].
    destruct (Nat.eqb_spec j 3); [lia|exact Hcell].
  - cbn [someBlankFrom] in Hrow.
    assert (Hrest : someBlankFrom (S j) row = false).
    { destruct cell; [apply orb_false_iff in Hrow; apply Hrow|exact Hrow]. }
    eapply (IH (S j) Hrest i); [lia|exact Hv].
Qed.

(** X24: [downloadValidated] hands out a text only if, in every row, every cell
    other than the experiment (position 3) is a string with something else
    than white space in it; the page is then left as it is. *)
Theorem downloadValidated_requires_filled (st : page) (text : string) :
  snd (downloadValidated st) = Some text ->
  fst (downloadValidated st) = st
  /\ text = unlines (join "," (headers st) :: map (joinArray ",") (rows st))
  /\ Forall
       (fun row =>
          forall i v, i <> 3 -> row !! i = Some (Some v) ->
                      exists s, v = str s /\ trim s <> EmptyString)
       (rows st).
Proof.
  unfold downloadValidated.
  destruct (_ || _); [discriminate|].
  destruct (existsb (someBlankFrom 0) (rows st)) eqn:Hblank; [discriminate|].
  simpl. intros [= <-]. split; [reflexivity|]. split; [reflexivity|].
  apply Forall_forall. intros row Hrow i v Hi Hv.
  assert (Hr : someBlankFrom 0 row = false).
  { destruct (someBlankFrom 0 row) eqn:E; [|reflexivity].
    rewrite <- Hblank. symmetry. apply existsb_exists. exists row.
    split; [apply list_elem_of_In, Hrow|exact E]. }
  pose proof (someBlankFrom_false 0 row Hr i v ltac:(simpl; exact Hi) Hv) as Hc.
  destruct v as [|s]; [discriminate Hc|]. exists s. split; [reflexivity|].
  simpl in Hc. apply orb_false_iff in Hc as [_ Hc].
  intros Heq. rewrite Heq in Hc. discriminate Hc.
Qed.

(** X25: With an empty flow cell identifier, which is what the page starts
    with, [downloadValidated] never hands out a text for what
    [processContent] has read, before and after the reactive block has
    rebuilt the rows.  When the sheet gave one row or more it assigns the
    error about empty fields; when the table is empty, after a failed read
    or a sheet with the header row only, it returns at once and the page
    stays as it is. *)
Theorem downloadValidated_needs_flowcell (cfg : config) (content : string) :
  flowcell_id cfg = EmptyString ->
  forall st,
    st = processContent cfg content
    \/ st = refreshRows cfg (processContent cfg content) ->
    snd (downloadValidated st) = None
    /\ (rows (processContent cfg content) <> [] ->
        error (fst (downloadValidated st)) = Some emptyFieldsError)
    /\ (rows (processContent cfg content) = [] ->
        st = processContent cfg content /\ fst (downloadValidated st) = st).
Proof.
  intros Hfc st Hst.
  destruct (rows (processContent cfg content)) as [|row rows'] eqn:Hr.
  - assert (Hsame : st = processContent cfg content).
    { destruct Hst as [->| ->]; [reflexivity|].
      unfold refreshRows. rewrite Hr. reflexivity. }
    subst st. unfold downloadValidated. rewrite Hr.
    cbn [List.length Nat.eqb]. rewrite orb_true_r.
    split; [reflexivity|]. split; [intros Hne; contradiction|].
    intros _. split; reflexivity.
  - destruct (processContent_cases cfg content)
      as [(e & _ & _ & Hempty & _)|(_ & Hh & Horig & Hshape)];
      [congruence|].
    rewrite Hr in Hshape.
    inversion Hshape as [|? ? (name & barcode & project & -> & _) _]; subst.
    assert (Hgoal : snd (downloadValidated st) = None
                    /\ error (fst (downloadValidated st))
                       = Some emptyFieldsError).
    { destruct Hst as [->| ->].
      - unfold downloadValidated. rewrite Hh, Hr.
        cbn [List.length Nat.eqb orb outputHeaders].
        rewrite Hfc. cbn [existsb someBlankFrom Nat.eqb isBlankCell isEmpty orb].
        split; reflexivity.
      - unfold refreshRows. rewrite Hr. cbn [List.length Nat.ltb Nat.leb].
        rewrite <- Horig, Hr. unfold downloadValidated.
        cbn [headers rows originalRows map]. rewrite Hh.
        cbn [List.length Nat.eqb orb outputHeaders].
        unfold refreshRow. rewrite Hfc.
        destruct (isEmpty (type cfg)); split; reflexivity. }
    destruct Hgoal as [Hnone Herror].
    split; [exact Hnone|]. split; [intros _; exact Herror|discriminate].
Qed.

Lemma downloadValidated_requires_filled_witness :
  let st := processContent (Config "FLO1" "SQK_NBD111_96" EmptyString "test_sample")
              (unlines ["SampleName,Barcode"; "my sample,NB_01"]) in
  fst (downloadValidated st) = st
  /\ unlines [ "flow_cell_id,kit,sample_id,experiment_id,barcode,alias,type";
               "FLO1,SQK_NBD111_96,my-sample,,barcode01,my-sample,test_sample" ]
     = unlines (join "," (headers st) :: map (joinArray ",") (rows st))
  /\ Forall
       (fun row =>
          forall i v, i <> 3 -> row !! i = Some (Some v) ->
                      exists s, v = str s /\ trim s <> EmptyString)
       (rows st).
Proof.
  apply (downloadValidated_requires_filled
           (processContent (Config "FLO1" "SQK_NBD111_96" EmptyString "test_sample")
              (unlines ["SampleName,Barcode"; "my sample,NB_01"]))).
  vm_compute. reflexivity.
Defined.

Lemma downloadValidated_needs_flowcell_witness :
  (snd (downloadValidated
          (processContent (Config EmptyString "SQK_NBD111_96" EmptyString "test_sample")
             (unlines ["SampleName,Barcode"; "my sample,NB_01"])))
   = None
   /\ error (fst (downloadValidated
                    (processContent
                       (Config EmptyString "SQK_NBD111_96" EmptyString "test_sample")
                       (unlines ["SampleName,Barcode"; "my sample,NB_01"]))))
      = Some emptyFieldsError)
  /\ (snd (downloadValidated
             (processContent
                (Config EmptyString "SQK_NBD111_96" EmptyString "test_sample")
                (unlines ["SampleName,Barcode"])))
      = None
      /\ fst (downloadValidated
                (processContent
                   (Config EmptyString "SQK_NBD111_96" EmptyString "test_sample")
                   (unlines ["SampleName,Barcode"])))
         = processContent
             (Config EmptyString "SQK_NBD111_96" EmptyString "test_sample")
             (unlines ["SampleName,Barcode"])).
Proof.
  destruct (downloadValidated_needs_flowcell
              (Config EmptyString "SQK_NBD111_96" EmptyString "test_sample")
              (unlines ["SampleName,Barcode"; "my sample,NB_01"])
              eq_refl _ (or_introl eq_refl))
    as (Hnone & Herror & _).
  destruct (downloadValidated_needs_flowcell
              (Config EmptyString "SQK_NBD111_96" EmptyString "test_sample")
              (unlines ["SampleName,Barcode"])
              eq_refl _ (or_introl eq_refl))
    as (Hnone' & _ & Hsame).
  split; split.
  - exact Hnone.
  - apply Herror. vm_compute. discriminate.
  - exact Hnone'.
  - apply Hsame. vm_compute. reflexivity.
Defined.

End OntFacts.

(** ** The reverse-complement toggle of the NextSeq 2000 pages *)

Module ToggleFacts.
Import JS Page2k Toggle Sheets.

Lemma set_inside (row : array) (k : nat) (v : value) :
  k < List.length row -> set row k v = <[k := Some v]> row.
Proof.
  intros Hk. unfold set. destruct (Nat.ltb_spec k (List.length row)); [reflexivity|lia].
Qed.

Lemma insert_spread_insert (row : array) (k : nat) (v1 v : value) :
  <[k := Some v]> (spread (<[k := Some v1]> (spread row)))
  = <[k := Some v]> (spread row).
Proof.
  revert k. induction row as [|c row IH]; intros k; [reflexivity|].
  destruct k as [|k]; simpl.
  - f_equal. apply SerializerFacts.spread_idempotent.
  - f_equal. apply IH.
Qed.

Lemma set_spread_set (row : array) (k : nat) (v1 v : value) :
  k < List.length row ->
  set (spread (set (spread row) k v1)) k v = set (spread row) k v.
Proof.
  intros Hk.
  assert (Hs : k < List.length (spread row))
    by (rewrite SerializerFacts.length_spread; exact Hk).
  rewrite (set_inside (spread row) k v1 Hs), (set_inside (spread row) k v Hs).
  assert (Hi : k < List.length (spread (<[k := Some v1]> (spread row)))).
  { rewrite SerializerFacts.length_spread.
    eapply Nat.lt_le_trans; [exact Hs|]. apply Nat.eq_le_incl. symmetry.
    apply length_insert. }
  rewrite (set_inside _ k v Hi).
  apply insert_spread_insert.
Qed.

Lemma get_set_same (row : array) (k : nat) (v : value) :
  get (set row k v) (Some k) = v.
Proof.
  unfold get, set, array in *.
  destruct (Nat.ltb_spec k (List.length row)) as [Hk|Hk].
  - rewrite list_lookup_insert_eq by exact Hk. reflexivity.
  - rewrite lookup_app_r by exact Hk.
    rewrite lookup_app_r by (rewrite length_replicate; lia).
    rewrite length_replicate, Nat.sub_diag. reflexivity.
Qed.

Lemma toggleRow_result (checked : bool) (k : nat) (row row1 : array)
    (originalRow : option array) :
  toggleRow checked k row originalRow = Ok row1 ->
  exists original v,
    originalRow = Some original
    /\ (if checked then reverseComplementCell (get original (Some k))
        else Ok (get original (Some k))) = Ok v
    /\ row1 = set (spread row) k v.
Proof.
  unfold toggleRow. destruct originalRow as [original|]; [|discriminate].
  destruct (if checked then _ else _) as [v|e] eqn:Hv; simpl; [|discriminate].
  intros [= <-]. eauto.
Qed.

Lemma toggleRow_again (c1 c2 : bool) (k : nat) (row row1 : array)
    (originalRow : option array) :
  k < List.length row ->
  toggleRow c1 k row originalRow = Ok row1 ->
  toggleRow c2 k row1 originalRow = toggleRow c2 k row originalRow.
Proof.
  intros Hk H1.
  apply toggleRow_result in H1 as (original & v1 & -> & _ & ->).
  unfold toggleRow.
  destruct (if c2 then _ else _) as [v|e]; simpl; [|reflexivity].
  rewrite set_spread_set by exact Hk. reflexivity.
Qed.

Lemma toggleRows_again (c1 c2 : bool) (k : nat)
    (rows originalRows rows1 : list array) :
  Forall (fun row => k < List.length row) rows ->
  toggleRows c1 k rows originalRows = Ok rows1 ->
  toggleRows c2 k rows1 originalRows = toggleRows c2 k rows originalRows
  /\ List.length rows1 = List.length rows.
Proof.
  intros Hrows. revert originalRows rows1.
  induction Hrows as [|row rows Hrow _ IH]; intros originalRows rows1; simpl.
  - intros [= <-]. split; reflexivity.
  - destruct (toggleRow c1 k row (head originalRows)) as [row1|e] eqn:H1;
      simpl; [|discriminate].
    destruct (toggleRows c1 k rows (tail originalRows)) as [rest1|e] eqn:Hrest;
      simpl; [|discriminate].
    intros [= <-]. simpl.
    rewrite (toggleRow_again c1 c2 k row row1 _ Hrow H1).
    destruct (IH _ _ Hrest) as [-> ->]. split; reflexivity.
Qed.

Lemma toggleRows_cells (checked : bool) (k : nat)
    (rows originalRows rows1 : list array) :
  toggleRows checked k rows originalRows = Ok rows1 ->
  forall i row1,
    rows1 !! i = Some row1 ->
    exists original,
      originalRows !! i = Some original
      /\ (if checked then reverseComplementCell (get original (Some k))
          else Ok (get original (Some k)))
         = Ok (get row1 (Some k)).
Proof.
  revert originalRows rows1.
  induction rows as [|row rows IH]; intros originalRows rows1; simpl.
  - intros [= <-] i row1 Hi. discriminate Hi.
  - destruct (toggleRow checked k row (head originalRows)) as [new|e] eqn:H1;
      simpl; [|discriminate].
    destruct (toggleRows checked k rows (tail originalRows)) as [rest1|e]
      eqn:Hrest; simpl; [|discriminate].
    intros [= <-] i row1 Hi.
    apply toggleRow_result in H1 as (original & v & Hhead & Hv & ->).
    destruct originalRows as [|o originalRows]; [discriminate Hhead|].
    simpl in Hhead. injection Hhead as ->.
    destruct i as [|i]; simpl in Hi.
    + injection Hi as <-. exists original. split; [reflexivity|].
      transitivity (Ok v); [exact Hv|]. f_equal. symmetry.
      apply get_set_same.
    + apply (IH _ _ Hrest i row1 Hi).
Qed.

Lemma spread_insert_spread (row : array) (k : nat) (v : value) :
  spread (<[k := Some v]> (spread row)) = <[k := Some v]> (spread row).
Proof.
  revert k. induction row as [|c row IH]; intros k; [reflexivity|].
  destruct k as [|k]; simpl; f_equal;
    [apply SerializerFacts.spread_idempotent|apply IH].
Qed.

Lemma spread_app (a b : array) : spread (a ++ b) = spread a ++ spread b.
Proof. unfold spread. apply map_app. Qed.

Lemma spread_holes (n : nat) :
  spread (replicate n None) = replicate n (Some undefined).
Proof. induction n as [|n IH]; simpl; [reflexivity|]. f_equal. exact IH. Qed.

Lemma set_last (a : array) (x : option value) (v : value) :
  set (a ++ [x]) (List.length a) v = a ++ [Some v].
Proof.
  unfold set, array in *. rewrite length_app. cbn [List.length].
  destruct (Nat.ltb_spec (List.length a) (List.length a + 1)); [|lia].
  rewrite insert_app_r_alt by lia. rewrite Nat.sub_diag. reflexivity.
Qed.

(** Writing the cell a second time: the row is the one a first write would
    give, with its holes read as [undefined]. *)
Lemma set_spread_set_any (row : array) (k : nat) (v1 v : value) :
  set (spread (set (spread row) k v1)) k v = spread (set (spread row) k v).
Proof.
  destruct (Nat.lt_ge_cases k (List.length row)) as [Hk|Hk].
  - rewrite (set_spread_set row k v1 v Hk).
    assert (Hs : k < List.length (spread row))
      by (rewrite SerializerFacts.length_spread; exact Hk).
    rewrite (set_inside (spread row) k v Hs). symmetry.
    apply spread_insert_spread.
  - assert (Hout : forall w,
              set (spread row) k w
              = spread row ++ replicate (k - List.length row) None ++ [Some w]).
    { intros w. unfold set. rewrite SerializerFacts.length_spread.
      destruct (Nat.ltb_spec k (List.length row)); [lia|reflexivity]. }
    rewrite !Hout, !spread_app, SerializerFacts.spread_idempotent, spread_holes.
    cbn [spread map default].
    rewrite app_assoc.
    replace k
      with (List.length
              (spread row ++ replicate (k - List.length row) (Some undefined)))
      at 2
      by (rewrite length_app, length_replicate, SerializerFacts.length_spread; lia).
    rewrite set_last, <- app_assoc. reflexivity.
Qed.

Lemma toggleRow_again_any (c1 c2 : bool) (k : nat) (row row1 : array)
    (originalRow : option array) :
  toggleRow c1 k row originalRow = Ok row1 ->
  toggleRow c2 k row1 originalRow
  = bind (toggleRow c2 k row originalRow) (fun row2 => Ok (spread row2)).
Proof.
  intros H1.
  apply toggleRow_result in H1 as (original & v1 & -> & _ & ->).
  unfold toggleRow.
  destruct (if c2 then _ else _) as [v|e]; simpl; [|reflexivity].
  rewrite set_spread_set_any. reflexivity.
Qed.

Lemma toggleRows_again_any (c1 c2 : bool) (k : nat)
    (rows originalRows rows1 : list array) :
  toggleRows c1 k rows originalRows = Ok rows1 ->
  toggleRows c2 k rows1 originalRows
  = bind (toggleRows c2 k rows originalRows)
         (fun rows2 => Ok (map spread rows2))
  /\ List.length rows1 = List.length rows.
Proof.
  revert originalRows rows1.
  induction rows as [|row rows IH]; intros originalRows rows1; simpl.
  - intros [= <-]. split; reflexivity.
  - destruct (toggleRow c1 k row (head originalRows)) as [row1|e] eqn:H1;
      simpl; [|discriminate].
    destruct (toggleRows c1 k rows (tail originalRows)) as [rest1|e] eqn:Hrest;
      simpl; [|discriminate].
    intros [= <-]. simpl.
    rewrite (toggleRow_again_any c1 c2 k row row1 _ H1).
    destruct (IH _ _ Hrest) as [-> ->]. split; [|reflexivity].
    destruct (toggleRow c2 k row (head originalRows)); simpl; [|reflexivity].
    destruct (toggleRows c2 k rows (tail originalRows)); reflexivity.
Qed.

(** X26: The toggle always starts from [originalRows]: after a run that
    succeeded, the index2 cell of every row is the cell of the original
    row, reverse-complemented when the box is checked; and running the
    handler again gives what it would give on the first page, with the
    holes of its rows read as [undefined], and exactly that page when
    every row reaches the index2 column.  So the reverse complement is
    never applied twice and unchecking the box brings the original
    sequence back. *)
Theorem toggle_reads_original (c1 c2 : bool) (st st1 : page) (k : nat) :
  Utils.columnOf "index2" (headers st) = Some k ->
  handleReverseComplementToggle c1 st = Ok st1 ->
  handleReverseComplementToggle c2 st1
  = bind (handleReverseComplementToggle c2 st)
         (fun st2 =>
            Ok (Page (headers st2) (map spread (rows st2)) (originalRows st2)
                     (headerSection st2) (result st2) (error st2)))
  /\ (Forall (fun row => k < List.length row) (rows st) ->
      handleReverseComplementToggle c2 st1
      = handleReverseComplementToggle c2 st)
  /\ (forall i row1,
        rows st1 !! i = Some row1 ->
        exists original,
          originalRows st !! i = Some original
          /\ (if c1 then reverseComplementCell (get original (Some k))
              else Ok (get original (Some k)))
             = Ok (get row1 (Some k))).
Proof.
  intros Hk. unfold handleReverseComplementToggle.
  destruct (List.length (rows st) =? 0)%nat eqn:Hlen.
  - intros [= <-]. rewrite Hlen. cbn [bind].
    destruct st as [h r o hs res err]. cbn [rows] in Hlen |- *.
    destruct r; [|discriminate Hlen].
    split; [reflexivity|]. split; [reflexivity|].
    intros i row1 Hi. discriminate Hi.
  - rewrite Hk.
    destruct (toggleRows c1 k (rows st) (originalRows st)) as [rows1|e] eqn:H1;
      simpl; [|discriminate].
    intros [= <-]. cbn [rows headers originalRows headerSection result error].
    destruct (toggleRows_again_any c1 c2 k _ _ _ H1) as [Hagain Hlen1].
    rewrite Hlen1, Hlen, Hk. split; [|split].
    + rewrite Hagain.
      destruct (toggleRows c2 k (rows st) (originalRows st)); reflexivity.
    + intros Hrows.
      destruct (toggleRows_again c1 c2 k _ _ _ Hrows H1) as [Hsame _].
      rewrite Hsame. reflexivity.
    + apply (toggleRows_cells c1 k _ _ _ H1).
Qed.

Lemma toggle_reads_original_witness :
  handleReverseComplementToggle false toggledPage
  = Ok untoggledPage
  /\ handleReverseComplementToggle false toggledPage
     = handleReverseComplementToggle false untoggledPage
  /\ (forall i row1,
        rows toggledPage !! i = Some row1 ->
        exists original,
          originalRows untoggledPage !! i = Some original
          /\ reverseComplementCell (get original (Some 1))
             = Ok (get row1 (Some 1)))
  /\ handleReverseComplementToggle false shortOfIndex2Toggled
     = Ok (Page ["Sample_ID"; "Index"; "Index2"]
             [[Some (str "sample1"); Some undefined; Some undefined]]
             [ofStrings ["sample1"]] [] None None).
Proof.
  destruct (toggle_reads_original true false untoggledPage toggledPage 1)
    as (Hspread & Hsame & Hcells); [vm_compute; reflexivity..|].
  destruct (toggle_reads_original false false shortOfIndex2Page
              shortOfIndex2Toggled 2)
    as (Hshort & _ & _); [vm_compute; reflexivity..|].
  split; [exact Hspread|]. split; [|split; [exact Hcells|exact Hshort]].
  apply Hsame. apply (bool_decide_unpack _). vm_compute. exact I.
Defined.

End ToggleFacts.

(** ** Loading files on the NextSeq 2000 pages *)

Module LoadFacts.
Import JS Page2k Sheets.

Lemma reports_all_missing_witness :
  error (NextSeq2k.processContent defaultConfig emptyPage
           (unlines ["Sample_ID,Index,Lane"; "S1,AAAA,1"]))
  = Some (NextSeq2k.missingColumnsError ["index2"; "sample_project"]).
Proof.
  apply (ReconcilerFacts.processContent_reports_all_missing
           defaultConfig emptyPage
           (unlines ["Sample_ID,Index,Lane"; "S1,AAAA,1"])
           "Sample_ID,Index,Lane" ["S1,AAAA,1"]).
  - vm_compute. reflexivity.
  - vm_compute. reflexivity.
  - vm_compute. discriminate.
Defined.

(** X21: On the second NextSeq 2000 page, a file with a [[Header]] line but
    without a line that is exactly [[BCLConvert_Data]] once trimmed, such
    as the files that this page hands out, where the marker carries
    trailing commas, cannot be loaded: a [TypeError] is caught, the table
    stays as it was and the header section takes every line of the
    file. *)
Theorem alt_needs_bare_marker (cfg : config) (st : page) (content : string) :
  hasFullStructure (nonBlankLines content) = true ->
  Forall (fun l => NextSeq2kAlt.isMarker l = false) (nonBlankLines content) ->
  let st' := NextSeq2kAlt.processContent cfg st content in
  error st' = Some TypeError
  /\ result st' = None
  /\ headers st' = headers st
  /\ rows st' = rows st
  /\ originalRows st' = originalRows st
  /\ headerSection st' = nonBlankLines content.
Proof.
  intros Hfull Hno st'. subst st'. unfold NextSeq2kAlt.processContent.
  rewrite Hfull. cbn [negb]. unfold scanLines.
  rewrite (ParserFacts.scan_without_marker _ _ (Scan false [] []) Hno eq_refl).
  simpl.
  repeat split; reflexivity.
Qed.

Lemma alt_needs_bare_marker_witness :
  let st' := NextSeq2kAlt.processContent defaultConfig emptyPage altDownload in
  error st' = Some TypeError
  /\ result st' = None
  /\ headers st' = []
  /\ rows st' = []
  /\ originalRows st' = []
  /\ headerSection st' = nonBlankLines altDownload.
Proof.
  apply (alt_needs_bare_marker defaultConfig emptyPage altDownload).
  - vm_compute. reflexivity.
  - apply (bool_decide_unpack _). vm_compute. exact I.
Defined.

(** X20: On [routes/nextseq2k/+page.svelte] a bare CSV file never fills the
    table: whatever the file holds, [processContent] leaves [rows] as it
    was.  With the empty [rows] that [handleFile] sets before the call,
    [downloadValidated] then returns at once. *)
Theorem bare_csv_leaves_rows (cfg : config) (st : page) (content : string)
    (removeProject : bool) :
  hasFullStructure (nonBlankLines content) = false ->
  rows (NextSeq2k.processContent cfg st content) = rows st
  /\ (rows st = [] ->
      NextSeq2k.downloadValidated cfg removeProject
        (NextSeq2k.processContent cfg st content) = None).
Proof.
  intros Hbare.
  assert (Hrows : rows (NextSeq2k.processContent cfg st content) = rows st).
  { unfold NextSeq2k.processContent.
    destruct (isEmpty content); [reflexivity|].
    destruct (nonBlankLines content) as [|line0 rest]; [reflexivity|].
    rewrite Hbare. cbn [negb].
    repeat match goal with
           | |- context [if ?b then _ else _] => destruct b
           end; reflexivity. }
  split; [exact Hrows|]. intros Hempty.
  unfold NextSeq2k.downloadValidated. rewrite Hrows, Hempty.
  cbn [List.length Nat.eqb]. rewrite orb_true_r. reflexivity.
Qed.

Lemma bare_csv_leaves_rows_witness :
  rows (NextSeq2k.processContent defaultConfig emptyPage bareDuplicateSheet) = []
  /\ NextSeq2k.downloadValidated defaultConfig false
       (NextSeq2k.processContent defaultConfig emptyPage bareDuplicateSheet)
     = None.
Proof.
  destruct (bare_csv_leaves_rows defaultConfig emptyPage bareDuplicateSheet false)
    as [Hrows Hdownload]; [vm_compute; reflexivity|].
  split; [exact Hrows|apply Hdownload; reflexivity].
Defined.

(** *** [processRows] *)

Lemma indexOfLower_columnOf (name : string) (headers : list string) :
  NextSeq2k.indexOfLower name headers = Utils.columnOf name headers.
Proof.
  unfold NextSeq2k.indexOfLower, Utils.columnOf.
  induction headers as [|h headers IH]; simpl; [reflexivity|].
  rewrite String.eqb_sym, IH. reflexivity.
Qed.

Lemma processRow_sanitizes (headers : list string) (st : NextSeq2k.rowsState)
    (row : array) :
  fst (NextSeq2k.processRow headers st row)
  = NextSeq2kAlt.sanitizeRow headers row
  /\ NextSeq2k.changedSampleIds (snd (NextSeq2k.processRow headers st row))
     = NextSeq2k.changedSampleIds st
       ++ option_list
            match get row (Utils.columnOf "sample_id" headers) with
            | str s =>
                if String.eqb s (Utils.replaceSpecialCharacters s) then None
                else Some s
            | undefined => None
            end.
Proof.
  unfold NextSeq2k.processRow, NextSeq2kAlt.sanitizeRow.
  rewrite !indexOfLower_columnOf.
  destruct (Utils.columnOf "sample_id" headers) as [i|];
    [destruct (get row (Some i)) as [|s]; cbn [Utils.replaceSpecialCharactersCell
       NextSeq2k.valueNe]; [|destruct (String.eqb s _)]|];
    destruct (Utils.columnOf "index" headers);
    destruct (Utils.columnOf "index2" headers);
    try destruct (NextSeq2k.indexCombinations st !! _);
    cbn [fst snd NextSeq2k.changedSampleIds negb option_list orEmpty];
    rewrite ?app_nil_r; split; reflexivity.
Qed.

Lemma mapRows_sanitizes (headers : list string) (rows : list array)
    (st : NextSeq2k.rowsState) :
  fst (NextSeq2k.mapRows headers rows st)
  = map (NextSeq2kAlt.sanitizeRow headers) rows
  /\ NextSeq2k.changedSampleIds (snd (NextSeq2k.mapRows headers rows st))
     = NextSeq2k.changedSampleIds st
       ++ omap (fun row =>
                  match get row (Utils.columnOf "sample_id" headers) with
                  | str s =>
                      if String.eqb s (Utils.replaceSpecialCharacters s)
                      then None else Some s
                  | undefined => None
                  end)
               rows.
Proof.
  revert st. induction rows as [|row rows IH]; intros st.
  - simpl. rewrite app_nil_r. split; reflexivity.
  - cbn [NextSeq2k.mapRows].
    destruct (processRow_sanitizes headers st row) as [Hrow Hchanged].
    destruct (NextSeq2k.processRow headers st row) as [newRow st1].
    destruct (IH st1) as [Hrows Hrest].
    destruct (NextSeq2k.mapRows headers rows st1) as [rows' st2].
    cbn [fst snd] in *. subst newRow rows'. split; [reflexivity|].
    rewrite Hrest, Hchanged, <- app_assoc. f_equal.
    cbn [omap list_omap].
    destruct (get row (Utils.columnOf "sample_id" headers)) as [|s];
      [reflexivity|].
    destruct (String.eqb s (Utils.replaceSpecialCharacters s)); reflexivity.
Qed.

(** X22: [processRows] returns the rows with the Sample_ID cell sanitized and
    the other cells kept, and lists, in row order, the original sample
    identifiers that the sanitizer changes; the duplicate detection has no
    part in either. *)
Theorem processRows_sanitizes (rows : list array) (headers : list string) :
  NextSeq2k.processed (NextSeq2k.processRows rows headers)
  = map (NextSeq2kAlt.sanitizeRow headers) rows
  /\ NextSeq2k.changed (NextSeq2k.processRows rows headers)
     = omap (fun row =>
               match get row (Utils.columnOf "sample_id" headers) with
               | str s =>
                   if String.eqb s (Utils.replaceSpecialCharacters s)
                   then None else Some s
               | undefined => None
               end)
            rows.
Proof.
  unfold NextSeq2k.processRows.
  destruct (mapRows_sanitizes headers rows (NextSeq2k.RowsState [] [] ∅ []))
    as [Hrows Hchanged].
  destruct (NextSeq2k.mapRows headers rows _) as [rows' st'].
  cbn [fst snd NextSeq2k.processed NextSeq2k.changed] in *.
  split; [exact Hrows|exact Hchanged].
Qed.

End LoadFacts.
